(** * NutriGenie: food catalog, intake aggregation, gap analysis,
      food comparison and recommendations

    A shallow embedding of [food_database.py], [nutrition_analyzer.py],
    [food_comparator.py], [smart_recommendations.py], [meal_planner.py] and
    of the classification, the recommendations and the food lists of
    [nutrition_engine.py].

    Modelling conventions.
    - Python numbers are IEEE-754 binary64 values ([spec_float] at
      precision 53 and maximal exponent 1024, rounding to nearest even, as
      CPython's [float]).  An integer of the source (a literal such as 100,
      an age, a target written without a fraction) is the double of the same
      value; the decimal literals are the doubles nearest to them.
    - A raised exception is a value of [exn]; code that can raise lives in
      the [result] monad.
    - A pandas row is a finite map from column labels to cells, a frame is
      its column labels and its rows in table order.
    - A Python [dict] whose iteration order is irrelevant is a [gmap]; the
      dictionary of recommendation gaps, which is iterated while floats are
      accumulated, keeps its insertion order as an association list.
    - A Python string is the sequence of the bytes of its UTF-8 encoding;
      [lower] and the keyword tests act on ASCII letters.
    - The table is the one that [_load_food_data] has read: reading the
      files is not modelled. *)

From Stdlib Require Import ZArith Lia Bool List Ascii String Sorting.Permutation.
From Stdlib Require Import Floats.SpecFloat.
From stdpp Require Import base option list sorting gmap strings fin_maps.

Local Open Scope Z_scope.

(** ** Binary64 arithmetic *)

Module F64.

Definition prec : Z := 53.
Definition emax : Z := 1024.

Abbreviation float := spec_float.

Definition add : float -> float -> float := SFadd prec emax.
Definition sub : float -> float -> float := SFsub prec emax.
Definition mul : float -> float -> float := SFmul prec emax.
Definition div : float -> float -> float := SFdiv prec emax.
Definition opp : float -> float := SFopp.
Definition abs : float -> float := SFabs.
Definition eqb : float -> float -> bool := SFeqb.
Definition ltb : float -> float -> bool := SFltb.
Definition leb : float -> float -> bool := SFleb.

(** The double nearest to an integer (exact below 2^53). *)
Definition of_Z (n : Z) : float := binary_normalize prec emax n 0 false.

(** The double denoted by the decimal literal [n / 10^k]: the correctly
    rounded quotient of two exactly representable integers. *)
Definition of_dec (n : Z) (k : Z) : float := div (of_Z n) (of_Z (10 ^ k)).

Definition zero : float := S754_zero false.
Definition c0_1 : float := S754_finite false 7205759403792794 (-56).
Definition c0_8 : float := S754_finite false 7205759403792794 (-53).
Definition c1 : float := S754_finite false 4503599627370496 (-52).
Definition c1_2 : float := S754_finite false 5404319552844595 (-52).
Definition c1_375 : float := S754_finite false 6192449487634432 (-52).
Definition c1_55 : float := S754_finite false 6980579422424269 (-52).
Definition c1_725 : float := S754_finite false 7768709357214106 (-52).
Definition c1_9 : float := S754_finite false 8556839292003942 (-52).
Definition c5 : float := S754_finite false 5629499534213120 (-50).
Definition c6_25 : float := S754_finite false 7036874417766400 (-50).
Definition c10 : float := S754_finite false 5629499534213120 (-49).
Definition c20 : float := S754_finite false 5629499534213120 (-48).
Definition c25 : float := S754_finite false 7036874417766400 (-48).
Definition c100 : float := S754_finite false 7036874417766400 (-46).
Definition c161 : float := S754_finite false 5664683906301952 (-45).

(** A double that is neither an infinity nor a NaN, in canonical form. *)
Definition finite (x : float) : bool :=
  match x with
  | S754_zero _ => true
  | S754_finite _ m e => bounded prec emax m e
  | _ => false
  end.

(** A finite double that is not below zero. *)
Definition nonneg_finite (x : float) : bool :=
  match x with
  | S754_zero _ => true
  | S754_finite false m e => bounded prec emax m e
  | _ => false
  end.

Definition is_nan (x : float) : bool :=
  match x with S754_nan => true | _ => false end.

(** A double other than NaN whose sign bit is [s]. *)
Definition has_sign (s : bool) (x : float) : bool :=
  match x with
  | S754_zero s' | S754_infinity s' | S754_finite s' _ _ => Bool.eqb s' s
  | S754_nan => false
  end.

(** A double above zero: a positive finite double or plus infinity. *)
Definition above_zero (x : float) : bool :=
  match x with
  | S754_finite false _ _ | S754_infinity false => true
  | _ => false
  end.

(** A double that is not below zero: a zero, a positive finite double or
    plus infinity. *)
Definition nonneg (x : float) : bool :=
  match x with
  | S754_zero _ | S754_finite false _ _ | S754_infinity false => true
  | _ => false
  end.

(** The double [x] has sign [s] and is at least [2^(k-1)] in absolute value:
    it is the infinity of that sign or a finite double of that sign whose
    mantissa and exponent reach the magnitude [k]. *)
Definition large (k : Z) (s : bool) (x : float) : Prop :=
  match x with
  | S754_finite s' m e => s' = s /\ k <= Z.pos (digits2_pos m) + e
  | S754_infinity s' => s' = s
  | _ => False
  end.

End F64.

Import F64.

(** ** Python values, exceptions and the error monad *)

Inductive exn : Type :=
| IndexError
| KeyError (key : string)
| TypeError
| AttributeError
| ValueError
| ZeroDivisionError.

Inductive result (A : Type) : Type :=
| Ok (a : A)
| Raise (e : exn).
Arguments Ok {A} a.
Arguments Raise {A} e.

#[global] Instance result_ret : MRet result := fun _ a => Ok a.
#[global] Instance result_bind : MBind result := fun _ _ f m =>
  match m with
  | Ok a => f a
  | Raise e => Raise e
  end.

Definition is_ok {A} (r : result A) : bool :=
  match r with Ok _ => true | Raise _ => false end.

(** [for x in xs: acc = body(acc, x)], stopping at the first exception. *)
Fixpoint foldM {A B} (body : B -> A -> result B) (xs : list A) (acc : B)
  : result B :=
  match xs with
  | [] => Ok acc
  | x :: xs' => acc' ← body acc x; foldM body xs' acc'
  end.

(** A list comprehension whose element expression can raise. *)
Fixpoint mapM_result {A B} (f : A -> result B) (xs : list A) : result (list B) :=
  match xs with
  | [] => Ok []
  | x :: xs' => y ← f x; ys ← mapM_result f xs'; Ok (y :: ys)
  end.

(** The content of a table cell or of an object attribute. *)
Inductive cell : Type :=
| Str (s : string)
| Num (x : float)
| Bool (b : bool).

(** The operand of an arithmetic operator or of an ordering comparison with
    a number: a string raises [TypeError], a [bool] counts as 0 or 1. *)
Definition num (c : cell) : result float :=
  match c with
  | Num x => Ok x
  | Bool b => Ok (if b then c1 else zero)
  | Str _ => Raise TypeError
  end.

(** [c == s] for a string [s]. *)
Definition cell_eq_str (c : cell) (s : string) : bool :=
  match c with
  | Str s' => bool_decide (s' = s)
  | _ => false
  end.

(** [c == x] for a number [x]. *)
Definition cell_eq_num (c : cell) (x : float) : bool :=
  match c with
  | Num y => eqb y x
  | Bool b => eqb (if b then c1 else zero) x
  | Str _ => false
  end.

(** [x / y] on floats: CPython raises on a zero divisor. *)
Definition py_div (x y : float) : result float :=
  if eqb y zero then Raise ZeroDivisionError else Ok (div x y).

(** [l[:k]] *)
Definition slice_to {A} (k : Z) (l : list A) : list A :=
  if 0 <=? k then firstn (Z.to_nat k) l
  else firstn (Z.to_nat (Z.of_nat (length l) + k)) l.

(** [str.lower] on ASCII text. *)
Definition lower_ascii (a : ascii) : ascii :=
  let n := nat_of_ascii a in
  if ((65 <=? n) && (n <=? 90))%nat then ascii_of_nat (n + 32) else a.

Fixpoint lower (s : string) : string :=
  match s with
  | EmptyString => EmptyString
  | String a s' => String (lower_ascii a) (lower s')
  end.

(** ** Sorting, as [list.sort] does it: stable, comparing keys with [<] only.

    [insert_sorted] puts an element behind every element that is not greater
    than it, as the binary insertion of CPython's sort does; [py_sort] inserts
    the elements from left to right.  With [reverse=True] CPython reverses the
    list, sorts it, and reverses it again.  On keys without NaN the order is
    total, and every stable sort, CPython's merging of longer lists included,
    returns this list. *)
Section Sort.
Context {A : Type} (key : A -> float).

Fixpoint insert_sorted (x : A) (l : list A) : list A :=
  match l with
  | [] => [x]
  | y :: l' => if ltb (key x) (key y) then x :: y :: l'
               else y :: insert_sorted x l'
  end.

Definition py_sort (l : list A) : list A :=
  fold_left (fun acc x => insert_sorted x acc) l [].

Definition py_sort_reverse (l : list A) : list A :=
  rev (py_sort (rev l)).
End Sort.

(** ** food_database.py *)

Abbreviation row := (gmap string cell).

(** A pandas DataFrame: the column labels and the rows in table order. *)
Record DataFrame : Type := {
  columns : list string;
  rows : list row;
}.

(** [row[col]] *)
Definition row_get (r : row) (col : string) : result cell :=
  match r !! col with
  | Some c => Ok c
  | None => Raise (KeyError col)
  end.

(** [row.get(col, 0)] *)
Definition row_get_default (r : row) (col : string) : cell :=
  default (Num zero) (r !! col).

(** [df[col]]: selecting a column that the frame does not have raises. *)
Definition frame_col (df : DataFrame) (col : string) : result unit :=
  if bool_decide (col ∈ columns df) then Ok tt else Raise (KeyError col).

Record FoodNutrient : Type := {
  food_name : cell;
  calories : cell;
  fat : cell;
  saturated_fats : cell;
  monounsaturated_fats : cell;
  polyunsaturated_fats : cell;
  carbs : cell;
  sugars : cell;
  protein : cell;
  fiber : cell;
  cholesterol : cell;
  sodium : cell;
  water : cell;
  vitamin_a : cell;
  vitamin_b1 : cell;
  vitamin_b2 : cell;
  vitamin_b3 : cell;
  vitamin_b5 : cell;
  vitamin_b6 : cell;
  vitamin_b12 : cell;
  vitamin_c : cell;
  vitamin_d : cell;
  vitamin_e : cell;
  vitamin_k : cell;
  calcium : cell;
  copper : cell;
  iron : cell;
  magnesium : cell;
  manganese : cell;
  phosphorus : cell;
  potassium : cell;
  selenium : cell;
  zinc : cell;
  nutrition_density : cell;
}.

(** The attribute of a [FoodNutrient] named [a], if it has one. *)
Definition attr (f : FoodNutrient) (a : string) : option cell :=
  if bool_decide (a = "food_name") then Some (food_name f)
  else if bool_decide (a = "calories") then Some (calories f)
  else if bool_decide (a = "fat") then Some (fat f)
  else if bool_decide (a = "saturated_fats") then Some (saturated_fats f)
  else if bool_decide (a = "monounsaturated_fats") then Some (monounsaturated_fats f)
  else if bool_decide (a = "polyunsaturated_fats") then Some (polyunsaturated_fats f)
  else if bool_decide (a = "carbs") then Some (carbs f)
  else if bool_decide (a = "sugars") then Some (sugars f)
  else if bool_decide (a = "protein") then Some (protein f)
  else if bool_decide (a = "fiber") then Some (fiber f)
  else if bool_decide (a = "cholesterol") then Some (cholesterol f)
  else if bool_decide (a = "sodium") then Some (sodium f)
  else if bool_decide (a = "water") then Some (water f)
  else if bool_decide (a = "vitamin_a") then Some (vitamin_a f)
  else if bool_decide (a = "vitamin_b1") then Some (vitamin_b1 f)
  else if bool_decide (a = "vitamin_b2") then Some (vitamin_b2 f)
  else if bool_decide (a = "vitamin_b3") then Some (vitamin_b3 f)
  else if bool_decide (a = "vitamin_b5") then Some (vitamin_b5 f)
  else if bool_decide (a = "vitamin_b6") then Some (vitamin_b6 f)
  else if bool_decide (a = "vitamin_b12") then Some (vitamin_b12 f)
  else if bool_decide (a = "vitamin_c") then Some (vitamin_c f)
  else if bool_decide (a = "vitamin_d") then Some (vitamin_d f)
  else if bool_decide (a = "vitamin_e") then Some (vitamin_e f)
  else if bool_decide (a = "vitamin_k") then Some (vitamin_k f)
  else if bool_decide (a = "calcium") then Some (calcium f)
  else if bool_decide (a = "copper") then Some (copper f)
  else if bool_decide (a = "iron") then Some (iron f)
  else if bool_decide (a = "magnesium") then Some (magnesium f)
  else if bool_decide (a = "manganese") then Some (manganese f)
  else if bool_decide (a = "phosphorus") then Some (phosphorus f)
  else if bool_decide (a = "potassium") then Some (potassium f)
  else if bool_decide (a = "selenium") then Some (selenium f)
  else if bool_decide (a = "zinc") then Some (zinc f)
  else if bool_decide (a = "nutrition_density") then Some (nutrition_density f)
  else None.

(** [getattr(f, a, 0)] *)
Definition getattr (f : FoodNutrient) (a : string) : cell :=
  default (Num zero) (attr f a).

Record FoodDatabase : Type := {
  food_data : DataFrame;
}.

(** One entry of [food_data['food'].str.lower() == food_name]: a cell that
    is not a string lowers to a missing value, which equals nothing. *)
Definition name_matches (lowered : string) (r : row) : bool :=
  match r !! "food" with
  | Some (Str s) => bool_decide (lower s = lowered)
  | _ => false
  end.

(** [FoodNutrient(food_name=row['food'], calories=row['Caloric Value'], ...)] *)
Definition food_of_row (r : row) : result FoodNutrient :=
  v0 ← row_get r "food";
  v1 ← row_get r "Caloric Value";
  v2 ← row_get r "Fat";
  v3 ← row_get r "Saturated Fats";
  v4 ← row_get r "Monounsaturated Fats";
  v5 ← row_get r "Polyunsaturated Fats";
  v6 ← row_get r "Carbohydrates";
  v7 ← row_get r "Sugars";
  v8 ← row_get r "Protein";
  v9 ← row_get r "Dietary Fiber";
  v10 ← row_get r "Cholesterol";
  v11 ← row_get r "Sodium";
  v12 ← row_get r "Water";
  v13 ← row_get r "Vitamin A";
  v14 ← row_get r "Vitamin B1";
  v15 ← row_get r "Vitamin B2";
  v16 ← row_get r "Vitamin B3";
  v17 ← row_get r "Vitamin B5";
  v18 ← row_get r "Vitamin B6";
  v19 ← row_get r "Vitamin B12";
  v20 ← row_get r "Vitamin C";
  v21 ← row_get r "Vitamin D";
  v22 ← row_get r "Vitamin E";
  v23 ← row_get r "Vitamin K";
  v24 ← row_get r "Calcium";
  v25 ← row_get r "Copper";
  v26 ← row_get r "Iron";
  v27 ← row_get r "Magnesium";
  v28 ← row_get r "Manganese";
  v29 ← row_get r "Phosphorus";
  v30 ← row_get r "Potassium";
  v31 ← row_get r "Selenium";
  v32 ← row_get r "Zinc";
  v33 ← row_get r "Nutrition Density";
  Ok {| food_name := v0; calories := v1; fat := v2; saturated_fats := v3;
        monounsaturated_fats := v4; polyunsaturated_fats := v5; carbs := v6;
        sugars := v7; protein := v8; fiber := v9; cholesterol := v10;
        sodium := v11; water := v12; vitamin_a := v13; vitamin_b1 := v14;
        vitamin_b2 := v15; vitamin_b3 := v16; vitamin_b5 := v17;
        vitamin_b6 := v18; vitamin_b12 := v19; vitamin_c := v20;
        vitamin_d := v21; vitamin_e := v22; vitamin_k := v23; calcium := v24;
        copper := v25; iron := v26; magnesium := v27; manganese := v28;
        phosphorus := v29; potassium := v30; selenium := v31; zinc := v32;
        nutrition_density := v33 |}.

(** [FoodDatabase.get_food_nutrition]:
    [food_data[...]] keeps the matching rows, [.iloc[0]] takes the first of
    them and raises [IndexError] when there is none; [row.empty] holds of a
    row without any entry. *)
Definition get_food_nutrition (db : FoodDatabase) (name : string)
  : result (option FoodNutrient) :=
  let lowered := lower name in
  _ ← frame_col (food_data db) "food";
  match List.filter (name_matches lowered) (rows (food_data db)) with
  | [] => Raise IndexError
  | r :: _ =>
      if bool_decide (r = ∅) then Ok None
      else f ← food_of_row r; Ok (Some f)
  end.

(** ** nutrition_analyzer.py *)

(** [d[key]] on a dictionary of floats. *)
Definition dict_get (d : gmap string float) (key : string) : result float :=
  match d !! key with
  | Some v => Ok v
  | None => Raise (KeyError key)
  end.

(** [d.get(key, 0)] *)
Definition dict_get_default (d : gmap string float) (key : string) : float :=
  default zero (d !! key).

(** [total_nutrition[key] += value * scale_factor] *)
Definition accumulate (key : string) (value : cell) (scale_factor : float)
    (total_nutrition : gmap string float) : result (gmap string float) :=
  cur ← dict_get total_nutrition key;
  v ← num value;
  Ok (<[key := add cur (mul v scale_factor)]> total_nutrition).

Definition empty_totals : gmap string float :=
  <["calories" := zero]> (<["protein" := zero]> (<["carbs" := zero]>
  (<["fat" := zero]> (<["fiber" := zero]> (<["vitamin_c" := zero]>
  (<["iron" := zero]> (<["calcium" := zero]> ∅))))))).

(** The body of the loop of [analyze_daily_intake]. *)
Definition add_entry (db : FoodDatabase) (total_nutrition : gmap string float)
    (entry : string * float) : result (gmap string float) :=
  let '(food, quantity) := entry in
  nutrition ← get_food_nutrition db food;
  match nutrition with
  | None => Ok total_nutrition
  | Some nutrition =>
      let scale_factor := div quantity c100 in
      t ← accumulate "calories" (calories nutrition) scale_factor total_nutrition;
      t ← accumulate "protein" (protein nutrition) scale_factor t;
      t ← accumulate "carbs" (carbs nutrition) scale_factor t;
      t ← accumulate "fat" (fat nutrition) scale_factor t;
      t ← accumulate "fiber" (fiber nutrition) scale_factor t;
      t ← accumulate "vitamin_c" (vitamin_c nutrition) scale_factor t;
      t ← accumulate "iron" (iron nutrition) scale_factor t;
      accumulate "calcium" (calcium nutrition) scale_factor t
  end.

(** [NutritionAnalyzer.analyze_daily_intake] *)
Definition analyze_daily_intake (db : FoodDatabase)
    (consumed_foods : list string) (quantities : list float)
  : result (gmap string float) :=
  foldM (add_entry db) (combine consumed_foods quantities) empty_totals.

(** The nutrients the aggregation tracks, with the attribute each is read
    from. *)
Definition tracked : list (string * (FoodNutrient -> cell)) :=
  [("calories", calories); ("protein", protein); ("carbs", carbs);
   ("fat", fat); ("fiber", fiber); ("vitamin_c", vitamin_c); ("iron", iron);
   ("calcium", calcium)].

Definition numeric (c : cell) : bool :=
  match c with Str _ => false | _ => true end.

(** The number a numeric cell stands for. *)
Definition value (c : cell) : float :=
  match c with
  | Num x => x
  | Bool b => if b then c1 else zero
  | Str _ => zero
  end.

(** The sum, accumulated from [init] in list order, of
    [field * (grams / 100)] over entries paired with their food records. *)
Definition sum_from (field : FoodNutrient -> cell) (init : float)
    (items : list ((string * float) * FoodNutrient)) : float :=
  fold_left (fun acc item => add acc (mul (value (field item.2))
                                          (div item.1.2 c100)))
            items init.

(** The entry's food is in the catalog, as the record [n] whose tracked
    nutrients are numbers. *)
Definition known (db : FoodDatabase) (entry : string * float)
    (n : FoodNutrient) : Prop :=
  get_food_nutrition db entry.1 = Ok (Some n) /\
  Forall (fun kf : string * (FoodNutrient -> cell) => numeric (kf.2 n) = true)
         tracked.

(** A totals dictionary with the given eight values. *)
Definition totals_map (cal prot carb fat_ fib vc ir ca : float)
  : gmap string float :=
  <["calories" := cal]> (<["protein" := prot]> (<["carbs" := carb]>
  (<["fat" := fat_]> (<["fiber" := fib]> (<["vitamin_c" := vc]>
  (<["iron" := ir]> (<["calcium" := ca]> ∅))))))).

Record NutrientGap : Type := {
  current : float;
  target : float;
  deficit : float;
  percentage : float;
}.

(** The body of the loop of [identify_nutritional_gaps]. *)
Definition gap_step (intake : gmap string float)
    (gaps : gmap string NutrientGap) (item : string * float)
  : result (gmap string NutrientGap) :=
  let '(nutrient, target) := item in
  let current := dict_get_default intake nutrient in
  if ltb current (mul target c0_8) then
    q ← py_div current target;
    Ok (<[nutrient := {| current := current; target := target;
                         deficit := sub target current;
                         percentage := mul q c100 |}]> gaps)
  else Ok gaps.

(** [NutritionAnalyzer.identify_nutritional_gaps].  The targets are visited
    in the order in which [map_to_list] lists them; the resulting dictionary
    and the only exception the body can raise do not depend on that order. *)
Definition identify_nutritional_gaps (intake targets : gmap string float)
  : result (gmap string NutrientGap) :=
  foldM (gap_step intake) (map_to_list targets) ∅.

(** The record the analysis emits for a flagged nutrient. *)
Definition gap_record (current target : float) : NutrientGap :=
  {| current := current; target := target;
     deficit := sub target current;
     percentage := mul (div current target) c100 |}.

(** What the analysis reports for a nutrient whose target is [target]. *)
Definition reported_gap (intake : gmap string float) (nutrient : string)
    (target : float) : option NutrientGap :=
  let current := dict_get_default intake nutrient in
  if ltb current (mul target c0_8) then Some (gap_record current target)
  else None.

(** A step is safe when it does not divide by a zero target. *)
Definition safe_target (intake : gmap string float) (item : string * float)
  : Prop :=
  ltb (dict_get_default intake item.1) (mul item.2 c0_8) = true ->
  eqb item.2 zero = false.

(** ** food_comparator.py *)

Definition default_nutrients : list string :=
  ["calories"; "fat"; "carbs"; "protein"; "fiber"; "sodium"; "vitamin_c"; "iron"].

Record NutrientComparison : Type := {
  food1_value : cell;
  food2_value : cell;
  difference : float;
  percentage_diff : float;
  better_food : string;
}.

Record Comparison : Type := {
  food1 : string;
  food2 : string;
  comparison : gmap string NutrientComparison;
}.

(** The percentage difference of two attribute values. *)
Definition diff_percent (value1 value2 : cell) : result float :=
  if cell_eq_num value1 zero && cell_eq_num value2 zero then Ok zero
  else if negb (cell_eq_num value2 zero) then
    a ← num value1; b ← num value2;
    q ← py_div (sub a b) b;
    Ok (mul q c100)
  else Ok c100.

(** The body of the loop of [compare_foods]. *)
Definition compare_nutrient (food1 food2 : string) (n1 n2 : FoodNutrient)
    (acc : gmap string NutrientComparison) (nutrient : string)
  : result (gmap string NutrientComparison) :=
  let value1 := getattr n1 nutrient in
  let value2 := getattr n2 nutrient in
  p ← diff_percent value1 value2;
  a ← num value1; b ← num value2;
  Ok (<[nutrient := {| food1_value := value1; food2_value := value2;
                       difference := sub a b;
                       percentage_diff := p;
                       better_food := if ltb zero p then food1 else food2 |}]> acc).

(** [FoodComparator.compare_foods] *)
Definition compare_foods (db : FoodDatabase) (food1 food2 : string)
    (nutrients : option (list string)) : result Comparison :=
  let nutrients := default default_nutrients nutrients in
  food1_nutrition ← get_food_nutrition db food1;
  food2_nutrition ← get_food_nutrition db food2;
  match food1_nutrition, food2_nutrition with
  | Some n1, Some n2 =>
      c ← foldM (compare_nutrient food1 food2 n1 n2) nutrients ∅;
      Ok {| food1 := food1; food2 := food2; comparison := c |}
  | _, _ => Raise ValueError
  end.

(** A cell that holds a finite number. *)
Definition finite_cell (c : cell) : bool :=
  numeric c && finite (value c).

(** A cell that holds a finite number that is not below zero. *)
Definition nonneg_cell (c : cell) : bool :=
  numeric c && nonneg_finite (value c).

(** The percentage difference of two numbers, without the exceptions. *)
Definition pct (a b : float) : float :=
  if eqb a zero && eqb b zero then zero
  else if negb (eqb b zero) then mul (div (sub a b) b) c100
  else c100.

(** The entry [compare_foods] stores for a nutrient with numeric values. *)
Definition comparison_entry (food1 food2 : string) (n1 n2 : FoodNutrient)
    (nutrient : string) : NutrientComparison :=
  let a := value (getattr n1 nutrient) in
  let b := value (getattr n2 nutrient) in
  {| food1_value := getattr n1 nutrient;
     food2_value := getattr n2 nutrient;
     difference := sub a b;
     percentage_diff := pct a b;
     better_food := if ltb zero (pct a b) then food1 else food2 |}.

Definition similarity_nutrients : list string :=
  ["calories"; "protein"; "fat"; "carbs"; "fiber"].

(** The inner loop of [find_similar_foods]: the sum of the absolute
    differences over the key nutrients. *)
Definition similarity_score (target_nutrition : FoodNutrient) (r : row)
  : result float :=
  foldM (fun score nutrient =>
           let value := getattr target_nutrition nutrient in
           c ← row_get r nutrient;
           a ← num value; b ← num c;
           Ok (add score (abs (sub a b))))
        similarity_nutrients zero.

(** The body of the outer loop of [find_similar_foods]. *)
Definition similarity_step (food : string) (target_nutrition : FoodNutrient)
    (similarities : list (cell * float)) (r : row)
  : result (list (cell * float)) :=
  name ← row_get r "food_name";
  if cell_eq_str name food then Ok similarities
  else
    score ← similarity_score target_nutrition r;
    Ok (similarities ++ [(name, score)]).

(** [all_foods[all_foods[col] == s]] *)
Definition select_eq_str (df : DataFrame) (col s : string) : result DataFrame :=
  _ ← frame_col df col;
  Ok {| columns := columns df;
        rows := List.filter (fun r : row =>
                  match r !! col with Some c => cell_eq_str c s | None => false end)
                  (rows df) |}.

(** The similarity distance of a row to the target: the sum, accumulated
    from 0 over the key nutrients in their order, of the absolute
    differences. *)
Definition distance (target_nutrition : FoodNutrient) (r : row) : float :=
  fold_left (fun score nutrient =>
               add score (abs (sub (value (getattr target_nutrition nutrient))
                                   (value (row_get_default r nutrient)))))
            similarity_nutrients zero.

(** The rows other than the one named [food], each with its name and its
    distance to the target, in table order. *)
Definition scored_candidates (food : string) (target_nutrition : FoodNutrient)
    (rs : list row) : list (cell * float) :=
  map (fun r => (row_get_default r "food_name", distance target_nutrition r))
      (List.filter (fun r => negb (cell_eq_str (row_get_default r "food_name")
                                               food)) rs).

(** A list whose keys never decrease from left to right. *)
Definition ascending {A} (key : A -> float) (l : list A) : Prop :=
  StronglySorted (fun a b => leb (key a) (key b) = true) l.

(** A list whose keys never increase from left to right. *)
Definition descending {A} (key : A -> float) (l : list A) : Prop :=
  StronglySorted (fun a b => leb (key b) (key a) = true) l.

(** The rows a category restricts the search to. *)
Definition rows_of_category (df : DataFrame) (category : option string)
  : list row :=
  match category with
  | Some c =>
      if bool_decide (c = "") then rows df
      else List.filter (fun r : row =>
             match r !! "category" with
             | Some cat => cell_eq_str cat c
             | None => false
             end) (rows df)
  | None => rows df
  end.

(** A row with a name and finite numbers for the key nutrients. *)
Definition comparable_row (r : row) : bool :=
  bool_decide (is_Some (r !! "food_name")) &&
  forallb (fun nutrient => match r !! nutrient with
                           | Some c => finite_cell c
                           | None => false
                           end) similarity_nutrients.

(** [FoodComparator.find_similar_foods] *)
Definition find_similar_foods (db : FoodDatabase) (food : string)
    (category : option string) (max_results : Z) : result (list cell) :=
  target_nutrition ← get_food_nutrition db food;
  match target_nutrition with
  | None => Ok []
  | Some target_nutrition =>
      all_foods ← match category with
                  | Some c => if bool_decide (c = "") then Ok (food_data db)
                              else select_eq_str (food_data db) "category" c
                  | None => Ok (food_data db)
                  end;
      similarities ← foldM (similarity_step food target_nutrition)
                           (rows all_foods) [];
      Ok (map fst (slice_to max_results (py_sort snd similarities)))
  end.

(** ** smart_recommendations.py *)

(** An entry of the intake list: [{'food': ..., 'quantity': ...}]. *)
Record IntakeItem : Type := {
  food : string;
  quantity : float;
}.

(** The dictionary returned for one recommended food. *)
Record Recommendation : Type := {
  rec_food_name : cell;
  rec_calories : cell;
  rec_protein : cell;
  rec_carbs : cell;
  rec_fat : cell;
  rec_fiber : cell;
  rec_category : cell;
}.

(** [user_profile[key]] *)
Definition profile_get (user_profile : gmap string cell) (key : string)
  : result cell :=
  match user_profile !! key with
  | Some c => Ok c
  | None => Raise (KeyError key)
  end.

(** [s.lower()]: only strings have the method. *)
Definition str_lower (c : cell) : result string :=
  match c with
  | Str s => Ok (lower s)
  | _ => Raise AttributeError
  end.

Definition activity_multipliers (activity_level : string) : option float :=
  if bool_decide (activity_level = "sedentary") then Some c1_2
  else if bool_decide (activity_level = "light") then Some c1_375
  else if bool_decide (activity_level = "moderate") then Some c1_55
  else if bool_decide (activity_level = "heavy") then Some c1_725
  else if bool_decide (activity_level = "very_heavy") then Some c1_9
  else None.

(** [10 * weight + 6.25 * height - 5 * age], the part of the Mifflin-St Jeor
    equation that both branches share. *)
Definition bmr_base (age weight height : float) : float :=
  sub (add (mul c10 weight) (mul c6_25 height)) (mul c5 age).

(** [SmartRecommendations._calculate_calorie_needs] *)
Definition _calculate_calorie_needs (age weight height gender activity_level : cell)
  : result float :=
  g ← str_lower gender;
  w ← num weight; h ← num height; a ← num age;
  let bmr := if bool_decide (g = "male") then add (bmr_base a w h) c5
             else sub (bmr_base a w h) c161 in
  l ← str_lower activity_level;
  Ok (mul bmr (default c1_55 (activity_multipliers l))).

(** [SmartRecommendations._calculate_protein_needs] *)
Definition _calculate_protein_needs (weight : cell) : result float :=
  w ← num weight; Ok (mul w c1).

(** [SmartRecommendations._calculate_nutritional_gaps]; the result lists the
    three gaps in the order in which the source inserts them. *)
Definition _calculate_nutritional_gaps (current_nutrition : gmap string float)
    (user_profile : gmap string cell) : result (list (string * float)) :=
  age ← profile_get user_profile "age";
  weight ← profile_get user_profile "weight";
  height ← profile_get user_profile "height";
  gender ← profile_get user_profile "gender";
  activity_level ← profile_get user_profile "activity_level";
  calorie_needs ← _calculate_calorie_needs age weight height gender activity_level;
  weight' ← profile_get user_profile "weight";
  protein_needs ← _calculate_protein_needs weight';
  Ok [("calories", sub calorie_needs (dict_get_default current_nutrition "calories"));
      ("protein", sub protein_needs (dict_get_default current_nutrition "protein"));
      ("fiber", sub c25 (dict_get_default current_nutrition "fiber"))].

(** [max(scores)] for a non-empty list: the first of the largest items. *)
Definition py_max (first : float) (others : list float) : float :=
  fold_left (fun m x => if ltb m x then x else m) others first.

(** The loop of [_addresses_nutritional_gaps]. *)
Definition gap_ratios (r : row) (gaps : list (string * float))
  : result (list float) :=
  foldM (fun scores '(nutrient, gap) =>
           if ltb zero gap then
             value ← num (row_get_default r nutrient);
             if ltb zero value then
               q ← py_div value gap; Ok (scores ++ [q])
             else Ok scores
           else Ok scores)
        gaps [].

(** [SmartRecommendations._addresses_nutritional_gaps] *)
Definition _addresses_nutritional_gaps (r : row) (gaps : list (string * float))
  : result bool :=
  scores ← gap_ratios r gaps;
  match scores with
  | [] => Ok false
  | s :: others => Ok (ltb c0_1 (py_max s others))
  end.

(** [SmartRecommendations._is_similar_to_current_intake] *)
Fixpoint _is_similar_to_current_intake (db : FoodDatabase) (r : row)
    (current_intake : list IntakeItem) : result bool :=
  match current_intake with
  | [] => Ok false
  | intake :: rest =>
      name ← row_get r "food_name";
      name ← match name with Str s => Ok s | _ => Raise AttributeError end;
      c ← compare_foods db name (food intake)
            (Some ["calories"; "protein"; "fat"; "carbs"]);
      match comparison c !! "calories" with
      | None => Raise (KeyError "calories")
      | Some cal =>
          if ltb (percentage_diff cal) c20 then Ok true
          else _is_similar_to_current_intake db r rest
      end
  end.

(** [SmartRecommendations._nutritional_gap_score] *)
Definition _nutritional_gap_score (r : row) (gaps : list (string * float))
  : result float :=
  foldM (fun score '(nutrient, gap) =>
           if ltb zero gap then
             value ← num (row_get_default r nutrient);
             q ← py_div value gap;
             Ok (add score q)
           else Ok score)
        gaps zero.

(** One dietary restriction applied to the candidate frame. *)
Definition apply_restriction (all_foods : DataFrame) (restriction : string)
  : result DataFrame :=
  if bool_decide (restriction = "gluten-free") then
    _ ← frame_col all_foods "gluten_free";
    Ok {| columns := columns all_foods;
          rows := List.filter (fun r : row =>
                    match r !! "gluten_free" with
                    | Some (Bool b) => b
                    | Some (Num x) => eqb x c1
                    | _ => false
                    end) (rows all_foods) |}
  else if bool_decide (restriction = "vegan") then
    _ ← frame_col all_foods "category";
    Ok {| columns := columns all_foods;
          rows := List.filter (fun r : row =>
                    match r !! "category" with
                    | Some (Str s) =>
                        bool_decide (s ∈ ["vegetables"; "fruits"; "legumes"])
                    | _ => false
                    end) (rows all_foods) |}
  else if bool_decide (restriction = "dairy-free") then
    _ ← frame_col all_foods "category";
    Ok {| columns := columns all_foods;
          rows := List.filter (fun r : row =>
                    match r !! "category" with
                    | Some c => negb (cell_eq_str c "dairy")
                    | None => true
                    end) (rows all_foods) |}
  else Ok all_foods.

(** The candidate loop of [get_personalized_recommendations]: a row is kept
    when it addresses a gap and is not similar to the intake, and the loop
    is left as soon as twice the requested number of rows has been kept. *)
Fixpoint collect_candidates (db : FoodDatabase) (gaps : list (string * float))
    (current_intake : list IntakeItem) (num_recommendations : Z)
    (candidates : list row) (recommended_foods : list row) : result (list row) :=
  match candidates with
  | [] => Ok recommended_foods
  | r :: rest =>
      addresses ← _addresses_nutritional_gaps r gaps;
      if negb addresses then
        collect_candidates db gaps current_intake num_recommendations rest
                           recommended_foods
      else
        similar ← _is_similar_to_current_intake db r current_intake;
        if (similar : bool) then
          collect_candidates db gaps current_intake num_recommendations rest
                             recommended_foods
        else
          let recommended_foods := recommended_foods ++ [r] in
          if num_recommendations * 2 <=? Z.of_nat (length recommended_foods)
          then Ok recommended_foods
          else collect_candidates db gaps current_intake num_recommendations
                                  rest recommended_foods
  end.

(** The dictionary built for one recommended row. *)
Definition summarize (r : row) : result Recommendation :=
  v0 ← row_get r "food_name";
  v1 ← row_get r "calories";
  v2 ← row_get r "protein";
  v3 ← row_get r "carbs";
  v4 ← row_get r "fat";
  v5 ← row_get r "fiber";
  v6 ← row_get r "category";
  Ok {| rec_food_name := v0; rec_calories := v1; rec_protein := v2;
        rec_carbs := v3; rec_fat := v4; rec_fiber := v5; rec_category := v6 |}.

(** [recommended_foods.sort(key=..., reverse=True)]: the keys are computed
    for every element first, then the list is sorted on them. *)
Definition sort_by_gap_score (gaps : list (string * float))
    (recommended_foods : list row) : result (list row) :=
  keys ← mapM_result (fun r => _nutritional_gap_score r gaps) recommended_foods;
  Ok (map snd (py_sort_reverse fst (combine keys recommended_foods))).

(** [SmartRecommendations.get_personalized_recommendations] *)
Definition get_personalized_recommendations (db : FoodDatabase)
    (user_profile : gmap string cell) (current_intake : list IntakeItem)
    (dietary_restrictions : option (list string)) (num_recommendations : Z)
  : result (list Recommendation) :=
  current_nutrition ← analyze_daily_intake db (map food current_intake)
                        (map quantity current_intake);
  nutritional_gaps ← _calculate_nutritional_gaps current_nutrition user_profile;
  all_foods ← foldM apply_restriction (default [] dietary_restrictions)
                    (food_data db);
  recommended_foods ← collect_candidates db nutritional_gaps current_intake
                        num_recommendations (rows all_foods) [];
  sorted ← sort_by_gap_score nutritional_gaps recommended_foods;
  mapM_result summarize (slice_to num_recommendations sorted).

(** *** The recommender without its exceptions

    On rows whose gap nutrients are numbers the helpers of the recommender
    raise nothing; these are their values. *)

Definition gap_nutrients : list string := ["calories"; "protein"; "fiber"].

(** The ratios [value / gap] collected by [_addresses_nutritional_gaps]. *)
Definition open_ratios (r : row) (gaps : list (string * float)) : list float :=
  fold_left (fun scores item =>
               if ltb zero item.2 then
                 let v := value (row_get_default r item.1) in
                 if ltb zero v then scores ++ [div v item.2] else scores
               else scores)
            gaps [].

Definition addresses (r : row) (gaps : list (string * float)) : bool :=
  match open_ratios r gaps with
  | [] => false
  | s :: others => ltb c0_1 (py_max s others)
  end.

(** The sum over the open (positive) gaps of [value / gap]. *)
Definition gap_score (gaps : list (string * float)) (r : row) : float :=
  fold_left (fun score item =>
               if ltb zero item.2
               then add score (div (value (row_get_default r item.1)) item.2)
               else score)
            gaps zero.

Definition similar (db : FoodDatabase) (current_intake : list IntakeItem)
    (r : row) : bool :=
  match _is_similar_to_current_intake db r current_intake with
  | Ok b => b
  | Raise _ => false
  end.

(** A row passes both filters of the candidate loop. *)
Definition survives (db : FoodDatabase) (gaps : list (string * float))
    (current_intake : list IntakeItem) (r : row) : bool :=
  addresses r gaps && negb (similar db current_intake r).

Definition summary_of (r : row) : Recommendation :=
  {| rec_food_name := row_get_default r "food_name";
     rec_calories := row_get_default r "calories";
     rec_protein := row_get_default r "protein";
     rec_carbs := row_get_default r "carbs";
     rec_fat := row_get_default r "fat";
     rec_fiber := row_get_default r "fiber";
     rec_category := row_get_default r "category" |}.

(** A row the recommender can process: its gap nutrients, where present,
    are finite numbers that are not negative, and it has the columns of the
    summary. *)
Definition recommendable_row (r : row) : bool :=
  forallb (fun n => nonneg_cell (row_get_default r n)) gap_nutrients &&
  forallb (fun c => bool_decide (is_Some (r !! c)))
          ["food_name"; "calories"; "protein"; "carbs"; "fat"; "fiber";
           "category"].

(** The calorie need: the Mifflin-St Jeor equation times the activity
    multiplier. *)
Definition mifflin_st_jeor (age weight height : float) (gender : string)
  : float :=
  if bool_decide (lower gender = "male")
  then add (sub (add (mul c10 weight) (mul c6_25 height)) (mul c5 age)) c5
  else sub (sub (add (mul c10 weight) (mul c6_25 height)) (mul c5 age)) c161.

Definition activity_multiplier (activity_level : string) : float :=
  default c1_55 (activity_multipliers (lower activity_level)).

(** ** The rest of food_database.py *)

(** [needle in s] on strings: [needle] occurs in [s] as a substring. *)
Fixpoint str_in (needle s : string) : bool :=
  String.prefix needle s ||
  match s with
  | EmptyString => false
  | String _ s' => str_in needle s'
  end.

Inductive FoodCategory : Type :=
| DAIRY
| MEAT
| VEGETABLES
| FRUITS
| GRAINS
| BEVERAGES
| SNACKS
| DESSERTS.

(** The value of a member of the enumeration. *)
Definition category_value (category : FoodCategory) : string :=
  match category with
  | DAIRY => "dairy"
  | MEAT => "meat"
  | VEGETABLES => "vegetables"
  | FRUITS => "fruits"
  | GRAINS => "grains"
  | BEVERAGES => "beverages"
  | SNACKS => "snacks"
  | DESSERTS => "desserts"
  end.

Definition all_categories : list FoodCategory :=
  [DAIRY; MEAT; VEGETABLES; FRUITS; GRAINS; BEVERAGES; SNACKS; DESSERTS].

#[global] Instance FoodCategory_eq_dec : EqDecision FoodCategory.
Proof. solve_decision. Defined.

Definition category_index (category : FoodCategory) : nat :=
  match category with
  | DAIRY => 0 | MEAT => 1 | VEGETABLES => 2 | FRUITS => 3
  | GRAINS => 4 | BEVERAGES => 5 | SNACKS => 6 | DESSERTS => 7
  end.

#[global] Instance FoodCategory_countable : Countable FoodCategory.
Proof.
  refine (inj_countable' category_index
            (fun n => nth n all_categories DAIRY) _).
  by intros [].
Defined.

Definition beverage_keywords : list string :=
  ["milk"; "coffee"; "tea"; "juice"; "water"; "soda"; "smoothie"; "shake";
   "latte"; "cocoa"; "lemonade"; "beverage"; "cocktail"; "alcohol";
   "alcoholic"; "wine"; "beer"; "cider"; "liqueur"; "margarita"; "martini";
   "whiskey"; "vodka"; "gin"; "rum"; "tequila"; "sangria"; "punch"; "iced";
   "hot"; "iced tea"; "hot chocolate"; "espresso"; "cappuccino";
   "frappuccino"; "matcha"; "chai"; "mocha"; "protein shake"; "energy drink";
   "sports drink"; "electrolyte"; "tonic"; "seltzer"; "sparkling";
   "mineral water"; "flavored water"; "milkshake"].

(** [any(word in food_name for word in words)] *)
Definition any_in (words : list string) (food_name : string) : bool :=
  existsb (fun word => str_in word food_name) words.

(** The chain of tests in the loop of [_categorize_food]: the category whose
    list the lowered name is appended to, if any. *)
Definition category_of (food_name : string) : option FoodCategory :=
  if any_in beverage_keywords food_name then Some BEVERAGES
  else if str_in "cheese" food_name || str_in "milk" food_name then Some DAIRY
  else if any_in ["chicken"; "beef"; "pork"; "fish"; "ham"] food_name
  then Some MEAT
  else if any_in ["veggie"; "vegetable"; "salad"] food_name
  then Some VEGETABLES
  else if any_in ["apple"; "banana"; "orange"; "berry"] food_name
  then Some FRUITS
  else if any_in ["rice"; "wheat"; "oat"; "bread"] food_name then Some GRAINS
  else if any_in ["crisp"; "chips"; "nut"; "popcorn"] food_name
  then Some SNACKS
  else if any_in ["cake"; "pie"; "pudding"; "chocolate"] food_name
  then Some DESSERTS
  else None.

(** The dictionary [_categorize_food] starts from: every category with an
    empty list. *)
Definition empty_categories : gmap FoodCategory (list string) :=
  list_to_map (map (fun category => (category, [])) all_categories).

(** The body of the loop of [_categorize_food]:
    [food_name = row['food'].lower()], then one [append] at most. *)
Definition categorize_row (categories : gmap FoodCategory (list string))
    (r : row) : result (gmap FoodCategory (list string)) :=
  c ← row_get r "food";
  food_name ← match c with
              | Str s => Ok (lower s)
              | _ => Raise AttributeError
              end;
  match category_of food_name with
  | Some category =>
      match categories !! category with
      | Some foods => Ok (<[category := foods ++ [food_name]]> categories)
      | None => Raise (KeyError (category_value category))
      end
  | None => Ok categories
  end.

(** [FoodDatabase._categorize_food] *)
Definition _categorize_food (db : FoodDatabase)
  : result (gmap FoodCategory (list string)) :=
  foldM categorize_row (rows (food_data db)) empty_categories.

(** A constructed [FoodDatabase]: the table, and the dictionary that the
    constructor derives from it.  Nothing assigns to either attribute
    afterwards. *)
Record Catalog : Type := {
  database : FoodDatabase;
  food_by_category : gmap FoodCategory (list string);
}.

(** [FoodDatabase.__init__], from the table that [_load_food_data] has read. *)
Definition FoodDatabase_init (table : DataFrame) : result Catalog :=
  let db := {| food_data := table |} in
  categories ← _categorize_food db;
  Ok {| database := db; food_by_category := categories |}.

(** [FoodDatabase.get_food_by_category] *)
Definition get_food_by_category (catalog : Catalog) (category : FoodCategory)
  : list string :=
  default [] (food_by_category catalog !! category).

(** The name a row carries in the column [food], when it is a string. *)
Definition row_name (r : row) : string :=
  match r !! "food" with
  | Some (Str s) => s
  | _ => ""
  end.

(** A column that pandas holds as text, on which [.str] is defined: it has
    a string in some row, or no row at all. *)
Definition text_column (df : DataFrame) (col : string) : Prop :=
  rows df = [] \/
  Exists (fun r : row => exists s, r !! col = Some (Str s)) (rows df).

(** One element of [food_data['food'].str.lower()] under the test
    [query in food]: in a text column a cell that is not a string lowers to
    a missing value, a float, on which [in] raises. *)
Definition search_row (query : string) (found : list string) (r : row)
  : result (list string) :=
  match r !! "food" with
  | Some (Str s) =>
      let food := lower s in
      Ok (if str_in query food then found ++ [food] else found)
  | _ => Raise TypeError
  end.

(** [FoodDatabase.search_food] *)
Definition search_food (db : FoodDatabase) (query : string)
  : result (list string) :=
  let query := lower query in
  _ ← frame_col (food_data db) "food";
  foldM (search_row query) (rows (food_data db)) [].

(** [FoodDatabase.get_nutrient_profile] *)
Definition get_nutrient_profile (db : FoodDatabase) (food_name : string)
  : result (gmap string cell) :=
  food ← get_food_nutrition db food_name;
  match food with
  | None => Ok ∅
  | Some food =>
      Ok (<["calories" := calories food]> (<["protein" := protein food]>
         (<["carbs" := carbs food]> (<["fat" := fat food]>
         (<["fiber" := fiber food]> (<["vitamin_c" := vitamin_c food]>
         (<["iron" := iron food]> (<["calcium" := calcium food]> ∅))))))))
  end.

(** The lowered names of the rows that the chain of tests puts under a
    category, in table order. *)
Definition names_in_category (category : FoodCategory) (rs : list row)
  : list string :=
  List.filter (fun name => bool_decide (category_of name = Some category))
              (map (fun r => lower (row_name r)) rs).

(** ** meal_planner.py *)

Definition c0_25 : float := S754_finite false 4503599627370496 (-54).

(** An entry of a meal: [{'food': ..., 'calories': ..., ...}]. *)
Record MealItem : Type := {
  item_food : string;
  item_calories : cell;
  item_protein : cell;
  item_carbs : cell;
  item_fat : cell;
}.

Record MealPlan : Type := {
  breakfast : list MealItem;
  lunch : list MealItem;
  dinner : list MealItem;
  snacks : list MealItem;
}.

(** The body of the inner loop of [_find_foods_for_calories]. *)
Definition consider_food (db : FoodDatabase) (target_calories : float)
    (suitable_foods : list MealItem) (food : string)
  : result (list MealItem) :=
  nutrition ← get_food_nutrition db food;
  match nutrition with
  | None => Ok suitable_foods
  | Some nutrition =>
      c ← num (calories nutrition);
      if ltb (abs (sub c target_calories)) c100 then
        Ok (suitable_foods ++
            [{| item_food := food;
                item_calories := calories nutrition;
                item_protein := protein nutrition;
                item_carbs := carbs nutrition;
                item_fat := fat nutrition |}])
      else Ok suitable_foods
  end.

(** The body of the outer loop of [_find_foods_for_calories]. *)
Definition consider_hint (db : FoodDatabase) (target_calories : float)
    (suitable_foods : list MealItem) (hint : string)
  : result (list MealItem) :=
  matching_foods ← search_food db hint;
  foldM (consider_food db target_calories) matching_foods suitable_foods.

(** [MealPlanner._find_foods_for_calories] *)
Definition _find_foods_for_calories (db : FoodDatabase)
    (target_calories : float) (food_hints : list string)
  : result (list MealItem) :=
  suitable_foods ← foldM (consider_hint db target_calories) food_hints [];
  Ok (slice_to 3 suitable_foods).

(** [MealPlanner.create_meal_plan] *)
Definition create_meal_plan (db : FoodDatabase)
    (target_calories target_protein target_carbs target_fat : float)
  : result MealPlan :=
  let breakfast_calories := mul target_calories c0_25 in
  breakfast_foods ← _find_foods_for_calories db breakfast_calories
                      ["eggs"; "oatmeal"; "yogurt"; "banana"];
  Ok {| breakfast := breakfast_foods; lunch := []; dinner := [];
        snacks := [] |}.

(** An entry of a meal that was found for a hint, looked up under its name
    and lies within 100 kcal of the target. *)
Definition suitable (db : FoodDatabase) (target_calories : float)
    (food_hints : list string) (item : MealItem) : Prop :=
  exists hint nutrition c,
    hint ∈ food_hints /\
    str_in (lower hint) (item_food item) = true /\
    get_food_nutrition db (item_food item) = Ok (Some nutrition) /\
    item = {| item_food := item_food item;
              item_calories := calories nutrition;
              item_protein := protein nutrition;
              item_carbs := carbs nutrition;
              item_fat := fat nutrition |} /\
    num (calories nutrition) = Ok c /\
    ltb (abs (sub c target_calories)) c100 = true.

(** ** nutrition_engine.py *)

Definition c18_5 : float := S754_finite false 5207287069147136 (-48).
Definition c30 : float := S754_finite false 8444249301319680 (-48).

(** [classify_bmi] *)
Definition classify_bmi (bmi : float) : string :=
  if ltb bmi c18_5 then "Underweight"
  else if ltb bmi c25 then "Normal weight"
  else if ltb bmi c30 then "Overweight"
  else "Obesity".

(** [calculate_bmr] *)
Definition calculate_bmr (age weight height : float) (gender : string)
  : float :=
  if bool_decide (gender = "Male")
  then add (sub (add (mul c10 weight) (mul c6_25 height)) (mul c5 age)) c5
  else sub (sub (add (mul c10 weight) (mul c6_25 height)) (mul c5 age)) c161.

(** The dictionary of [calculate_tdee]. *)
Definition tdee_multipliers (activity : string) : option float :=
  if bool_decide (activity = "Sedentary") then Some c1_2
  else if bool_decide (activity = "Moderate") then Some c1_55
  else if bool_decide (activity = "Active") then Some c1_725
  else None.

(** [calculate_tdee] *)
Definition calculate_tdee (bmr : float) (activity : string) : float :=
  mul bmr (default c1_55 (tdee_multipliers activity)).

(** The dictionary returned by [get_food_recommendations]. *)
Record FoodRecommendations : Type := {
  protein_sources : list string;
  carb_sources : list string;
  vegetable_sources : list string;
  fruit_sources : list string;
  healthy_fats : list string;
  superfoods : list string;
  avoid_foods : list string;
}.

(** [recommendations[key] = v], one function for each key. *)
Definition set_protein_sources (v : list string) (r : FoodRecommendations)
  : FoodRecommendations :=
  {| protein_sources := v; carb_sources := carb_sources r;
     vegetable_sources := vegetable_sources r;
     fruit_sources := fruit_sources r; healthy_fats := healthy_fats r;
     superfoods := superfoods r; avoid_foods := avoid_foods r |}.

Definition set_carb_sources (v : list string) (r : FoodRecommendations)
  : FoodRecommendations :=
  {| protein_sources := protein_sources r; carb_sources := v;
     vegetable_sources := vegetable_sources r;
     fruit_sources := fruit_sources r; healthy_fats := healthy_fats r;
     superfoods := superfoods r; avoid_foods := avoid_foods r |}.

Definition set_vegetable_sources (v : list string) (r : FoodRecommendations)
  : FoodRecommendations :=
  {| protein_sources := protein_sources r; carb_sources := carb_sources r;
     vegetable_sources := v;
     fruit_sources := fruit_sources r; healthy_fats := healthy_fats r;
     superfoods := superfoods r; avoid_foods := avoid_foods r |}.

Definition set_fruit_sources (v : list string) (r : FoodRecommendations)
  : FoodRecommendations :=
  {| protein_sources := protein_sources r; carb_sources := carb_sources r;
     vegetable_sources := vegetable_sources r;
     fruit_sources := v; healthy_fats := healthy_fats r;
     superfoods := superfoods r; avoid_foods := avoid_foods r |}.

Definition set_healthy_fats (v : list string) (r : FoodRecommendations)
  : FoodRecommendations :=
  {| protein_sources := protein_sources r; carb_sources := carb_sources r;
     vegetable_sources := vegetable_sources r;
     fruit_sources := fruit_sources r; healthy_fats := v;
     superfoods := superfoods r; avoid_foods := avoid_foods r |}.

Definition set_superfoods (v : list string) (r : FoodRecommendations)
  : FoodRecommendations :=
  {| protein_sources := protein_sources r; carb_sources := carb_sources r;
     vegetable_sources := vegetable_sources r;
     fruit_sources := fruit_sources r; healthy_fats := healthy_fats r;
     superfoods := v; avoid_foods := avoid_foods r |}.

Definition set_avoid_foods (v : list string) (r : FoodRecommendations)
  : FoodRecommendations :=
  {| protein_sources := protein_sources r; carb_sources := carb_sources r;
     vegetable_sources := vegetable_sources r;
     fruit_sources := fruit_sources r; healthy_fats := healthy_fats r;
     superfoods := superfoods r; avoid_foods := v |}.

Definition base_proteins : list string :=
  ["Lean chicken breast"; "Fish (salmon, tuna)"; "Eggs"; "Greek yogurt";
   "Tofu"; "Lentils"].
Definition base_carbs : list string :=
  ["Quinoa"; "Brown rice"; "Sweet potatoes"; "Oats"; "Whole wheat bread"].
Definition base_vegetables : list string :=
  ["Broccoli"; "Spinach"; "Kale"; "Bell peppers"; "Carrots"; "Tomatoes"].
Definition base_fruits : list string :=
  ["Berries"; "Apples"; "Bananas"; "Oranges"; "Avocado"].
Definition base_fats : list string :=
  ["Olive oil"; "Nuts (almonds, walnuts)"; "Seeds (chia, flax)"; "Fatty fish"].

(** [sep.join(items)] *)
Definition str_join (sep : string) (items : list string) : string :=
  String.concat sep items.

(** The adjustment of [get_food_recommendations] to the index. *)
Definition adjust_for_bmi (bmi : float) (recommendations : FoodRecommendations)
  : FoodRecommendations :=
  if ltb bmi c18_5 then
    let r := set_protein_sources
               (base_proteins ++ ["Protein shakes"; "Nut butters"])
               recommendations in
    let r := set_carb_sources (base_carbs ++ ["Pasta"; "Rice"; "Potatoes"])
                              r in
    set_healthy_fats (base_fats ++ ["Coconut oil"; "Cheese"; "Whole milk"]) r
  else if ltb c25 bmi then
    let r := set_protein_sources
               [("Lean proteins: " ++ str_join ", " (slice_to 4 base_proteins))%string]
               recommendations in
    let r := set_carb_sources
               [("Complex carbs: " ++ str_join ", " (slice_to 3 base_carbs))%string]
               r in
    let r := set_vegetable_sources
               [("High-fiber vegetables: " ++ str_join ", " base_vegetables)%string]
               r in
    set_avoid_foods ["Processed foods"; "Sugary drinks"; "Refined carbs";
                     "Fried foods"] r
  else
    let r := set_protein_sources base_proteins recommendations in
    let r := set_carb_sources base_carbs r in
    set_healthy_fats base_fats r.

(** The adjustment to the activity. *)
Definition adjust_for_activity (activity : string)
    (recommendations : FoodRecommendations) : FoodRecommendations :=
  if bool_decide (activity = "Active") then
    set_superfoods ["Beetroot (nitrates)"; "Tart cherry juice";
                    "Chocolate milk (post-workout)"; "Bananas"]
                   recommendations
  else if bool_decide (activity = "Sedentary") then
    set_superfoods ["Green tea"; "Berries (antioxidants)"; "Leafy greens";
                    "Nuts"] recommendations
  else recommendations.

(** The adjustments to the health conditions. *)
Definition adjust_for_diabetes (health_conditions : list string)
    (recommendations : FoodRecommendations) : FoodRecommendations :=
  if bool_decide ("Diabetes" ∈ health_conditions) then
    let r := set_carb_sources
               ["Low-GI carbs: Steel-cut oats, quinoa, legumes"]
               recommendations in
    let r := set_superfoods
               (superfoods r ++ ["Cinnamon"; "Bitter melon";
                                 "Chromium-rich foods"]) r in
    set_avoid_foods
      (avoid_foods r ++ ["High-sugar fruits"; "White bread";
                         "Sugary snacks"]) r
  else recommendations.

Definition adjust_for_hypertension (health_conditions : list string)
    (recommendations : FoodRecommendations) : FoodRecommendations :=
  if bool_decide ("Hypertension" ∈ health_conditions) then
    let r := set_superfoods
               (superfoods recommendations ++
                ["Potassium-rich foods (bananas, spinach)"; "Garlic";
                 "Hibiscus tea"]) recommendations in
    set_avoid_foods
      (avoid_foods r ++ ["High-sodium foods"; "Processed meats";
                         "Canned foods"]) r
  else recommendations.

Definition adjust_for_lactose_intolerance (health_conditions : list string)
    (recommendations : FoodRecommendations) : FoodRecommendations :=
  if bool_decide ("Lactose Intolerance" ∈ health_conditions) then
    let r := set_protein_sources
               (List.filter (fun p => negb (str_in "yogurt" (lower p)))
                            base_proteins) recommendations in
    let r := set_protein_sources
               (protein_sources r ++ ["Lactose-free dairy";
                                      "Plant-based proteins"]) r in
    set_avoid_foods
      (avoid_foods r ++ ["Regular dairy products";
                         "Milk-based supplements"]) r
  else recommendations.

(** The adjustments to the genetic traits. *)
Definition adjust_for_gluten_sensitivity (genetic_traits : list string)
    (recommendations : FoodRecommendations) : FoodRecommendations :=
  if bool_decide ("Gluten Sensitivity" ∈ genetic_traits) then
    let r := set_carb_sources
               ["Gluten-free grains: Rice, quinoa, buckwheat"]
               recommendations in
    set_avoid_foods (avoid_foods r ++ ["Wheat products"; "Barley"; "Rye"]) r
  else recommendations.

Definition adjust_for_obesity_risk (genetic_traits : list string)
    (recommendations : FoodRecommendations) : FoodRecommendations :=
  if bool_decide ("Obesity Risk" ∈ genetic_traits) then
    let r := set_superfoods
               (superfoods recommendations ++
                ["Metabolism boosters: Green tea, chili peppers";
                 "High-protein foods"]) recommendations in
    set_avoid_foods
      (avoid_foods r ++ ["High-calorie processed foods";
                         "Sugary beverages"]) r
  else recommendations.

Definition adjust_for_high_metabolism (genetic_traits : list string)
    (recommendations : FoodRecommendations) : FoodRecommendations :=
  if bool_decide ("High Metabolism" ∈ genetic_traits) then
    let r := set_carb_sources
               (carb_sources recommendations ++
                ["Higher calorie carbs: Dates, dried fruits"])
               recommendations in
    set_healthy_fats
      (healthy_fats r ++ ["Calorie-dense fats: Nuts, seeds, olive oil"]) r
  else recommendations.

(** [get_food_recommendations]: the blocks of the source in their order,
    the lists being rebuilt where the source assigns or extends them. *)
Definition get_food_recommendations (bmi : float) (activity : string)
    (health_conditions genetic_traits : list string) : FoodRecommendations :=
  let recommendations :=
    {| protein_sources := []; carb_sources := []; vegetable_sources := [];
       fruit_sources := []; healthy_fats := []; superfoods := [];
       avoid_foods := [] |} in
  let recommendations := adjust_for_bmi bmi recommendations in
  let recommendations := set_vegetable_sources base_vegetables recommendations in
  let recommendations := set_fruit_sources base_fruits recommendations in
  let recommendations := adjust_for_activity activity recommendations in
  let recommendations := adjust_for_diabetes health_conditions recommendations in
  let recommendations := adjust_for_hypertension health_conditions
                                                 recommendations in
  let recommendations := adjust_for_lactose_intolerance health_conditions
                                                        recommendations in
  let recommendations := adjust_for_gluten_sensitivity genetic_traits
                                                       recommendations in
  let recommendations := adjust_for_obesity_risk genetic_traits
                                                 recommendations in
  let recommendations := adjust_for_high_metabolism genetic_traits
                                                    recommendations in
  recommendations.

(** [get_meal_timing_recommendations].  The texts are the UTF-8 encodings of
    the source's literals. *)
Definition get_meal_timing_recommendations (activity : string)
    (health_conditions : list string) : list string :=
  let timing_tips := [] in
  let timing_tips :=
    if bool_decide (activity = "Active") then
      timing_tips ++
      ["🕐 Eat main meals 2-3 hours before intense workouts";
       "🍌 Quick snack 30-60 minutes before exercise if needed";
       "🥤 Post-workout meal within 30-60 minutes"]
    else timing_tips in
  let timing_tips :=
    if bool_decide ("Diabetes" ∈ health_conditions) then
      timing_tips ++
      ["⏰ Maintain consistent meal times to help regulate blood sugar";
       "🍽️ Consider smaller, more frequent meals"]
    else timing_tips in
  let timing_tips :=
    match timing_tips with
    | [] =>
        timing_tips ++
        ["🍽️ Eat regular, balanced meals every 3-4 hours";
         "🌅 Don't skip breakfast - it kick-starts your metabolism"]
    | _ => timing_tips
    end in
  timing_tips.

(** The entries of the two lists of [get_specific_food_recommendations]. *)
Record ProteinFood : Type := {
  pf_food : string;
  pf_protein : cell;
  pf_calories : cell;
}.

Record SodiumFood : Type := {
  sf_food : string;
  sf_sodium : cell;
  sf_potassium : cell;
}.

(** The dictionary of [get_specific_food_recommendations]: each key is
    present only when its branch ran. *)
Record SpecificRecommendations : Type := {
  high_protein : option (list ProteinFood);
  low_sodium : option (list SodiumFood);
}.

(** The body of the loop over the meat names. *)
Definition consider_protein (db : FoodDatabase)
    (protein_rich : list ProteinFood) (food : string)
  : result (list ProteinFood) :=
  nutrition ← get_food_nutrition db food;
  match nutrition with
  | None => Ok protein_rich
  | Some nutrition =>
      p ← num (protein nutrition);
      if ltb c20 p then
        Ok (protein_rich ++ [{| pf_food := food;
                                pf_protein := protein nutrition;
                                pf_calories := calories nutrition |}])
      else Ok protein_rich
  end.

(** [df[col].tolist()]: the cells of a column, a row without the cell
    holding a missing value. *)
Definition column_tolist (df : DataFrame) (col : string)
  : result (list (option cell)) :=
  _ ← frame_col df col;
  Ok (map (fun r : row => r !! col) (rows df)).

(** The body of the loop over the sampled names; [food_name.lower()] in the
    lookup exists for strings only. *)
Definition consider_sodium (db : FoodDatabase)
    (low_sodium : list SodiumFood) (food : option cell)
  : result (list SodiumFood) :=
  match food with
  | Some (Str food) =>
      nutrition ← get_food_nutrition db food;
      match nutrition with
      | None => Ok low_sodium
      | Some nutrition =>
          s ← num (sodium nutrition);
          if ltb s c100 then
            Ok (low_sodium ++ [{| sf_food := food;
                                  sf_sodium := sodium nutrition;
                                  sf_potassium := potassium nutrition |}])
          else Ok low_sodium
      end
  | _ => Raise AttributeError
  end.

(** [EnhancedNutritionEngine.get_specific_food_recommendations], on the
    database that the constructor of the engine has built. *)
Definition get_specific_food_recommendations (catalog : Catalog)
    (bmi : float) (activity : string)
    (health_conditions genetic_traits : list string)
  : result SpecificRecommendations :=
  high_protein ←
    (if bool_decide (activity = "Active") then
       let protein_foods := get_food_by_category catalog MEAT in
       protein_rich ← foldM (consider_protein (database catalog))
                            (slice_to 10 protein_foods) [];
       Ok (Some (slice_to 5 (py_sort_reverse (fun x => value (pf_protein x))
                                             protein_rich)))
     else Ok None);
  low_sodium ←
    (if bool_decide ("Hypertension" ∈ health_conditions) then
       all_foods ← column_tolist (food_data (database catalog)) "food";
       low_sodium ← foldM (consider_sodium (database catalog))
                          (slice_to 50 all_foods) [];
       Ok (Some (slice_to 10 (py_sort (fun x => value (sf_sodium x))
                                      low_sodium)))
     else Ok None);
  Ok {| high_protein := high_protein; low_sodium := low_sodium |}.

(** The two tips that [get_meal_timing_recommendations] gives when nothing
    else applies. *)
Definition general_timing_tips : list string :=
  ["🍽️ Eat regular, balanced meals every 3-4 hours";
   "🌅 Don't skip breakfast - it kick-starts your metabolism"].

(** The rank of a class of [classify_bmi], from the lightest. *)
Definition bmi_rank (class : string) : nat :=
  if bool_decide (class = "Underweight") then 0
  else if bool_decide (class = "Normal weight") then 1
  else if bool_decide (class = "Overweight") then 2
  else 3.

(** ** The inputs of the recommender *)

(** The entries of the profile that the recommender reads. *)
Definition profile_keys : list string :=
  ["age"; "weight"; "height"; "gender"; "activity_level"].

(** The row filter of a dietary restriction. *)
Definition passes (restriction : string) (r : row) : bool :=
  if bool_decide (restriction = "gluten-free") then
    match r !! "gluten_free" with
    | Some (Bool b) => b
    | Some (Num x) => eqb x c1
    | _ => false
    end
  else if bool_decide (restriction = "vegan") then
    match r !! "category" with
    | Some (Str s) => bool_decide (s ∈ ["vegetables"; "fruits"; "legumes"])
    | _ => false
    end
  else if bool_decide (restriction = "dairy-free") then
    match r !! "category" with
    | Some c => negb (cell_eq_str c "dairy")
    | None => true
    end
  else true.

(** The nutrients on which [_is_similar_to_current_intake] compares. *)
Definition similarity_check_nutrients : list string :=
  ["calories"; "protein"; "fat"; "carbs"].

(** ** A small catalog

    The rows carry the columns read by [get_food_nutrition] and those read
    by the comparator and the recommender; the figures of Apple and Banana
    are those of the specification's scenarios. *)

Definition nutrient_columns : list string :=
  ["Caloric Value"; "Fat"; "Saturated Fats"; "Monounsaturated Fats";
   "Polyunsaturated Fats"; "Carbohydrates"; "Sugars"; "Protein";
   "Dietary Fiber"; "Cholesterol"; "Sodium"; "Water"; "Vitamin A";
   "Vitamin B1"; "Vitamin B2"; "Vitamin B3"; "Vitamin B5"; "Vitamin B6";
   "Vitamin B12"; "Vitamin C"; "Vitamin D"; "Vitamin E"; "Vitamin K";
   "Calcium"; "Copper"; "Iron"; "Magnesium"; "Manganese"; "Phosphorus";
   "Potassium"; "Selenium"; "Zinc"; "Nutrition Density"].

Definition summary_columns : list string :=
  ["food_name"; "calories"; "protein"; "carbs"; "fat"; "fiber"; "category"].

Definition demo_profile : gmap string cell :=
  <["age" := Num (of_Z 30)]> (<["weight" := Num (of_Z 70)]>
  (<["height" := Num (of_Z 170)]> (<["gender" := Str "Male"]>
  (<["activity_level" := Str "moderate"]> ∅)))).

Definition catalog_columns : list string :=
  "food" :: nutrient_columns ++ summary_columns.

Definition catalog_row (name category : string)
    (cal prot carb fat_ fib : float) : row :=
  <["food" := Str name]> (<["Caloric Value" := Num cal]>
  (<["Protein" := Num prot]> (<["Carbohydrates" := Num carb]>
  (<["Fat" := Num fat_]> (<["Dietary Fiber" := Num fib]>
  (<["food_name" := Str name]> (<["calories" := Num cal]>
  (<["protein" := Num prot]> (<["carbs" := Num carb]>
  (<["fat" := Num fat_]> (<["fiber" := Num fib]>
  (<["category" := Str category]>
  (list_to_map (map (fun c => (c, Num zero)) nutrient_columns)))))))))))))).

Definition apple : row :=
  catalog_row "Apple" "fruits" (of_Z 52) (of_dec 3 1) (of_Z 14) (of_dec 2 1)
              (of_dec 24 1).
Definition banana : row :=
  catalog_row "Banana" "fruits" (of_Z 89) (of_dec 11 1) (of_Z 23) (of_dec 3 1)
              (of_dec 26 1).
Definition lentils : row :=
  catalog_row "Lentils" "legumes" (of_Z 116) (of_Z 9) (of_Z 20) (of_dec 4 1)
              (of_dec 79 1).

Definition demo_db : FoodDatabase :=
  {| food_data := {| columns := catalog_columns;
                     rows := [apple; banana; lentils] |} |}.

(** The record of a catalog row that has every column of the schema, and a
    record of zeros for any other. *)
Definition blank_food : FoodNutrient :=
  let z := Num zero in
  {| food_name := Str ""; calories := z; fat := z; saturated_fats := z;
     monounsaturated_fats := z; polyunsaturated_fats := z; carbs := z;
     sugars := z; protein := z; fiber := z; cholesterol := z; sodium := z;
     water := z; vitamin_a := z; vitamin_b1 := z; vitamin_b2 := z;
     vitamin_b3 := z; vitamin_b5 := z; vitamin_b6 := z; vitamin_b12 := z;
     vitamin_c := z; vitamin_d := z; vitamin_e := z; vitamin_k := z;
     calcium := z; copper := z; iron := z; magnesium := z; manganese := z;
     phosphorus := z; potassium := z; selenium := z; zinc := z;
     nutrition_density := z |}.

Definition record_of (r : row) : FoodNutrient :=
  match food_of_row r with Ok f => f | Raise _ => blank_food end.

Definition oats : row :=
  catalog_row "Oats" "grains" (of_Z 389) (of_dec 169 1) (of_Z 66) (of_dec 69 1)
              (of_dec 106 1).
Definition almonds : row :=
  catalog_row "Almonds" "snacks" (of_Z 579) (of_dec 212 1) (of_dec 216 1)
              (of_dec 499 1) (of_dec 125 1).

Definition pantry_db : FoodDatabase :=
  {| food_data := {| columns := catalog_columns;
                     rows := [apple; banana; lentils; oats; almonds] |} |}.

(** The gaps of [demo_profile] before anything is eaten: 2507.125 kcal,
    70 g of protein, 25 g of fiber. *)
Definition demo_gaps : list (string * float) :=
  [("calories", S754_finite false 5513226179575808 (-41));
   ("protein", S754_finite false 4925812092436480 (-46));
   ("fiber", c25)].

Definition result_default {A} (d : A) (r : result A) : A :=
  match r with Ok a => a | Raise _ => d end.

(** An intake of 100 g of apple, its totals and the gaps it leaves. *)
Definition apple_intake : list IntakeItem :=
  [{| food := "Apple"; quantity := of_Z 100 |}].

Definition apple_totals : gmap string float :=
  result_default ∅ (analyze_daily_intake pantry_db ["Apple"] [of_Z 100]).

Definition apple_gaps : list (string * float) :=
  result_default [] (_calculate_nutritional_gaps apple_totals demo_profile).

(** *** More tables *)

(** A table with a row whose name is missing (a number stands in the
    column). *)
Definition nameless_db : FoodDatabase :=
  {| food_data := {| columns := catalog_columns;
                     rows := [apple; <["food" := Num zero]> banana] |} |}.

(** A small dairy and drinks table. *)
Definition dairy_table : DataFrame :=
  {| columns := catalog_columns;
     rows := [catalog_row "Cheddar Cheese" "dairy" (of_Z 403) (of_Z 25)
                          (of_dec 13 1) (of_Z 33) zero;
              catalog_row "Whole Milk" "dairy" (of_Z 61) (of_dec 32 1)
                          (of_dec 48 1) (of_dec 33 1) zero;
              catalog_row "Grilled Chicken" "meat" (of_Z 165) (of_Z 31)
                          zero (of_dec 36 1) zero;
              apple] |}.

(** The database that the constructor builds from it. *)
Definition dairy_catalog : Catalog :=
  {| database := {| food_data := dairy_table |};
     food_by_category :=
       <[DAIRY := ["cheddar cheese"]]> (<[BEVERAGES := ["whole milk"]]>
       (<[MEAT := ["grilled chicken"]]> (<[FRUITS := ["apple"]]>
       empty_categories))) |}.

(** An intake that covers the needs of [demo_profile]: 3 kg of lentils. *)
Definition lentil_feast : list IntakeItem :=
  [{| food := "Lentils"; quantity := of_Z 3000 |}].

(** A profile as the application builds it, with the activity under the key
    [activity]. *)
Definition app_profile : gmap string cell :=
  <["age" := Num (of_Z 30)]> (<["weight" := Num (of_Z 70)]>
  (<["height" := Num (of_Z 170)]> (<["gender" := Str "Male"]>
  (<["activity" := Str "Moderate"]> ∅)))).

(** A table of meats for the engine. *)
Definition meat_table : DataFrame :=
  {| columns := catalog_columns;
     rows := [<["Sodium" := Num (of_Z 74)]>
                (catalog_row "Grilled Chicken" "meat" (of_Z 165) (of_Z 31)
                             zero (of_dec 36 1) zero);
              <["Sodium" := Num (of_Z 1200)]>
                (catalog_row "Smoked Ham" "meat" (of_Z 145) (of_Z 21)
                             (of_dec 15 1) (of_dec 55 1) zero);
              <["Sodium" := Num (of_Z 59)]>
                (catalog_row "Baked Fish" "meat" (of_Z 206) (of_Z 22)
                             zero (of_Z 12) zero);
              apple] |}.

Definition meat_catalog : Catalog :=
  {| database := {| food_data := meat_table |};
     food_by_category :=
       <[MEAT := ["grilled chicken"; "smoked ham"; "baked fish"]]>
       (<[FRUITS := ["apple"]]> empty_categories) |}.

(** A table in which the protein of a meat is a text. *)
Definition unlabelled_table : DataFrame :=
  {| columns := catalog_columns;
     rows := [<["Protein" := Str "n/a"]>
                (catalog_row "Grilled Chicken" "meat" (of_Z 165) (of_Z 31)
                             zero (of_dec 36 1) zero)] |}.

Definition unlabelled_catalog : Catalog :=
  {| database := {| food_data := unlabelled_table |};
     food_by_category := <[MEAT := ["grilled chicken"]]> empty_categories |}.

(** * Properties *)

(** ** The literals of the source *)

(** The constants are the doubles that CPython reads from the literals
    [0.1], [0.8], [1.0], [1.2], [1.375], [1.55], [1.725], [1.9], [5],
    [6.25], [10], [20], [25], [100] and [161]. *)
Lemma constants_are_the_literals :
  [c0_1; c0_8; c1; c1_2; c1_375; c1_55; c1_725; c1_9; c5; c6_25; c10; c20;
   c25; c100; c161] =
  [of_dec 1 1; of_dec 8 1; of_Z 1; of_dec 12 1; of_dec 1375 3; of_dec 155 2;
   of_dec 1725 3; of_dec 19 1; of_Z 5; of_dec 625 2; of_Z 10; of_Z 20;
   of_Z 25; of_Z 100; of_Z 161].
Proof. vm_compute. reflexivity. Qed.

Lemma constants_are_canonical :
  forallb finite
    [c0_1; c0_8; c1; c1_2; c1_375; c1_55; c1_725; c1_9; c5; c6_25; c10; c20;
     c25; c100; c161] = true.
Proof. vm_compute. reflexivity. Qed.

(** ** Comparisons of doubles *)

Module F64Facts.

Lemma compare_swap (x y : float) :
  SFcompare y x = option_map CompOpp (SFcompare x y).
Proof.
  destruct x as [sx|sx| |sx mx ex], y as [sy|sy| |sy my ey]; simpl;
    try reflexivity;
    try (destruct sx; reflexivity); try (destruct sy; reflexivity);
    try (destruct sx, sy; reflexivity).
  destruct sx, sy; simpl; try reflexivity;
    rewrite (Z.compare_antisym ex ey);
    destruct (ex ?= ey) eqn:E; simpl; try reflexivity;
    change (Pos.compare_cont Eq my mx) with (my ?= mx)%positive;
    change (Pos.compare_cont Eq mx my) with (mx ?= my)%positive;
    rewrite (Pos.compare_antisym mx my);
    destruct (mx ?= my)%positive; reflexivity.
Qed.

Lemma ltb_leb (x y : float) : ltb x y = true -> leb x y = true.
Proof.
  unfold ltb, leb, SFltb, SFleb.
  destruct (SFcompare x y) as [[]|]; congruence.
Qed.

(** Two doubles other than NaN are comparable. *)
Lemma compare_Some (x y : float) :
  is_nan x = false -> is_nan y = false -> exists c, SFcompare x y = Some c.
Proof.
  destruct x, y; simpl; try discriminate; eauto.
Qed.

(** On doubles other than NaN, [<=] is total. *)
Lemma not_ltb_leb (x y : float) :
  is_nan x = false -> is_nan y = false -> ltb x y = false -> leb y x = true.
Proof.
  intros Hx Hy. unfold ltb, leb, SFltb, SFleb. rewrite (compare_swap x y).
  destruct (compare_Some x y Hx Hy) as [c ->].
  destruct c; simpl; congruence.
Qed.

(** A positive double is not equal to zero. *)
Lemma pos_nonzero (t : float) : ltb zero t = true -> eqb t zero = false.
Proof.
  destruct t as [s|s| |s m e]; try destruct s; cbn; congruence.
Qed.

(** Zero times 0.8 is a zero. *)
Lemma zero_mul (t : float) :
  eqb t zero = true -> exists s, mul t c0_8 = S754_zero s.
Proof.
  destruct t as [s|s| |s m e]; try destruct s; cbn; try discriminate;
    eauto.
Qed.

(** Nothing that is at least zero is below a zero. *)
Lemma nonneg_not_below_zero (c : float) (s : bool) :
  leb zero c = true -> ltb c (S754_zero s) = false.
Proof.
  destruct c as [sc|sc| |sc m e]; try destruct sc; cbn; congruence.
Qed.

(** *** The shape of rounded results *)

Lemma iter_pos_inv {A} (P : A -> Prop) (f : A -> A) :
  (forall x, P x -> P (f x)) -> forall p x, P x -> P (SpecFloat.iter_pos f p x).
Proof.
  intros Hf. induction p as [p IH|p IH|]; intros x Hx; simpl; auto.
Qed.

Lemma shr_1_nonneg (mrs : shr_record) : 0 <= shr_m mrs -> 0 <= shr_m (shr_1 mrs).
Proof.
  destruct mrs as [m r s]; simpl. destruct m as [|[p|p|]|p]; simpl; lia.
Qed.

Lemma shr_nonneg (mrs : shr_record) (e n : Z) :
  0 <= shr_m mrs -> 0 <= shr_m (shr mrs e n).1.
Proof.
  intros H. destruct n as [|p|p]; simpl; try exact H.
  apply (iter_pos_inv (fun r => 0 <= shr_m r)); [apply shr_1_nonneg | exact H].
Qed.

Lemma shr_record_of_loc_m (m : Z) (l : location) :
  shr_m (shr_record_of_loc m l) = m.
Proof. destruct l as [|[]]; reflexivity. Qed.

Lemma shr_fexp_nonneg (m e : Z) (l : location) :
  0 <= m -> 0 <= shr_m (shr_fexp prec emax m e l).1.
Proof.
  intros H. unfold shr_fexp. apply shr_nonneg.
  rewrite shr_record_of_loc_m. exact H.
Qed.

Lemma round_nearest_even_nonneg (m : Z) (l : location) :
  0 <= m -> 0 <= round_nearest_even m l.
Proof.
  intros H. destruct l as [|[]]; simpl; try lia.
  destruct (Z.even m); lia.
Qed.

(** Rounding a mantissa that is not negative never yields NaN, and the
    result carries the sign it was given. *)
Lemma binary_round_aux_sign (s : bool) (m e : Z) (l : location) :
  0 <= m -> has_sign s (binary_round_aux prec emax s m e l) = true.
Proof.
  intros Hm. unfold binary_round_aux.
  pose proof (shr_fexp_nonneg m e l Hm) as H1.
  destruct (shr_fexp prec emax m e l) as [mrs' e'] eqn:E1. simpl in H1.
  pose proof (shr_fexp_nonneg
                (round_nearest_even (shr_m mrs') (loc_of_shr_record mrs'))
                e' loc_Exact
                (round_nearest_even_nonneg _ _ H1)) as H2.
  destruct (shr_fexp prec emax _ e' loc_Exact) as [mrs'' e''] eqn:E2.
  simpl in H2.
  destruct (shr_m mrs'') as [|p|p]; simpl.
  - apply eqb_reflx.
  - destruct (e'' <=? emax - prec); simpl; apply eqb_reflx.
  - lia.
Qed.

Lemma binary_round_sign (s : bool) (m : positive) (e : Z) :
  has_sign s (binary_round prec emax s m e) = true.
Proof.
  unfold binary_round.
  destruct (shl_align m e _) as [mz ez].
  apply binary_round_aux_sign. lia.
Qed.

Lemma binary_normalize_not_nan (m e : Z) (szero : bool) :
  is_nan (binary_normalize prec emax m e szero) = false.
Proof.
  destruct m as [|p|p]; simpl; [reflexivity| |].
  - pose proof (binary_round_sign false p e) as H.
    destruct (binary_round prec emax false p e); simpl in *; congruence.
  - pose proof (binary_round_sign true p e) as H.
    destruct (binary_round prec emax true p e); simpl in *; congruence.
Qed.

(** The difference of two finite doubles is not NaN. *)
Lemma sub_not_nan (x y : float) :
  finite x = true -> finite y = true -> is_nan (sub x y) = false.
Proof.
  destruct x as [sx|sx| |sx mx ex], y as [sy|sy| |sy my ey];
    simpl; try discriminate; intros _ _.
  - destruct sx, sy; reflexivity.
  - reflexivity.
  - reflexivity.
  - apply binary_normalize_not_nan.
Qed.

Lemma abs_nonneg (x : float) : is_nan x = false -> has_sign false (abs x) = true.
Proof. destruct x; simpl; congruence. Qed.

Lemma has_sign_nonneg (x : float) : has_sign false x = true -> nonneg x = true.
Proof. destruct x as [[]|[]| |[] m e]; simpl; congruence. Qed.

Lemma nonneg_not_nan (x : float) : nonneg x = true -> is_nan x = false.
Proof. destruct x; simpl; congruence. Qed.

Lemma nonneg_finite_nonneg (x : float) :
  nonneg_finite x = true -> nonneg x = true.
Proof. destruct x as [[]|[]| |[] m e]; simpl; congruence. Qed.

(** A sum of two doubles that are not below zero is not below zero. *)
Lemma add_nonneg (x y : float) :
  nonneg x = true -> nonneg y = true -> nonneg (add x y) = true.
Proof.
  destruct x as [sx|sx| |sx mx ex], y as [sy|sy| |sy my ey];
    simpl; try discriminate;
    try (destruct sx; try discriminate); try (destruct sy; try discriminate);
    intros _ _; try reflexivity.
  unfold add, SFadd. simpl cond_Zopp.
  apply has_sign_nonneg, (binary_round_sign false).
Qed.

Lemma div_core_nonneg (m1 m2 : positive) (e1 e2 : Z) :
  0 <= (SFdiv_core_binary prec emax (Z.pos m1) e1 (Z.pos m2) e2).1.1.
Proof.
  unfold SFdiv_core_binary.
  set (s := _ - _ - _).
  set (m' := match s with Z.pos _ => _ | Z0 => _ | Z.neg _ => _ end).
  assert (Hm' : 0 <= m').
  { subst m'. destruct s; try lia. apply Z.shiftl_nonneg. lia. }
  pose proof (Z.div_pos m' (Z.pos m2) Hm' ltac:(lia)) as Hq.
  unfold Z.div in Hq.
  destruct (Z.div_eucl m' (Z.pos m2)) as [q r]. exact Hq.
Qed.

(** A finite double that is not below zero, divided by a double above
    zero, is not below zero. *)
Lemma div_nonneg (x y : float) :
  nonneg_finite x = true -> ltb zero y = true -> nonneg (div x y) = true.
Proof.
  destruct x as [sx|sx| |sx mx ex], y as [sy|sy| |sy my ey];
    simpl; try discriminate;
    try (destruct sx; try discriminate); try (destruct sy; try discriminate);
    intros _ _; try reflexivity.
  unfold div, SFdiv.
  pose proof (div_core_nonneg mx my ex ey) as Hq.
  destruct (SFdiv_core_binary prec emax (Z.pos mx) ex (Z.pos my) ey)
    as [[mz ez] lz]. simpl in Hq.
  apply has_sign_nonneg, binary_round_aux_sign. exact Hq.
Qed.

(** Rounding with the opposite sign gives the opposite result. *)
Lemma binary_round_aux_opp (s : bool) (m e : Z) (l : location) :
  binary_round_aux prec emax (negb s) m e l =
  SFopp (binary_round_aux prec emax s m e l).
Proof.
  unfold binary_round_aux.
  destruct (shr_fexp prec emax m e l) as [mrs' e'].
  destruct (shr_fexp prec emax _ e' loc_Exact) as [mrs'' e''].
  destruct (shr_m mrs''); simpl; try reflexivity.
  destruct (e'' <=? emax - prec); reflexivity.
Qed.

Lemma binary_normalize_opp (m e : Z) :
  m <> 0 ->
  binary_normalize prec emax (- m) e false =
  SFopp (binary_normalize prec emax m e false).
Proof.
  intros Hm. destruct m as [|p|p]; [congruence| |]; simpl;
    unfold binary_round; destruct (shl_align p e _) as [mz ez].
  - apply (binary_round_aux_opp false).
  - rewrite (binary_round_aux_opp false). 
    destruct (binary_round_aux prec emax false (Z.pos mz) ez loc_Exact);
      simpl; rewrite ?negb_involutive; reflexivity.
Qed.

(** A double other than NaN equals itself. *)
Lemma eqb_refl (x : float) : is_nan x = false -> eqb x x = true.
Proof.
  destruct x as [s|s| |s m e]; simpl; try discriminate; intros _;
    unfold eqb, SFeqb; simpl.
  - reflexivity.
  - destruct s; reflexivity.
  - destruct s; rewrite Z.compare_refl; simpl;
      change (Pos.compare_cont Eq m m) with (m ?= m)%positive;
      rewrite Pos.compare_refl; reflexivity.
Qed.

Lemma eqb_opp_opp (x : float) : is_nan x = false -> eqb x (opp (opp x)) = true.
Proof.
  intros H. replace (opp (opp x)) with x; [apply eqb_refl; exact H|].
  destruct x; simpl; rewrite ?negb_involutive; reflexivity.
Qed.

(** *** Subtraction *)

(** [x - y == -(y - x)] for finite doubles. *)
Lemma sub_antisym (x y : float) :
  finite x = true -> finite y = true -> eqb (sub x y) (opp (sub y x)) = true.
Proof.
  destruct x as [sx|sx| |sx mx ex], y as [sy|sy| |sy my ey];
    simpl; try discriminate; intros _ _.
  - destruct sx, sy; reflexivity.
  - apply (eqb_refl (S754_finite (negb sy) my ey)). reflexivity.
  - unfold opp, SFopp, negb. destruct sx; apply (eqb_refl (S754_finite _ mx ex));
      reflexivity.
  - unfold sub, SFsub. rewrite (Z.min_comm ey ex).
    set (ez := Z.min ex ey).
    set (X := cond_Zopp sx (Z.pos (shl_align mx ex ez).1)).
    set (Y := cond_Zopp sy (Z.pos (shl_align my ey ez).1)).
    destruct (Z.eq_dec (X - Y) 0) as [E|E].
    + replace (Y - X) with 0 by lia. rewrite E. reflexivity.
    + replace (Y - X) with (- (X - Y)) by lia.
      rewrite (binary_normalize_opp (X - Y) ez E).
      apply eqb_opp_opp, binary_normalize_not_nan.
Qed.

(** Subtracting zero changes nothing. *)
Lemma sub_zero (x : float) : sub x zero = x.
Proof. destruct x as [[]|[]| |s m e]; reflexivity. Qed.

(** [x - x == 0] for a finite double. *)
Lemma sub_diag (x : float) : finite x = true -> eqb (sub x x) zero = true.
Proof.
  destruct x as [s|s| |s m e]; simpl; try discriminate; intros _.
  - destruct s; reflexivity.
  - unfold sub, SFsub. rewrite Z.sub_diag. reflexivity.
Qed.

(** *** The order on doubles *)

Lemma compare_finite_trans (s : bool) (m1 m2 m3 : positive) (e1 e2 e3 : Z) :
  SFleb (S754_finite s m1 e1) (S754_finite s m2 e2) = true ->
  SFleb (S754_finite s m2 e2) (S754_finite s m3 e3) = true ->
  SFleb (S754_finite s m1 e1) (S754_finite s m3 e3) = true.
Proof.
  unfold SFleb, SFcompare.
  change (Pos.compare_cont Eq m1 m2) with (m1 ?= m2)%positive.
  change (Pos.compare_cont Eq m2 m3) with (m2 ?= m3)%positive.
  change (Pos.compare_cont Eq m1 m3) with (m1 ?= m3)%positive.
  destruct s;
    destruct (Z.compare_spec e1 e2), (Z.compare_spec e2 e3),
             (Z.compare_spec e1 e3); try lia; try congruence;
    destruct (Pos.compare_spec m1 m2), (Pos.compare_spec m2 m3),
             (Pos.compare_spec m1 m3); simpl; try lia; congruence.
Qed.

(** [<=] is transitive (NaN is below nothing and above nothing). *)
Lemma leb_trans (x y z : float) :
  leb x y = true -> leb y z = true -> leb x z = true.
Proof.
  destruct x as [sx|sx| |sx mx ex], y as [sy|sy| |sy my ey],
           z as [sz|sz| |sz mz ez];
    try (intros; discriminate);
    try (destruct sx; try (intros; discriminate));
    try (destruct sy; try (intros; discriminate));
    try (destruct sz; try (intros; discriminate));
    try (intros; reflexivity);
    try (intros H1 H2; discriminate H1);
    try (intros H1 H2; discriminate H2);
    try apply compare_finite_trans.
Qed.

(** *** Digits and magnitudes *)

(** The number of binary digits of a positive mantissa. *)
Lemma digits_log2 (m : positive) :
  Z.pos (digits2_pos m) = Z.log2 (Z.pos m) + 1.
Proof.
  assert (H : forall p, digits2_pos p = Pos.size p).
  { induction p as [p IH|p IH|]; simpl; congruence. }
  rewrite H. destruct m as [p|p|]; simpl; rewrite ?Pos2Z.inj_succ; lia.
Qed.

Lemma Zdigits2_log2 (m : Z) : 0 < m -> Zdigits2 m = Z.log2 m + 1.
Proof. destruct m as [|p|p]; try lia. intros _. apply digits_log2. Qed.

Lemma shr_1_div2 (mrs : shr_record) :
  0 <= shr_m mrs -> shr_m (shr_1 mrs) = shr_m mrs / 2.
Proof.
  destruct mrs as [m r s]; simpl. destruct m as [|[p|p|]|p]; simpl;
    intros H; try lia; Z.to_euclidean_division_equations; lia.
Qed.

Lemma pow2_xO (p : positive) : 2 ^ Z.pos p~0 = 2 ^ Z.pos p * 2 ^ Z.pos p.
Proof.
  replace (Z.pos p~0) with (Z.pos p + Z.pos p) by lia.
  apply Z.pow_add_r; lia.
Qed.

Lemma pow2_xI (p : positive) : 2 ^ Z.pos p~1 = 2 * (2 ^ Z.pos p * 2 ^ Z.pos p).
Proof.
  replace (Z.pos p~1) with (1 + (Z.pos p + Z.pos p)) by lia.
  rewrite Z.pow_add_r, Z.pow_add_r by lia. reflexivity.
Qed.

(** Shifting right by [p] places divides the mantissa by [2^p]. *)
Lemma iter_shr_1_div (p : positive) (mrs : shr_record) :
  0 <= shr_m mrs ->
  shr_m (SpecFloat.iter_pos shr_1 p mrs) = shr_m mrs / 2 ^ Z.pos p.
Proof.
  revert mrs. induction p as [p IH|p IH|]; intros mrs Hm;
    simpl SpecFloat.iter_pos.
  - assert (H1 := shr_1_nonneg mrs Hm).
    assert (H2 := iter_pos_inv (fun r => 0 <= shr_m r) shr_1 shr_1_nonneg
                               p _ H1).
    assert (Hp : 0 < 2 ^ Z.pos p) by (apply Z.pow_pos_nonneg; lia).
    rewrite (IH _ H2), (IH _ H1), (shr_1_div2 _ Hm), pow2_xI.
    rewrite !Z.div_div by lia. reflexivity.
  - assert (H2 := iter_pos_inv (fun r => 0 <= shr_m r) shr_1 shr_1_nonneg
                               p _ Hm).
    assert (Hp : 0 < 2 ^ Z.pos p) by (apply Z.pow_pos_nonneg; lia).
    rewrite (IH _ H2), (IH _ Hm), pow2_xO.
    rewrite Z.div_div by lia. reflexivity.
  - rewrite (shr_1_div2 _ Hm). reflexivity.
Qed.

(** A right shift by fewer places than the mantissa has digits leaves a
    positive mantissa of the same magnitude. *)
Lemma shr_magnitude (mrs : shr_record) (e n : Z) :
  0 < shr_m mrs ->
  n < Zdigits2 (shr_m mrs) ->
  0 < shr_m (shr mrs e n).1 /\
  Zdigits2 (shr_m (shr mrs e n).1) + (shr mrs e n).2 = Zdigits2 (shr_m mrs) + e /\
  (shr mrs e n).2 = e + Z.max n 0.
Proof.
  intros Hm Hn. rewrite (Zdigits2_log2 _ Hm) in Hn |- *.
  destruct n as [|p|p]; simpl; try (rewrite (Zdigits2_log2 _ Hm); lia).
  rewrite iter_shr_1_div by lia.
  rewrite <- Z.shiftr_div_pow2 by lia.
  assert (Hl : Z.log2 (Z.shiftr (shr_m mrs) (Z.pos p)) = Z.log2 (shr_m mrs) - Z.pos p).
  { rewrite Z.log2_shiftr by lia. lia. }
  assert (Hpos : 0 < Z.shiftr (shr_m mrs) (Z.pos p)).
  { rewrite Z.shiftr_div_pow2 by lia.
    apply Z.div_str_pos. split; [lia|].
    apply Z.le_trans with (2 ^ Z.log2 (shr_m mrs)).
    - apply Z.pow_le_mono_r; lia.
    - apply Z.log2_spec. lia. }
  rewrite (Zdigits2_log2 _ Hpos). lia.
Qed.

Lemma round_nearest_even_bounds (m : Z) (l : location) :
  m <= round_nearest_even m l <= m + 1.
Proof.
  destruct l as [|[]]; simpl; try lia. destruct (Z.even m); lia.
Qed.

(** Rounding a positive mantissa whose magnitude is above the smallest
    exponent gives a double of the same sign that is at least as large in
    magnitude: the result is not zero. *)
Lemma binary_round_aux_large (s : bool) (m : positive) (e : Z) (l : location) :
  SpecFloat.emin prec emax < Z.pos (digits2_pos m) + e ->
  large (Z.pos (digits2_pos m) + e) s
        (binary_round_aux prec emax s (Z.pos m) e l).
Proof.
  intros Hmag. unfold binary_round_aux, shr_fexp.
  change (Zdigits2 (Z.pos m)) with (Z.pos (digits2_pos m)).
  set (d := Z.pos (digits2_pos m)) in *.
  set (n1 := fexp prec emax (d + e) - e).
  assert (Hn1 : n1 < d /\ SpecFloat.emin prec emax <= e + Z.max n1 0).
  { subst n1. unfold fexp, SpecFloat.emin, prec, emax in *. lia. }
  destruct Hn1 as [Hn1 He1].
  pose proof (shr_magnitude (shr_record_of_loc (Z.pos m) l) e n1) as H1.
  rewrite shr_record_of_loc_m in H1.
  specialize (H1 ltac:(lia) Hn1).
  destruct (shr (shr_record_of_loc (Z.pos m) l) e n1) as [mrs' e'].
  simpl in H1. destruct H1 as (Hm1 & Hd1 & He').
  change (Zdigits2 (Z.pos m)) with d in Hd1.
  pose proof (round_nearest_even_bounds (shr_m mrs') (loc_of_shr_record mrs'))
    as Hr.
  set (m2 := round_nearest_even (shr_m mrs') (loc_of_shr_record mrs')) in *.
  assert (Hm2 : 0 < m2) by lia.
  assert (Hd2 : Zdigits2 (shr_m mrs') <= Zdigits2 m2).
  { rewrite (Zdigits2_log2 _ Hm1), (Zdigits2_log2 _ Hm2).
    pose proof (Z.log2_le_mono (shr_m mrs') m2). lia. }
  set (n2 := fexp prec emax (Zdigits2 m2 + e') - e').
  assert (Hn2 : n2 < Zdigits2 m2).
  { subst n2. rewrite (Zdigits2_log2 _ Hm2). pose proof (Z.log2_nonneg m2).
    unfold fexp, SpecFloat.emin, prec, emax in *. lia. }
  pose proof (shr_magnitude (shr_record_of_loc m2 loc_Exact) e' n2) as H2.
  rewrite shr_record_of_loc_m in H2. specialize (H2 Hm2 Hn2).
  destruct (shr (shr_record_of_loc m2 loc_Exact) e' n2) as [mrs'' e''].
  simpl in H2. destruct H2 as (Hm3 & Hd3 & _).
  destruct (shr_m mrs'') as [|p|p]; try lia.
  destruct (e'' <=? emax - prec); simpl; [|reflexivity].
  split; [reflexivity|]. simpl in Hd3. lia.
Qed.

Lemma large_weaken (k k' : Z) (s : bool) (x : float) :
  k' <= k -> large k s x -> large k' s x.
Proof. destruct x; simpl; intuition lia. Qed.

Lemma large_above_zero (k : Z) (x : float) :
  large k false x -> above_zero x = true.
Proof.
  destruct x as [s|s| |s m e]; simpl; try tauto; destruct s; try reflexivity.
  - intros H. discriminate H.
  - intros [H _]. discriminate H.
Qed.

Lemma above_zero_ltb (x : float) : above_zero x = true -> ltb zero x = true.
Proof. destruct x as [s|s| |s m e]; try destruct s; cbn; congruence. Qed.

Lemma iter_xO_val (m d : positive) :
  Z.pos (Pos.iter xO m d) = Z.pos m * 2 ^ Z.pos d.
Proof.
  induction d as [|d IH] using Pos.peano_ind.
  - simpl. lia.
  - rewrite Pos.iter_succ, Pos2Z.inj_succ, Z.pow_succ_r by lia.
    rewrite Pos2Z.inj_xO, IH. lia.
Qed.

(** Aligning a mantissa to a smaller exponent keeps its value and its
    magnitude. *)
Lemma shl_align_spec (m : positive) (e e' : Z) :
  (shl_align m e e').2 = Z.min e e' /\
  Z.pos (shl_align m e e').1 = Z.pos m * 2 ^ (e - Z.min e e') /\
  Z.pos (digits2_pos (shl_align m e e').1) + (shl_align m e e').2 =
  Z.pos (digits2_pos m) + e.
Proof.
  unfold shl_align. destruct (e' - e) as [|d|d] eqn:E; simpl.
  - replace (e - Z.min e e') with 0 by lia. split; [lia|]. split; lia.
  - replace (e - Z.min e e') with 0 by lia. split; [lia|]. split; lia.
  - assert (Hd : e - Z.min e e' = Z.pos d) by lia.
    rewrite Hd, iter_xO_val. split; [lia|]. split; [reflexivity|].
    rewrite !digits_log2, iter_xO_val, Z.log2_mul_pow2 by lia. lia.
Qed.

Lemma binary_round_large (s : bool) (m : positive) (e : Z) :
  SpecFloat.emin prec emax < Z.pos (digits2_pos m) + e ->
  large (Z.pos (digits2_pos m) + e) s (binary_round prec emax s m e).
Proof.
  intros H. unfold binary_round.
  destruct (shl_align_spec m e (fexp prec emax (Z.pos (digits2_pos m) + e)))
    as (_ & _ & Hd).
  destruct (shl_align m e _) as [mz ez]. simpl in Hd.
  rewrite <- Hd. apply binary_round_aux_large. lia.
Qed.

(** A canonical mantissa has at most [prec] digits, exactly [prec] of them
    above the smallest exponent, and its exponent is not below the
    smallest. *)
Lemma bounded_spec (m : positive) (e : Z) :
  bounded prec emax m e = true ->
  SpecFloat.emin prec emax <= e /\
  Z.pos (digits2_pos m) <= prec /\
  (SpecFloat.emin prec emax < e -> Z.pos (digits2_pos m) = prec).
Proof.
  unfold bounded, canonical_mantissa, fexp, SpecFloat.emin, prec, emax.
  intros H. apply andb_prop in H as [H _]. apply Z.eqb_eq in H. lia.
Qed.

Lemma digits_bounds (m : positive) :
  2 ^ (Z.pos (digits2_pos m) - 1) <= Z.pos m < 2 ^ Z.pos (digits2_pos m).
Proof.
  rewrite digits_log2. replace (Z.log2 (Z.pos m) + 1 - 1) with (Z.log2 (Z.pos m))
    by lia.
  apply (Z.log2_spec (Z.pos m)). lia.
Qed.

(** Of two canonical positive doubles, the greater has the greater aligned
    mantissa. *)
Lemma aligned_lt (m1 m2 : positive) (e1 e2 : Z) :
  bounded prec emax m1 e1 = true -> bounded prec emax m2 e2 = true ->
  ltb (S754_finite false m2 e2) (S754_finite false m1 e1) = true ->
  Z.min e1 e2 = e2 /\
  Z.pos (shl_align m2 e2 (Z.min e1 e2)).1 <
  Z.pos (shl_align m1 e1 (Z.min e1 e2)).1.
Proof.
  intros B1 B2 Hlt.
  destruct (bounded_spec m1 e1 B1) as (Hmin1 & Hd1 & Hn1).
  destruct (bounded_spec m2 e2 B2) as (Hmin2 & Hd2 & Hn2).
  destruct (shl_align_spec m1 e1 (Z.min e1 e2)) as (_ & V1 & _).
  destruct (shl_align_spec m2 e2 (Z.min e1 e2)) as (_ & V2 & _).
  rewrite V1, V2. clear V1 V2.
  unfold ltb, SFltb, SFcompare in Hlt.
  change (Pos.compare_cont Eq m2 m1) with (m2 ?= m1)%positive in Hlt.
  destruct (Z.compare_spec e2 e1) as [He|He|He]; try discriminate.
  - subst e2. rewrite !Z.min_id, !Z.sub_diag. split; [reflexivity|].
    destruct (Pos.compare_spec m2 m1); try discriminate. simpl. lia.
  - split; [lia|].
    rewrite !(Z.min_r e1 e2) by lia. rewrite !Z.min_id, Z.sub_diag.
    pose proof (digits_bounds m1) as [L1 _].
    pose proof (digits_bounds m2) as [_ U2].
    rewrite (Hn1 ltac:(lia)) in L1.
    assert (U2' : Z.pos m2 < 2 ^ prec).
    { eapply Z.lt_le_trans; [exact U2|]. apply Z.pow_le_mono_r; lia. }
    assert (P : 2 ^ 1 <= 2 ^ (e1 - e2)) by (apply Z.pow_le_mono_r; lia).
    change (2 ^ 1) with 2 in P. change (2 ^ 0) with 1.
    unfold prec in *. change (2 ^ (53 - 1)) with 4503599627370496 in L1.
    change (2 ^ 53) with 9007199254740992 in U2'. nia.
Qed.

(** The difference of two canonical positive doubles, the greater first, is
    above zero and at least one unit of the smaller exponent. *)
Lemma sub_large (m1 m2 : positive) (e1 e2 : Z) :
  bounded prec emax m1 e1 = true -> bounded prec emax m2 e2 = true ->
  ltb (S754_finite false m2 e2) (S754_finite false m1 e1) = true ->
  large (e2 + 1) false (sub (S754_finite false m1 e1) (S754_finite false m2 e2)).
Proof.
  intros B1 B2 Hlt.
  destruct (aligned_lt m1 m2 e1 e2 B1 B2 Hlt) as [Hez HD].
  destruct (bounded_spec m2 e2 B2) as (Hmin2 & _ & _).
  unfold sub, SFsub. cbn [cond_Zopp]. rewrite Hez in *.
  destruct (Z.pos (shl_align m1 e1 e2).1 - Z.pos (shl_align m2 e2 e2).1)
    as [|D|D] eqn:E; try lia.
  simpl binary_normalize.
  eapply large_weaken; [|apply binary_round_large]; lia.
Qed.

(** The difference of two canonical doubles that are not below zero, the
    smaller first, has its sign bit set. *)
Lemma sub_negative (x y : float) :
  nonneg_finite x = true -> nonneg_finite y = true -> ltb x y = true ->
  has_sign true (sub x y) = true.
Proof.
  destruct x as [sx|sx| |sx m1 e1], y as [sy|sy| |sy m2 e2];
    simpl; try discriminate;
    try (destruct sx; try discriminate); try (destruct sy; try discriminate);
    try (intros _ _ H; discriminate H); try (intros; reflexivity).
  intros B1 B2 Hlt.
  destruct (aligned_lt m2 m1 e2 e1 B2 B1 Hlt) as [Hez HD].
  unfold sub, SFsub. cbn [cond_Zopp]. rewrite (Z.min_comm e1 e2).
  destruct (Z.pos (shl_align m1 e1 (Z.min e2 e1)).1 -
            Z.pos (shl_align m2 e2 (Z.min e2 e1)).1) as [|D|D] eqn:E; try lia.
  simpl binary_normalize. apply binary_round_sign.
Qed.

(** A quotient is at least [2^(log2 a - digits b)]. *)
Lemma div_lower_bound (a : Z) (b : positive) :
  0 < a -> Z.pos (digits2_pos b) <= Z.log2 a ->
  2 ^ (Z.log2 a - Z.pos (digits2_pos b)) <= a / Z.pos b.
Proof.
  intros Ha Hb. apply Z.div_le_lower_bound; [lia|].
  pose proof (digits_bounds b) as [_ Ub].
  pose proof (Z.log2_spec a Ha) as [La _].
  assert (P : 0 < 2 ^ (Z.log2 a - Z.pos (digits2_pos b)))
    by (apply Z.pow_pos_nonneg; lia).
  apply Z.le_trans with (2 ^ Z.pos (digits2_pos b) *
                         2 ^ (Z.log2 a - Z.pos (digits2_pos b))).
  - apply Z.mul_le_mono_nonneg_r; lia.
  - rewrite <- Z.pow_add_r by lia.
    replace (Z.pos (digits2_pos b) + (Z.log2 a - Z.pos (digits2_pos b)))
      with (Z.log2 a) by lia.
    exact La.
Qed.

(** A double above zero of magnitude at least [e2 + 1], divided by a
    canonical positive double of exponent [e2], does not underflow to
    zero. *)
Lemma div_large (k : Z) (d : float) (m2 : positive) (e2 : Z) :
  bounded prec emax m2 e2 = true -> e2 + 1 <= k -> large k false d ->
  large (1 - prec) false (div d (S754_finite false m2 e2)).
Proof.
  intros B2 Hk Hd.
  destruct (bounded_spec m2 e2 B2) as (Hmin2 & Hd2 & _).
  destruct d as [s|s| |s md ed]; simpl in Hd; try contradiction.
  - subst s. reflexivity.
  - destruct Hd as [-> Hmag].
    unfold div, SFdiv, SFdiv_core_binary. cbn [xorb].
    change (Zdigits2 (Z.pos md)) with (Z.pos (digits2_pos md)).
    change (Zdigits2 (Z.pos m2)) with (Z.pos (digits2_pos m2)).
    set (d1 := Z.pos (digits2_pos md)) in *.
    set (d2 := Z.pos (digits2_pos m2)) in *.
    set (e' := Z.min (fexp prec emax (d1 + ed - (d2 + e2))) (ed - e2)).
    assert (He' : e' = Z.min (d1 + ed - (d2 + e2) - prec) (ed - e2)).
    { subst e'. unfold fexp, SpecFloat.emin, prec, emax in *. lia. }
    set (s := ed - e2 - e').
    assert (Hs : 0 <= s /\ d2 + prec <= d1 + s) by (subst s; lia).
    destruct Hs as [Hs0 Hs].
    set (m' := match s with
               | 0 => Z.pos md
               | Z.pos _ => Z.shiftl (Z.pos md) s
               | Z.neg _ => 0
               end).
    assert (Hm' : m' = Z.pos md * 2 ^ s).
    { subst m'. destruct s as [|p|p]; try lia.
      apply Z.shiftl_mul_pow2. lia. }
    assert (Hlog : Z.log2 m' = d1 - 1 + s).
    { rewrite Hm', Z.log2_mul_pow2 by lia. subst d1.
      rewrite digits_log2. lia. }
    assert (Hm'pos : 0 < m').
    { rewrite Hm'. apply Z.mul_pos_pos; [lia|]. apply Z.pow_pos_nonneg; lia. }
    pose proof (div_lower_bound m' m2 Hm'pos) as Hq.
    fold d2 in Hq. rewrite Hlog in Hq. specialize (Hq ltac:(unfold prec in *; lia)).
    unfold Z.div in Hq.
    destruct (Z.div_eucl m' (Z.pos m2)) as [q r].
    assert (Hq0 : 0 < 2 ^ (d1 - 1 + s - d2))
      by (apply Z.pow_pos_nonneg; unfold prec in *; lia).
    destruct q as [|qp|qp]; try lia.
    assert (Hdq : d1 + s - d2 <= Z.pos (digits2_pos qp)).
    { rewrite (digits_log2 qp).
      pose proof (Z.log2_le_mono _ _ Hq) as Hl.
      rewrite Z.log2_pow2 in Hl by (unfold prec in *; lia). lia. }
    eapply large_weaken; [|apply binary_round_aux_large].
    + unfold prec in *. lia.
    + unfold SpecFloat.emin, prec, emax in *. lia.
Qed.

(** A double above zero of magnitude at least [1 - prec], times 100, is
    above zero. *)
Lemma mul_100_large (k : Z) (q : float) :
  1 - prec <= k -> large k false q -> above_zero (mul q c100) = true.
Proof.
  intros Hk Hq. destruct q as [s|s| |s mq eq]; simpl in Hq; try contradiction.
  - subst s. reflexivity.
  - destruct Hq as [-> Hmag].
    unfold mul, SFmul, c100. cbn [xorb].
    apply (large_above_zero (1 - prec)).
    assert (Hd : Z.pos (digits2_pos mq) + 52 <=
                 Z.pos (digits2_pos (mq * 7036874417766400))).
    { rewrite !digits_log2, Pos2Z.inj_mul.
      pose proof (Z.log2_mul_below (Z.pos mq) 7036874417766400
                    ltac:(lia) ltac:(lia)) as H.
      change (Z.log2 7036874417766400) with 52 in H. lia. }
    eapply large_weaken; [|apply binary_round_aux_large].
    + unfold prec in *. lia.
    + unfold SpecFloat.emin, prec, emax in *. lia.
Qed.

(** A double with its sign bit set stays so when divided by a positive
    finite double and when multiplied by 100, and it is not above zero. *)
Lemma div_negative (d : float) (m2 : positive) (e2 : Z) :
  has_sign true d = true ->
  has_sign true (div d (S754_finite false m2 e2)) = true.
Proof.
  destruct d as [s|s| |s md ed]; simpl; try discriminate;
    destruct s; try discriminate; intros _; try reflexivity.
  unfold div, SFdiv. cbn [xorb].
  pose proof (div_core_nonneg md m2 ed e2) as Hq.
  destruct (SFdiv_core_binary prec emax (Z.pos md) ed (Z.pos m2) e2)
    as [[mz ez] lz]. simpl in Hq.
  apply binary_round_aux_sign. exact Hq.
Qed.

Lemma mul_100_negative (q : float) :
  has_sign true q = true -> has_sign true (mul q c100) = true.
Proof.
  destruct q as [s|s| |s mq eq]; simpl; try discriminate;
    destruct s; try discriminate; intros _; try reflexivity.
  unfold mul, SFmul, c100. cbn [xorb].
  apply binary_round_aux_sign. lia.
Qed.

Lemma negative_not_above_zero (x : float) :
  has_sign true x = true -> ltb zero x = false.
Proof. destruct x as [s|s| |s m e]; try destruct s; cbn; congruence. Qed.

(** *** Addition *)

(** Addition of doubles is commutative. *)
Lemma add_comm (x y : float) : add x y = add y x.
Proof.
  destruct x as [sx|sx| |sx mx ex], y as [sy|sy| |sy my ey]; simpl;
    try reflexivity;
    try (destruct sx, sy; reflexivity).
  unfold add, SFadd. rewrite (Z.min_comm ey ex), Z.add_comm. reflexivity.
Qed.

(** Two summands may be accumulated from zero in either order. *)
Lemma add_from_zero_swap (x y : float) :
  add (add zero x) y = add (add zero y) x.
Proof.
  destruct x as [sx|sx| |sx mx ex], y as [sy|sy| |sy my ey];
    try apply (add_comm (S754_finite sx mx ex) (S754_finite sy my ey));
    try (destruct sx); try (destruct sy); reflexivity.
Qed.

End F64Facts.

(** ** The error monad *)

Lemma bind_Ok {A B} (m : result A) (f : A -> result B) (b : B) :
  (m ≫= f) = Ok b -> exists a, m = Ok a /\ f a = Ok b.
Proof. destruct m as [a|e]; simpl; [eauto | discriminate]. Qed.

(** ** The catalog lookup *)

Lemma frame_col_ok (df : DataFrame) (col : string) :
  col ∈ columns df -> frame_col df col = Ok tt.
Proof. intros H. unfold frame_col. rewrite bool_decide_eq_true_2; done. Qed.

(** The matching rows of a name that matches no row. *)
Lemma no_match_filter (lowered : string) (rs : list row) :
  Forall (fun r => name_matches lowered r = false) rs ->
  List.filter (name_matches lowered) rs = [].
Proof.
  induction 1 as [|r rs Hr _ IH]; simpl; [reflexivity|].
  rewrite Hr. exact IH.
Qed.

(** A name that matches no row makes the lookup raise [IndexError]: the
    first matching row is taken before the test for an empty result. *)
Lemma get_food_nutrition_absent (db : FoodDatabase) (name : string) :
  "food" ∈ columns (food_data db) ->
  Forall (fun r => name_matches (lower name) r = false) (rows (food_data db)) ->
  get_food_nutrition db name = Raise IndexError.
Proof.
  intros Hcol Hno. unfold get_food_nutrition.
  rewrite (frame_col_ok _ _ Hcol). simpl.
  rewrite (no_match_filter _ _ Hno). reflexivity.
Qed.

(** A matching row is never empty, so the lookup never returns [None]. *)
Lemma get_food_nutrition_not_None (db : FoodDatabase) (name : string) :
  get_food_nutrition db name <> Ok None.
Proof.
  unfold get_food_nutrition.
  destruct (frame_col (food_data db) "food"); simpl; [|discriminate].
  destruct (List.filter _ _) as [|r rs] eqn:E; [discriminate|].
  assert (Hin : In r (List.filter (name_matches (lower name))
                                  (rows (food_data db)))).
  { rewrite E. left. reflexivity. }
  apply filter_In in Hin as [_ Hm].
  case_bool_decide as Hr.
  - subst r. unfold name_matches in Hm. rewrite lookup_empty in Hm.
    discriminate.
  - destruct (food_of_row r); simpl; discriminate.
Qed.

(** A name that matches a row is answered from the first matching row. *)
Lemma get_food_nutrition_present (db : FoodDatabase) (name : string)
    (r : row) (others : list row) :
  "food" ∈ columns (food_data db) ->
  List.filter (name_matches (lower name)) (rows (food_data db)) = r :: others ->
  get_food_nutrition db name = (food_of_row r ≫= fun f => Ok (Some f)).
Proof.
  intros Hcol Hfil. unfold get_food_nutrition.
  rewrite (frame_col_ok _ _ Hcol). cbn [mbind result_bind]. rewrite Hfil.
  case_bool_decide as Hr; [|reflexivity].
  assert (Hin : In r (List.filter (name_matches (lower name))
                                  (rows (food_data db)))).
  { rewrite Hfil. by left. }
  apply filter_In in Hin as [_ Hm]. subst r.
  unfold name_matches in Hm. rewrite lookup_empty in Hm. discriminate.
Qed.

(** C1, as the code behaves: for every name that matches no row of the food
    table the lookup raises [IndexError]; it does not return [None]. *)
Theorem C1_lookup_of_absent_name_raises (db : FoodDatabase) (name : string) :
  "food" ∈ columns (food_data db) ->
  Forall (fun r => name_matches (lower name) r = false) (rows (food_data db)) ->
  get_food_nutrition db name = Raise IndexError /\
  get_food_nutrition db name <> Ok None.
Proof.
  intros Hcol Hno. split.
  - exact (get_food_nutrition_absent db name Hcol Hno).
  - apply get_food_nutrition_not_None.
Qed.

Lemma C1_lookup_of_absent_name_raises_witness :
  get_food_nutrition demo_db "Unicorn" = Raise IndexError /\
  get_food_nutrition demo_db "Unicorn" <> Ok None.
Proof.
  apply (C1_lookup_of_absent_name_raises demo_db "Unicorn").
  - vm_compute. repeat constructor.
  - repeat constructor.
Defined.

(** ** Aggregation of the intake *)

Lemma add_entry_absent (db : FoodDatabase) (t : gmap string float)
    (name : string) (q : float) :
  "food" ∈ columns (food_data db) ->
  Forall (fun r => name_matches (lower name) r = false) (rows (food_data db)) ->
  add_entry db t (name, q) = Raise IndexError.
Proof.
  intros Hcol Hno. unfold add_entry.
  rewrite (get_food_nutrition_absent db name Hcol Hno). reflexivity.
Qed.

Lemma foldM_add_entry_absent (db : FoodDatabase) (entries : list (string * float)) :
  "food" ∈ columns (food_data db) ->
  Exists (fun e => Forall (fun r => name_matches (lower e.1) r = false)
                          (rows (food_data db))) entries ->
  forall t, exists e, foldM (add_entry db) entries t = Raise e.
Proof.
  intros Hcol. induction 1 as [[name q] rest Hno | entry rest _ IH]; intros t.
  - cbn [foldM]. rewrite (add_entry_absent db t name q Hcol Hno). simpl. eauto.
  - cbn [foldM]. destruct (add_entry db t entry) as [t'|e]; simpl; eauto.
Qed.

(** C2, as the code behaves: an entry whose food matches no row of the
    table makes the whole aggregation raise; nothing is returned. *)
Theorem C2_unknown_food_fails_aggregation (db : FoodDatabase)
    (consumed_foods : list string) (quantities : list float) :
  "food" ∈ columns (food_data db) ->
  Exists (fun e => Forall (fun r => name_matches (lower e.1) r = false)
                          (rows (food_data db)))
         (combine consumed_foods quantities) ->
  exists e, analyze_daily_intake db consumed_foods quantities = Raise e.
Proof.
  intros Hcol Hex. unfold analyze_daily_intake.
  apply foldM_add_entry_absent; assumption.
Qed.

Lemma C2_unknown_food_fails_aggregation_witness :
  exists e, analyze_daily_intake demo_db ["Apple"; "Unicorn"; "Banana"]
              [of_Z 200; of_Z 50; of_Z 100] = Raise e.
Proof.
  apply (C2_unknown_food_fails_aggregation demo_db).
  - vm_compute. repeat constructor.
  - apply Exists_cons_tl, Exists_cons_hd. repeat constructor.
Defined.

(** The exception is the lookup's [IndexError]. *)
Example aggregation_raises_IndexError :
  analyze_daily_intake demo_db ["Apple"; "Unicorn"; "Banana"]
    [of_Z 200; of_Z 50; of_Z 100] = Raise IndexError.
Proof. vm_compute. reflexivity. Qed.

(** ** The aggregated totals *)

Lemma num_value (c : cell) : numeric c = true -> num c = Ok (value c).
Proof. destruct c; simpl; congruence. Qed.

Lemma accumulate_ok (key : string) (c : cell) (s cur : float)
    (t : gmap string float) :
  t !! key = Some cur -> numeric c = true ->
  accumulate key c s t = Ok (<[key := add cur (mul (value c) s)]> t).
Proof.
  intros Hcur Hc. unfold accumulate, dict_get.
  rewrite Hcur, (num_value c Hc). reflexivity.
Qed.

Lemma add_entry_known (db : FoodDatabase) (name : string) (q : float)
    (n : FoodNutrient) (a1 a2 a3 a4 a5 a6 a7 a8 : float) :
  get_food_nutrition db name = Ok (Some n) ->
  Forall (fun kf => numeric (kf.2 n) = true) tracked ->
  add_entry db (totals_map a1 a2 a3 a4 a5 a6 a7 a8) (name, q) =
  Ok (totals_map (add a1 (mul (value (calories n)) (div q c100)))
                 (add a2 (mul (value (protein n)) (div q c100)))
                 (add a3 (mul (value (carbs n)) (div q c100)))
                 (add a4 (mul (value (fat n)) (div q c100)))
                 (add a5 (mul (value (fiber n)) (div q c100)))
                 (add a6 (mul (value (vitamin_c n)) (div q c100)))
                 (add a7 (mul (value (iron n)) (div q c100)))
                 (add a8 (mul (value (calcium n)) (div q c100)))).
Proof.
  intros Hget Hnum. unfold add_entry. rewrite Hget.
  unfold tracked in Hnum.
  repeat match goal with
         | H : Forall _ (_ :: _) |- _ => apply Forall_cons in H as [? H]
         end.
  simpl in * |-.
  cbn [mbind result_bind].
  do 8 (erewrite accumulate_ok by first [reflexivity | assumption];
        cbn [mbind result_bind]).
  reflexivity.
Qed.

Lemma foldM_add_entry_known (db : FoodDatabase)
    (entries : list (string * float)) (foods : list FoodNutrient) :
  Forall2 (known db) entries foods ->
  forall a1 a2 a3 a4 a5 a6 a7 a8,
    foldM (add_entry db) entries (totals_map a1 a2 a3 a4 a5 a6 a7 a8) =
    Ok (totals_map (sum_from calories a1 (zip entries foods))
                   (sum_from protein a2 (zip entries foods))
                   (sum_from carbs a3 (zip entries foods))
                   (sum_from fat a4 (zip entries foods))
                   (sum_from fiber a5 (zip entries foods))
                   (sum_from vitamin_c a6 (zip entries foods))
                   (sum_from iron a7 (zip entries foods))
                   (sum_from calcium a8 (zip entries foods))).
Proof.
  induction 1 as [|[name q] n entries foods [Hget Hnum] _ IH]; intros.
  - reflexivity.
  - cbn [foldM].
    rewrite (add_entry_known db name q n _ _ _ _ _ _ _ _ Hget Hnum).
    cbn [mbind result_bind]. rewrite IH. reflexivity.
Qed.

Lemma combine_fst_snd {A B} (l : list (A * B)) : combine l.*1 l.*2 = l.
Proof.
  induction l as [|[a b] l IH]; [reflexivity|].
  change (combine ((a, b) :: l).*1 ((a, b) :: l).*2)
    with ((a, b) :: combine l.*1 l.*2).
  by rewrite IH.
Qed.

Lemma analyze_known (db : FoodDatabase) (entries : list (string * float))
    (foods : list FoodNutrient) :
  Forall2 (known db) entries foods ->
  analyze_daily_intake db entries.*1 entries.*2 =
  Ok (totals_map (sum_from calories zero (zip entries foods))
                 (sum_from protein zero (zip entries foods))
                 (sum_from carbs zero (zip entries foods))
                 (sum_from fat zero (zip entries foods))
                 (sum_from fiber zero (zip entries foods))
                 (sum_from vitamin_c zero (zip entries foods))
                 (sum_from iron zero (zip entries foods))
                 (sum_from calcium zero (zip entries foods))).
Proof.
  intros Hknown. unfold analyze_daily_intake. rewrite combine_fst_snd.
  exact (foldM_add_entry_known db entries foods Hknown
           zero zero zero zero zero zero zero zero).
Qed.

(** C3, as the code computes it: when every food of the list is in the
    catalog (with numeric tracked nutrients), each of the eight totals is the
    floating-point sum, accumulated from 0 in list order, of the food's
    value times [grams / 100]; two entries give the same totals in either
    order. *)
Theorem C3_totals_are_the_sums_in_entry_order (db : FoodDatabase) :
  (forall (entries : list (string * float)) (foods : list FoodNutrient),
      Forall2 (known db) entries foods ->
      exists totals,
        analyze_daily_intake db entries.*1 entries.*2 = Ok totals /\
        Forall (fun kf : string * (FoodNutrient -> cell) =>
                  totals !! kf.1 =
                  Some (sum_from kf.2 zero (zip entries foods)))
               tracked) /\
  (forall (e1 e2 : string * float) (n1 n2 : FoodNutrient),
      known db e1 n1 -> known db e2 n2 ->
      analyze_daily_intake db [e1; e2].*1 [e1; e2].*2 =
      analyze_daily_intake db [e2; e1].*1 [e2; e1].*2).
Proof.
  split.
  - intros entries foods Hknown. eexists. split.
    + exact (analyze_known db entries foods Hknown).
    + unfold tracked. repeat constructor.
  - intros e1 e2 n1 n2 H1 H2.
    rewrite (analyze_known db [e1; e2] [n1; n2])
      by (constructor; [exact H1 | constructor; [exact H2 | constructor]]).
    rewrite (analyze_known db [e2; e1] [n2; n1])
      by (constructor; [exact H2 | constructor; [exact H1 | constructor]]).
    unfold sum_from. cbn [zip zip_with fold_left fst snd].
    f_equal. f_equal; apply F64Facts.add_from_zero_swap.
Qed.

Lemma C3_totals_are_the_sums_in_entry_order_witness :
  (exists totals,
      analyze_daily_intake demo_db
        [("Apple", of_Z 200); ("Banana", of_Z 110)].*1
        [("Apple", of_Z 200); ("Banana", of_Z 110)].*2 = Ok totals /\
      Forall (fun kf : string * (FoodNutrient -> cell) =>
                totals !! kf.1 =
                Some (sum_from kf.2 zero
                        (zip [("Apple", of_Z 200); ("Banana", of_Z 110)]
                             [record_of apple; record_of banana])))
             tracked) /\
  analyze_daily_intake demo_db
    [("Apple", of_Z 200); ("Banana", of_Z 110)].*1
    [("Apple", of_Z 200); ("Banana", of_Z 110)].*2 =
  analyze_daily_intake demo_db
    [("Banana", of_Z 110); ("Apple", of_Z 200)].*1
    [("Banana", of_Z 110); ("Apple", of_Z 200)].*2.
Proof.
  destruct (C3_totals_are_the_sums_in_entry_order demo_db) as [Hsum Hswap].
  split.
  - apply (Hsum [("Apple", of_Z 200); ("Banana", of_Z 110)]
                [record_of apple; record_of banana]).
    repeat constructor.
  - apply (Hswap ("Apple", of_Z 200) ("Banana", of_Z 110)
                 (record_of apple) (record_of banana));
      repeat constructor.
Defined.

Lemma foldM_app {A B} (body : B -> A -> result B) (xs ys : list A) (acc : B) :
  foldM body (xs ++ ys) acc = (foldM body xs acc ≫= foldM body ys).
Proof.
  revert acc; induction xs as [|x xs IH]; intros acc; simpl; [reflexivity|].
  destruct (body acc x) as [acc'|e]; simpl; [apply IH | reflexivity].
Qed.

(** When the entries before the first unknown food are known, the
    aggregation ends with the [IndexError] of the lookup, whatever
    follows. *)
Lemma aggregation_stops_at_the_first_unknown_food (db : FoodDatabase)
    (before after : list (string * float)) (foods : list FoodNutrient)
    (unknown : string * float) :
  "food" ∈ columns (food_data db) ->
  Forall2 (known db) before foods ->
  Forall (fun r => name_matches (lower unknown.1) r = false)
         (rows (food_data db)) ->
  analyze_daily_intake db (before ++ unknown :: after).*1
                       (before ++ unknown :: after).*2 = Raise IndexError.
Proof.
  intros Hcol Hknown Hno. unfold analyze_daily_intake.
  rewrite combine_fst_snd, foldM_app.
  change empty_totals
    with (totals_map zero zero zero zero zero zero zero zero).
  rewrite (foldM_add_entry_known db before foods Hknown
             zero zero zero zero zero zero zero zero).
  cbn [mbind result_bind foldM]. destruct unknown as [name q].
  by rewrite (add_entry_absent db _ name q Hcol Hno).
Qed.

(** The scenario of the specification: 200 g of apple are 104 kcal. *)
Example apple_200g_calories :
  (analyze_daily_intake demo_db ["Apple"] [of_Z 200]
     ≫= fun totals => dict_get totals "calories") = Ok (of_Z 104).
Proof. vm_compute. reflexivity. Qed.

(** C3 as stated fails: the same three entries in reverse order give a
    different calorie total (221.10000000000002 against 221.09999999999997), because the
    additions are rounded in the order of the list. *)
Lemma C3_permuted_entries_change_totals :
  let l1 := [("Apple", of_Z 170); ("Banana", of_Z 110); ("Lentils", of_Z 30)] in
  let l2 := [("Lentils", of_Z 30); ("Banana", of_Z 110); ("Apple", of_Z 170)] in
  Permutation l1 l2 /\
  Forall (fun e => is_ok (get_food_nutrition demo_db e.1) = true) l1 /\
  (analyze_daily_intake demo_db l1.*1 l1.*2
     ≫= fun totals => dict_get totals "calories")
  = Ok (S754_finite false 7779264668840756 (-45)) /\
  (analyze_daily_intake demo_db l2.*1 l2.*2
     ≫= fun totals => dict_get totals "calories")
  = Ok (S754_finite false 7779264668840754 (-45)) /\
  eqb (S754_finite false 7779264668840756 (-45))
      (S754_finite false 7779264668840754 (-45)) = false.
Proof.
  cbv zeta. split; [|split; [|split; [|split]]].
  - apply (Permutation_rev
             [("Apple", of_Z 170); ("Banana", of_Z 110); ("Lentils", of_Z 30)]).
  - repeat constructor.
  - vm_compute. reflexivity.
  - vm_compute. reflexivity.
  - vm_compute. reflexivity.
Qed.

(** ** Gap analysis *)

Lemma gap_step_ok (intake : gmap string float) (gaps : gmap string NutrientGap)
    (nutrient : string) (target : float) :
  safe_target intake (nutrient, target) ->
  gap_step intake gaps (nutrient, target) =
  Ok (match reported_gap intake nutrient target with
      | Some g => <[nutrient := g]> gaps
      | None => gaps
      end).
Proof.
  unfold safe_target, gap_step, reported_gap, py_div, gap_record. simpl.
  intros Hsafe.
  destruct (ltb (dict_get_default intake nutrient) (mul target c0_8));
    [|reflexivity].
  rewrite Hsafe by reflexivity. reflexivity.
Qed.

Lemma gap_fold_ok (intake : gmap string float) (items : list (string * float)) :
  NoDup items.*1 ->
  Forall (safe_target intake) items ->
  forall acc, exists gaps,
    foldM (gap_step intake) items acc = Ok gaps /\
    forall nutrient,
      gaps !! nutrient =
      match (list_to_map items : gmap string float) !! nutrient with
      | Some target =>
          match reported_gap intake nutrient target with
          | Some g => Some g
          | None => acc !! nutrient
          end
      | None => acc !! nutrient
      end.
Proof.
  induction items as [|[k t] items IH]; intros Hnd Hsafe acc.
  - exists acc. split; [reflexivity|]. intros n. reflexivity.
  - rewrite fmap_cons in Hnd. apply NoDup_cons in Hnd as [Hk Hnd].
    apply Forall_cons in Hsafe as [Hs Hsafe].
    cbn [foldM]. rewrite (gap_step_ok intake acc k t Hs). simpl.
    destruct (IH Hnd Hsafe
                (match reported_gap intake k t with
                 | Some g => <[k := g]> acc
                 | None => acc
                 end)) as (gaps & Hrun & Hlook).
    exists gaps. split; [exact Hrun|].
    intros n. rewrite Hlook. simpl list_to_map.
    destruct (decide (n = k)) as [->|Hne].
    + rewrite lookup_insert_eq.
      rewrite (not_elem_of_list_to_map_1 _ _ Hk).
      destruct (reported_gap intake k t); [by rewrite lookup_insert_eq | done].
    + rewrite lookup_insert_ne by done.
      destruct (list_to_map items !! n) as [t'|];
        destruct (reported_gap intake k t);
        rewrite ?lookup_insert_ne by done; reflexivity.
Qed.

Lemma identify_nutritional_gaps_ok (intake targets : gmap string float) :
  map_Forall (fun nutrient target => safe_target intake (nutrient, target))
             targets ->
  exists gaps,
    identify_nutritional_gaps intake targets = Ok gaps /\
    forall nutrient,
      gaps !! nutrient =
      (targets !! nutrient) ≫= reported_gap intake nutrient.
Proof.
  intros Hsafe. unfold identify_nutritional_gaps.
  destruct (gap_fold_ok intake (map_to_list targets)) with (acc := (∅ : gmap string NutrientGap))
    as (gaps & Hrun & Hlook).
  - apply NoDup_fst_map_to_list.
  - apply Forall_forall. intros [k t] Hin.
    apply elem_of_map_to_list in Hin.
    exact (Hsafe k t Hin).
  - exists gaps. split; [exact Hrun|].
    intros n. rewrite Hlook, list_to_map_to_list.
    destruct (targets !! n) as [t|]; simpl; [|apply lookup_empty].
    destruct (reported_gap intake n t); [reflexivity | apply lookup_empty].
Qed.

(** C4: with positive targets the analysis returns, and it reports a
    nutrient exactly when its current value (0 when the intake does not
    list it) is below its target times 0.8; the record of a reported
    nutrient holds the current value, the target, [target - current] and
    [(current / target) * 100]. *)
Theorem C4_gaps_are_the_nutrients_below_80_percent
    (intake targets : gmap string float) :
  map_Forall (fun _ target => ltb zero target = true) targets ->
  exists gaps,
    identify_nutritional_gaps intake targets = Ok gaps /\
    forall nutrient,
      gaps !! nutrient =
      match targets !! nutrient with
      | Some target =>
          let current := default zero (intake !! nutrient) in
          if ltb current (mul target c0_8)
          then Some {| current := current; target := target;
                       deficit := sub target current;
                       percentage := mul (div current target) c100 |}
          else None
      | None => None
      end.
Proof.
  intros Hpos.
  destruct (identify_nutritional_gaps_ok intake targets) as (gaps & Hrun & Hlook).
  - intros k t Hk _. simpl. apply F64Facts.pos_nonzero. exact (Hpos k t Hk).
  - exists gaps. split; [exact Hrun|].
    intros n. rewrite Hlook. destruct (targets !! n); reflexivity.
Qed.

Lemma C4_gaps_are_the_nutrients_below_80_percent_witness :
  exists gaps,
    identify_nutritional_gaps
      (<["calories" := of_Z 1000]> (<["protein" := of_Z 70]> ∅))
      (<["calories" := of_Z 2000]> (<["protein" := of_Z 75]>
        (<["fiber" := of_Z 25]> ∅))) = Ok gaps /\
    forall nutrient,
      gaps !! nutrient =
      match (<["calories" := of_Z 2000]> (<["protein" := of_Z 75]>
              (<["fiber" := of_Z 25]> ∅)) : gmap string float) !! nutrient with
      | Some target =>
          let current :=
            default zero ((<["calories" := of_Z 1000]>
                            (<["protein" := of_Z 70]> ∅) : gmap string float)
                          !! nutrient) in
          if ltb current (mul target c0_8)
          then Some {| current := current; target := target;
                       deficit := sub target current;
                       percentage := mul (div current target) c100 |}
          else None
      | None => None
      end.
Proof.
  apply (C4_gaps_are_the_nutrients_below_80_percent
           (<["calories" := of_Z 1000]> (<["protein" := of_Z 70]> ∅))
           (<["calories" := of_Z 2000]> (<["protein" := of_Z 75]>
             (<["fiber" := of_Z 25]> ∅)))).
  apply map_Forall_insert_2; [reflexivity|].
  apply map_Forall_insert_2; [reflexivity|].
  apply map_Forall_insert_2; [reflexivity|].
  apply map_Forall_empty.
Defined.

(** The scenarios of the specification: 1000 kcal against a target of 2000
    are reported at 50 percent, 1700 kcal are not reported. *)
Example gap_at_half_the_target :
  (identify_nutritional_gaps {["calories" := of_Z 1000]}
                             {["calories" := of_Z 2000]}
     ≫= fun gaps => Ok (percentage <$> gaps !! "calories"))
  = Ok (Some (of_Z 50)).
Proof. vm_compute. reflexivity. Qed.

Example no_gap_at_85_percent :
  identify_nutritional_gaps {["calories" := of_Z 1700]}
                            {["calories" := of_Z 2000]} = Ok ∅.
Proof. vm_compute. reflexivity. Qed.

(** C10: for a target equal to zero and a current value of at least zero
    the threshold test fails, so the step leaves the dictionary as it is and
    computes no quotient; and when every zero target is of that kind the
    analysis returns, without any of these nutrients. *)
Theorem C10_zero_target_is_never_divided_by
    (intake targets : gmap string float) :
  (forall nutrient target gaps,
      eqb target zero = true ->
      leb zero (default zero (intake !! nutrient)) = true ->
      ltb (default zero (intake !! nutrient)) (mul target c0_8) = false /\
      gap_step intake gaps (nutrient, target) = Ok gaps) /\
  (map_Forall (fun nutrient target =>
                 eqb target zero = true ->
                 leb zero (default zero (intake !! nutrient)) = true) targets ->
   exists gaps,
     identify_nutritional_gaps intake targets = Ok gaps /\
     forall nutrient target,
       targets !! nutrient = Some target ->
       eqb target zero = true ->
       gaps !! nutrient = None).
Proof.
  assert (Hlow : forall n t, eqb t zero = true ->
                 leb zero (default zero (intake !! n)) = true ->
                 ltb (default zero (intake !! n)) (mul t c0_8) = false).
  { intros n t Ht Hc. destruct (F64Facts.zero_mul t Ht) as [s ->].
    by apply F64Facts.nonneg_not_below_zero. }
  split.
  - intros n t gaps Ht Hc. split; [by apply Hlow|].
    unfold gap_step, dict_get_default. by rewrite (Hlow n t Ht Hc).
  - intros Hzero.
    destruct (identify_nutritional_gaps_ok intake targets)
      as (gaps & Hrun & Hlook).
    + intros n t Hn. unfold safe_target, dict_get_default. simpl. intros Hlt.
      destruct (eqb t zero) eqn:Ht; [|reflexivity].
      rewrite (Hlow n t Ht (Hzero n t Hn Ht)) in Hlt. discriminate.
    + exists gaps. split; [exact Hrun|].
      intros n t Hn Ht. rewrite Hlook, Hn. simpl.
      unfold reported_gap, dict_get_default.
      by rewrite (Hlow n t Ht (Hzero n t Hn Ht)).
Qed.

Lemma C10_zero_target_is_never_divided_by_witness :
  (ltb (default zero ((<["calories" := of_Z 1000]> ∅ : gmap string float)
                      !! "calories")) (mul zero c0_8) = false /\
   gap_step (<["calories" := of_Z 1000]> ∅) ∅ ("calories", zero) = Ok ∅) /\
  exists gaps,
    identify_nutritional_gaps
      (<["calories" := of_Z 1000]> ∅)
      (<["calories" := zero]> (<["sodium" := S754_zero true]> ∅)) = Ok gaps /\
    forall nutrient target,
      (<["calories" := zero]> (<["sodium" := S754_zero true]> ∅)
         : gmap string float) !! nutrient = Some target ->
      eqb target zero = true ->
      gaps !! nutrient = None.
Proof.
  destruct (C10_zero_target_is_never_divided_by
              (<["calories" := of_Z 1000]> ∅)
              (<["calories" := zero]> (<["sodium" := S754_zero true]> ∅)))
    as [Hstep Hrun].
  split.
  - apply (Hstep "calories" zero ∅); reflexivity.
  - apply Hrun.
    apply map_Forall_insert_2; [reflexivity|].
    apply map_Forall_insert_2; [reflexivity|].
    apply map_Forall_empty.
Defined.

(** ** Comparison of two foods *)

Lemma cell_eq_num_value (c : cell) (x : float) :
  numeric c = true -> cell_eq_num c x = eqb (value c) x.
Proof. destruct c; simpl; congruence. Qed.

Lemma diff_percent_num (v1 v2 : cell) :
  numeric v1 = true -> numeric v2 = true ->
  diff_percent v1 v2 = Ok (pct (value v1) (value v2)).
Proof.
  intros H1 H2. unfold diff_percent, pct.
  rewrite !cell_eq_num_value, !num_value by assumption.
  destruct (eqb (value v1) zero && eqb (value v2) zero); [reflexivity|].
  unfold py_div. simpl.
  destruct (eqb (value v2) zero); reflexivity.
Qed.

Lemma compare_nutrient_num (food1 food2 : string) (n1 n2 : FoodNutrient)
    (acc : gmap string NutrientComparison) (nutrient : string) :
  numeric (getattr n1 nutrient) = true ->
  numeric (getattr n2 nutrient) = true ->
  compare_nutrient food1 food2 n1 n2 acc nutrient =
  Ok (<[nutrient := comparison_entry food1 food2 n1 n2 nutrient]> acc).
Proof.
  intros H1 H2. unfold compare_nutrient.
  rewrite (diff_percent_num _ _ H1 H2), !num_value by assumption.
  reflexivity.
Qed.

Lemma foldM_compare_nutrient (food1 food2 : string) (n1 n2 : FoodNutrient)
    (nutrients : list string) :
  Forall (fun n => numeric (getattr n1 n) = true /\
                   numeric (getattr n2 n) = true) nutrients ->
  forall acc, exists c,
    foldM (compare_nutrient food1 food2 n1 n2) nutrients acc = Ok c /\
    forall n, c !! n =
              if bool_decide (n ∈ nutrients)
              then Some (comparison_entry food1 food2 n1 n2 n)
              else acc !! n.
Proof.
  induction 1 as [|k ks [H1 H2] _ IH]; intros acc.
  - exists acc. split; [reflexivity|]. intros n. reflexivity.
  - cbn [foldM]. rewrite (compare_nutrient_num _ _ _ _ _ _ H1 H2).
    cbn [mbind result_bind].
    destruct (IH (<[k := comparison_entry food1 food2 n1 n2 k]> acc))
      as (c & Hrun & Hlook).
    exists c. split; [exact Hrun|].
    intros n. rewrite Hlook.
    destruct (decide (n ∈ ks)) as [Hin|Hnin].
    + rewrite !bool_decide_eq_true_2; [reflexivity| |assumption].
      apply elem_of_cons; by right.
    + rewrite (bool_decide_eq_false_2 _ Hnin).
      destruct (decide (n = k)) as [->|Hne].
      * rewrite lookup_insert_eq, bool_decide_eq_true_2; [reflexivity|].
        apply elem_of_cons; by left.
      * rewrite lookup_insert_ne by done.
        rewrite bool_decide_eq_false_2; [reflexivity|].
        intros Hin. apply elem_of_cons in Hin as [?|?]; done.
Qed.

(** What [compare_foods] returns on two catalog foods whose compared
    nutrients are numbers. *)
Lemma compare_foods_num (db : FoodDatabase) (food1 food2 : string)
    (nutrients : option (list string)) (n1 n2 : FoodNutrient) :
  get_food_nutrition db food1 = Ok (Some n1) ->
  get_food_nutrition db food2 = Ok (Some n2) ->
  Forall (fun n => numeric (getattr n1 n) = true /\
                   numeric (getattr n2 n) = true)
         (default default_nutrients nutrients) ->
  exists c,
    compare_foods db food1 food2 nutrients = Ok c /\
    forall n, n ∈ default default_nutrients nutrients ->
              comparison c !! n = Some (comparison_entry food1 food2 n1 n2 n).
Proof.
  intros Hg1 Hg2 Hnum. unfold compare_foods. rewrite Hg1, Hg2.
  cbn [mbind result_bind].
  destruct (foldM_compare_nutrient food1 food2 n1 n2 _ Hnum ∅)
    as (c & Hrun & Hlook).
  rewrite Hrun. cbn [mbind result_bind].
  eexists. split; [reflexivity|].
  intros n Hin. simpl. rewrite Hlook, bool_decide_eq_true_2; done.
Qed.

(** C5: for two catalog foods whose compared nutrients are finite numbers,
    the difference reported for a nutrient by [compare(A, B)] equals the
    negation of the one reported by [compare(B, A)], and the differences
    reported by [compare(A, A)] equal zero. *)
Theorem C5_difference_is_antisymmetric (db : FoodDatabase) (A B : string)
    (nutrients : option (list string)) (nA nB : FoodNutrient) :
  get_food_nutrition db A = Ok (Some nA) ->
  get_food_nutrition db B = Ok (Some nB) ->
  Forall (fun n => finite_cell (getattr nA n) = true /\
                   finite_cell (getattr nB n) = true)
         (default default_nutrients nutrients) ->
  exists ab ba aa,
    compare_foods db A B nutrients = Ok ab /\
    compare_foods db B A nutrients = Ok ba /\
    compare_foods db A A nutrients = Ok aa /\
    forall n, n ∈ default default_nutrients nutrients ->
      exists x y z,
        comparison ab !! n = Some x /\
        comparison ba !! n = Some y /\
        comparison aa !! n = Some z /\
        eqb (difference x) (opp (difference y)) = true /\
        eqb (difference z) zero = true.
Proof.
  intros HA HB Hfin.
  assert (HAB : Forall (fun n => numeric (getattr nA n) = true /\
                                 numeric (getattr nB n) = true)
                       (default default_nutrients nutrients)).
  { eapply Forall_impl; [exact Hfin|]. intros n [H1 H2].
    apply andb_prop in H1 as [H1 _]. apply andb_prop in H2 as [H2 _].
    split; assumption. }
  assert (HBA : Forall (fun n => numeric (getattr nB n) = true /\
                                 numeric (getattr nA n) = true)
                       (default default_nutrients nutrients)).
  { eapply Forall_impl; [exact HAB|]. intros n [H1 H2]. split; assumption. }
  assert (HAA : Forall (fun n => numeric (getattr nA n) = true /\
                                 numeric (getattr nA n) = true)
                       (default default_nutrients nutrients)).
  { eapply Forall_impl; [exact HAB|]. intros n [H1 H2]. split; assumption. }
  destruct (compare_foods_num db A B nutrients nA nB HA HB HAB) as (ab & Eab & Lab).
  destruct (compare_foods_num db B A nutrients nB nA HB HA HBA) as (ba & Eba & Lba).
  destruct (compare_foods_num db A A nutrients nA nA HA HA HAA) as (aa & Eaa & Laa).
  exists ab, ba, aa. repeat split; try assumption.
  intros n Hin. do 3 eexists.
  split; [exact (Lab n Hin)|]. split; [exact (Lba n Hin)|].
  split; [exact (Laa n Hin)|].
  rewrite Forall_forall in Hfin. destruct (Hfin n Hin) as [H1 H2].
  apply andb_prop in H1 as [_ H1]. apply andb_prop in H2 as [_ H2].
  simpl. split.
  - apply F64Facts.sub_antisym; assumption.
  - apply F64Facts.sub_diag; assumption.
Qed.

Lemma C5_difference_is_antisymmetric_witness :
  exists ab ba aa,
    compare_foods demo_db "Apple" "Banana" None = Ok ab /\
    compare_foods demo_db "Banana" "Apple" None = Ok ba /\
    compare_foods demo_db "Apple" "Apple" None = Ok aa /\
    forall n, n ∈ default default_nutrients None ->
      exists x y z,
        comparison ab !! n = Some x /\
        comparison ba !! n = Some y /\
        comparison aa !! n = Some z /\
        eqb (difference x) (opp (difference y)) = true /\
        eqb (difference z) zero = true.
Proof.
  apply (C5_difference_is_antisymmetric demo_db "Apple" "Banana" None
           (record_of apple) (record_of banana)).
  - vm_compute. reflexivity.
  - vm_compute. reflexivity.
  - repeat constructor.
Defined.

(** The scenario of the specification: apple against banana on calories. *)
Example compare_apple_banana_calories :
  (compare_foods demo_db "Apple" "Banana" None
     ≫= fun c => match comparison c !! "calories" with
                  | Some e => Ok (food1_value e, food2_value e, difference e,
                                  better_food e)
                  | None => Raise (KeyError "calories")
                  end)
  = Ok (Num (of_Z 52), Num (of_Z 89), of_Z (-37), "Banana").
Proof. vm_compute. reflexivity. Qed.

(** ** The better food *)

(** Of two finite values that are not below zero, a greater first value
    makes the percentage difference positive. *)
Lemma pct_greater (a b : float) :
  nonneg_finite a = true -> nonneg_finite b = true ->
  ltb b a = true -> ltb zero (pct a b) = true.
Proof.
  destruct a as [sa|sa| |sa m1 e1], b as [sb|sb| |sb m2 e2];
    simpl; try discriminate;
    try (destruct sa; try discriminate); try (destruct sb; try discriminate);
    try (intros _ _ H; discriminate H); try (intros; reflexivity).
  intros B1 B2 Hlt. unfold pct.
  change (eqb (S754_finite false m1 e1) zero) with false.
  change (eqb (S754_finite false m2 e2) zero) with false.
  cbn [andb negb].
  apply F64Facts.above_zero_ltb.
  apply (F64Facts.mul_100_large (1 - prec)); [lia|].
  apply (F64Facts.div_large (e2 + 1)); [exact B2 | lia |].
  by apply F64Facts.sub_large.
Qed.

(** A smaller first value does not. *)
Lemma pct_smaller (a b : float) :
  nonneg_finite a = true -> nonneg_finite b = true ->
  ltb a b = true -> ltb zero (pct a b) = false.
Proof.
  intros Ha Hb Hlt.
  pose proof (F64Facts.sub_negative a b Ha Hb Hlt) as Hsub.
  destruct b as [sb|sb| |sb m2 e2]; try discriminate.
  - destruct a as [sa|sa| |[] m1 e1]; discriminate.
  - destruct sb; [discriminate|]. unfold pct.
    change (eqb (S754_finite false m2 e2) zero) with false.
    rewrite andb_false_r. cbn [negb].
    apply F64Facts.negative_not_above_zero, F64Facts.mul_100_negative,
      F64Facts.div_negative, Hsub.
Qed.

(** C6: for two catalog foods and a compared nutrient whose two values are
    finite numbers that are not below zero, the entry names as better the
    food with the greater value; in every case it names the first food
    exactly when the percentage difference is above zero. *)
Theorem C6_better_food_has_the_larger_value (db : FoodDatabase) (A B : string)
    (nutrients : option (list string)) (nA nB : FoodNutrient)
    (nutrient : string) :
  get_food_nutrition db A = Ok (Some nA) ->
  get_food_nutrition db B = Ok (Some nB) ->
  Forall (fun n => numeric (getattr nA n) = true /\
                   numeric (getattr nB n) = true)
         (default default_nutrients nutrients) ->
  nutrient ∈ default default_nutrients nutrients ->
  nonneg_cell (getattr nA nutrient) = true ->
  nonneg_cell (getattr nB nutrient) = true ->
  exists c entry,
    compare_foods db A B nutrients = Ok c /\
    comparison c !! nutrient = Some entry /\
    (ltb (value (getattr nB nutrient)) (value (getattr nA nutrient)) = true ->
     better_food entry = A) /\
    (ltb (value (getattr nA nutrient)) (value (getattr nB nutrient)) = true ->
     better_food entry = B) /\
    better_food entry = (if ltb zero (percentage_diff entry) then A else B).
Proof.
  intros HA HB Hnum Hin Hva Hvb.
  destruct (compare_foods_num db A B nutrients nA nB HA HB Hnum)
    as (c & Hc & Hlook).
  exists c, (comparison_entry A B nA nB nutrient).
  split; [exact Hc|]. split; [exact (Hlook nutrient Hin)|].
  unfold nonneg_cell in Hva, Hvb.
  apply andb_prop in Hva as [_ Hva]. apply andb_prop in Hvb as [_ Hvb].
  unfold comparison_entry. cbn [better_food percentage_diff].
  split; [|split; [|reflexivity]].
  - intros Hlt. by rewrite (pct_greater _ _ Hva Hvb Hlt).
  - intros Hlt. by rewrite (pct_smaller _ _ Hva Hvb Hlt).
Qed.

Lemma C6_better_food_has_the_larger_value_witness :
  exists c entry,
    compare_foods demo_db "Apple" "Banana" None = Ok c /\
    comparison c !! "calories" = Some entry /\
    (ltb (value (getattr (record_of banana) "calories"))
         (value (getattr (record_of apple) "calories")) = true ->
     better_food entry = "Apple") /\
    (ltb (value (getattr (record_of apple) "calories"))
         (value (getattr (record_of banana) "calories")) = true ->
     better_food entry = "Banana") /\
    better_food entry =
      (if ltb zero (percentage_diff entry) then "Apple" else "Banana").
Proof.
  apply (C6_better_food_has_the_larger_value demo_db "Apple" "Banana" None
           (record_of apple) (record_of banana) "calories").
  - vm_compute. reflexivity.
  - vm_compute. reflexivity.
  - repeat constructor.
  - repeat constructor.
  - vm_compute. reflexivity.
  - vm_compute. reflexivity.
Defined.

(** ** Sorting *)

Section SortFacts.
Context {A : Type} (key : A -> float).

Lemma insert_sorted_perm (x : A) (l : list A) :
  Permutation (insert_sorted key x l) (x :: l).
Proof.
  induction l as [|y l IH]; simpl; [reflexivity|].
  destruct (ltb (key x) (key y)); [reflexivity|].
  rewrite IH. apply perm_swap.
Qed.

Lemma py_sort_acc_perm (l acc : list A) :
  Permutation (fold_left (fun acc x => insert_sorted key x acc) l acc)
              (acc ++ l).
Proof.
  revert acc. induction l as [|x l IH]; intros acc; simpl.
  - by rewrite app_nil_r.
  - rewrite IH, insert_sorted_perm. simpl. apply Permutation_middle.
Qed.

(** Sorting rearranges the list. *)
Lemma py_sort_perm (l : list A) : Permutation (py_sort key l) l.
Proof. unfold py_sort. apply py_sort_acc_perm. Qed.

Lemma insert_sorted_ascending (x : A) (l : list A) :
  is_nan (key x) = false ->
  Forall (fun y => is_nan (key y) = false) l ->
  ascending key l -> ascending key (insert_sorted key x l).
Proof.
  intros Hx. unfold ascending.
  induction l as [|y l IH]; intros Hl Hs; simpl.
  - repeat constructor.
  - apply Forall_cons in Hl as [Hy Hl].
    apply StronglySorted_cons in Hs as [Hyl Hs].
    destruct (ltb (key x) (key y)) eqn:E.
    + apply StronglySorted_cons. split.
      * constructor; [by apply F64Facts.ltb_leb|].
        eapply Forall_impl; [exact Hyl|]. intros z Hz.
        eapply F64Facts.leb_trans; [|exact Hz]. by apply F64Facts.ltb_leb.
      * apply StronglySorted_cons. by split.
    + apply StronglySorted_cons. split; [|by apply IH].
      rewrite (insert_sorted_perm x l). constructor; [|exact Hyl].
      by apply F64Facts.not_ltb_leb.
Qed.

Lemma py_sort_acc_ascending (l acc : list A) :
  Forall (fun y => is_nan (key y) = false) l ->
  Forall (fun y => is_nan (key y) = false) acc ->
  ascending key acc ->
  ascending key (fold_left (fun acc x => insert_sorted key x acc) l acc).
Proof.
  revert acc. induction l as [|x l IH]; intros acc Hl Hacc Hs; simpl.
  - exact Hs.
  - apply Forall_cons in Hl as [Hx Hl]. apply IH; [exact Hl| |].
    + rewrite (insert_sorted_perm x acc). by constructor.
    + by apply insert_sorted_ascending.
Qed.

(** Sorting keys that are numbers yields an ascending list. *)
Lemma py_sort_ascending (l : list A) :
  Forall (fun y => is_nan (key y) = false) l -> ascending key (py_sort key l).
Proof.
  intros Hl. unfold py_sort.
  apply py_sort_acc_ascending; [exact Hl|constructor|constructor].
Qed.

Lemma ascending_rev (l : list A) : ascending key l -> descending key (rev l).
Proof.
  unfold ascending, descending. induction 1 as [|x l Hs IH Hx]; simpl.
  - constructor.
  - apply StronglySorted_app_2; [|exact IH|repeat constructor].
    intros a b Ha Hb. apply list_elem_of_singleton in Hb as ->.
    rewrite Forall_forall in Hx. apply Hx.
    apply list_elem_of_In. apply list_elem_of_In, in_rev in Ha. exact Ha.
Qed.

(** Sorting in reverse yields a descending rearrangement. *)
Lemma py_sort_reverse_descending (l : list A) :
  Forall (fun y => is_nan (key y) = false) l ->
  descending key (py_sort_reverse key l).
Proof.
  intros Hl. unfold py_sort_reverse. apply ascending_rev, py_sort_ascending.
  apply Forall_forall. intros x Hx. rewrite Forall_forall in Hl. apply Hl.
  apply list_elem_of_In. apply list_elem_of_In in Hx. by apply in_rev.
Qed.

Lemma py_sort_reverse_perm (l : list A) :
  Permutation (py_sort_reverse key l) l.
Proof.
  unfold py_sort_reverse.
  rewrite <- Permutation_rev, py_sort_perm, <- Permutation_rev. reflexivity.
Qed.

End SortFacts.

Lemma StronglySorted_take {A} (R : A -> A -> Prop) (n : nat) (l : list A) :
  StronglySorted R l -> StronglySorted R (take n l).
Proof.
  intros Hs. rewrite <- (take_drop n l) in Hs.
  by apply StronglySorted_app_1_l in Hs.
Qed.

Lemma slice_to_sublist {A} (k : Z) (l : list A) :
  exists n, slice_to k l = take n l.
Proof. unfold slice_to. destruct (0 <=? k); eauto. Qed.

Lemma slice_to_length {A} (k : Z) (l : list A) :
  0 <= k -> Z.of_nat (length (slice_to k l)) <= k.
Proof.
  intros Hk. unfold slice_to. rewrite (proj2 (Z.leb_le 0 k) Hk).
  rewrite length_take. lia.
Qed.

(** ** Similar foods *)

Lemma foldM_pure {A B} (body : B -> A -> result B) (g : B -> A -> B)
    (l : list A) :
  Forall (fun x => forall acc, body acc x = Ok (g acc x)) l ->
  forall acc, foldM body l acc = Ok (fold_left g l acc).
Proof.
  induction 1 as [|x l Hx _ IH]; intros acc; simpl; [reflexivity|].
  rewrite Hx. simpl. apply IH.
Qed.

Lemma finite_cell_numeric (c : cell) : finite_cell c = true -> numeric c = true.
Proof. unfold finite_cell. intros H. by apply andb_prop in H as [H _]. Qed.

Lemma finite_cell_finite (c : cell) :
  finite_cell c = true -> finite (value c) = true.
Proof. unfold finite_cell. intros H. by apply andb_prop in H as [_ H]. Qed.

Lemma comparable_row_spec (r : row) :
  comparable_row r = true ->
  is_Some (r !! "food_name") /\
  Forall (fun nutrient => exists c, r !! nutrient = Some c /\
                                    finite_cell c = true)
         similarity_nutrients.
Proof.
  unfold comparable_row. intros H. apply andb_prop in H as [H1 H2].
  split; [by apply bool_decide_eq_true_1 in H1|].
  apply Forall_forall. intros n Hn.
  rewrite forallb_forall in H2. apply list_elem_of_In in Hn.
  specialize (H2 n Hn). destruct (r !! n) as [c|]; [eauto | discriminate].
Qed.

(** On a comparable row the inner loop computes the distance. *)
Lemma similarity_score_ok (target_nutrition : FoodNutrient) (r : row) :
  Forall (fun n => finite_cell (getattr target_nutrition n) = true)
         similarity_nutrients ->
  comparable_row r = true ->
  similarity_score target_nutrition r = Ok (distance target_nutrition r).
Proof.
  intros Ht [_ Hr]%comparable_row_spec. unfold similarity_score, distance.
  apply foldM_pure.
  apply Forall_forall. intros n Hn acc.
  rewrite Forall_forall in Ht, Hr.
  destruct (Hr n Hn) as (c & Hc & Hfin).
  unfold row_get, row_get_default. rewrite Hc. simpl.
  rewrite (num_value _ (finite_cell_numeric _ (Ht n Hn))).
  rewrite (num_value _ (finite_cell_numeric _ Hfin)). reflexivity.
Qed.

Lemma fold_left_inv {A B} (P : B -> Prop) (g : B -> A -> B) (l : list A) :
  Forall (fun x => forall acc, P acc -> P (g acc x)) l ->
  forall acc, P acc -> P (fold_left g l acc).
Proof.
  induction 1 as [|x l Hx _ IH]; intros acc Hacc; simpl; auto.
Qed.

(** A distance between finite values is a number, and it is not negative. *)
Lemma distance_nonneg (target_nutrition : FoodNutrient) (r : row) :
  Forall (fun n => finite_cell (getattr target_nutrition n) = true)
         similarity_nutrients ->
  comparable_row r = true ->
  nonneg (distance target_nutrition r) = true.
Proof.
  intros Ht [_ Hr]%comparable_row_spec. unfold distance.
  apply (fold_left_inv (fun x => nonneg x = true)); [|reflexivity].
  apply Forall_forall. intros n Hn acc Hacc.
  rewrite Forall_forall in Ht, Hr.
  destruct (Hr n Hn) as (c & Hc & Hfin).
  apply F64Facts.add_nonneg; [exact Hacc|].
  apply F64Facts.has_sign_nonneg, F64Facts.abs_nonneg, F64Facts.sub_not_nan.
  - exact (finite_cell_finite _ (Ht n Hn)).
  - unfold row_get_default. rewrite Hc. exact (finite_cell_finite _ Hfin).
Qed.

Lemma similarity_step_ok (food : string) (target_nutrition : FoodNutrient)
    (r : row) (acc : list (cell * float)) :
  Forall (fun n => finite_cell (getattr target_nutrition n) = true)
         similarity_nutrients ->
  comparable_row r = true ->
  similarity_step food target_nutrition acc r =
  Ok (acc ++ scored_candidates food target_nutrition [r]).
Proof.
  intros Ht Hr. destruct (comparable_row_spec r Hr) as [[name Hname] _].
  unfold similarity_step, scored_candidates, row_get, row_get_default.
  cbn [List.filter]. rewrite Hname. cbn [mbind result_bind default].
  destruct (cell_eq_str name food) eqn:E.
  - simpl. rewrite E. simpl. by rewrite app_nil_r.
  - rewrite (similarity_score_ok target_nutrition r Ht Hr).
    cbn -[distance]. rewrite E. cbn -[distance]. rewrite Hname. reflexivity.
Qed.

Lemma scored_candidates_cons (food : string) (target_nutrition : FoodNutrient)
    (r : row) (rs : list row) :
  scored_candidates food target_nutrition (r :: rs) =
  scored_candidates food target_nutrition [r] ++
  scored_candidates food target_nutrition rs.
Proof.
  unfold scored_candidates. cbn [List.filter].
  destruct (negb _); reflexivity.
Qed.

Lemma foldM_similarity_step (food : string) (target_nutrition : FoodNutrient)
    (rs : list row) :
  Forall (fun n => finite_cell (getattr target_nutrition n) = true)
         similarity_nutrients ->
  Forall (fun r => comparable_row r = true) rs ->
  forall acc,
    foldM (similarity_step food target_nutrition) rs acc =
    Ok (acc ++ scored_candidates food target_nutrition rs).
Proof.
  intros Ht. induction 1 as [|r rs Hr _ IH]; intros acc.
  - simpl. by rewrite app_nil_r.
  - cbn [foldM]. rewrite (similarity_step_ok food target_nutrition r acc Ht Hr).
    cbn [mbind result_bind].
    rewrite IH, (scored_candidates_cons food target_nutrition r rs).
    by rewrite <- app_assoc.
Qed.

Lemma filter_Forall {A} (P : A -> Prop) (f : A -> bool) (l : list A) :
  Forall P l -> Forall P (List.filter f l).
Proof.
  induction 1 as [|x l Hx _ IH]; simpl; [constructor|].
  destruct (f x); [by constructor | exact IH].
Qed.

Lemma rows_of_category_Forall (P : row -> Prop) (df : DataFrame)
    (category : option string) :
  Forall P (rows df) -> Forall P (rows_of_category df category).
Proof.
  intros H. unfold rows_of_category. destruct category as [c|]; [|exact H].
  case_bool_decide; [exact H | by apply filter_Forall].
Qed.

(** What [find_similar_foods] returns on comparable rows. *)
Lemma find_similar_foods_ok (db : FoodDatabase) (food : string)
    (category : option string) (max_results : Z)
    (target_nutrition : FoodNutrient) :
  get_food_nutrition db food = Ok (Some target_nutrition) ->
  Forall (fun n => finite_cell (getattr target_nutrition n) = true)
         similarity_nutrients ->
  Forall (fun r => comparable_row r = true) (rows (food_data db)) ->
  (is_Some category -> "category" ∈ columns (food_data db)) ->
  find_similar_foods db food category max_results =
  Ok (map fst (slice_to max_results
                 (py_sort snd
                    (scored_candidates food target_nutrition
                       (rows_of_category (food_data db) category))))).
Proof.
  intros Hget Ht Hrows Hcat. unfold find_similar_foods.
  rewrite Hget. cbn [mbind result_bind].
  assert (Hall : match category with
                 | Some c => if bool_decide (c = "") then Ok (food_data db)
                             else select_eq_str (food_data db) "category" c
                 | None => Ok (food_data db)
                 end =
                 Ok {| columns := columns (food_data db);
                       rows := rows_of_category (food_data db) category |}).
  { unfold rows_of_category, select_eq_str.
    destruct category as [c|]; [|by destruct (food_data db)].
    case_bool_decide; [by destruct (food_data db)|].
    rewrite (frame_col_ok _ _ (Hcat (ltac:(eauto)))). reflexivity. }
  rewrite Hall. cbn [mbind result_bind rows].
  rewrite (foldM_similarity_step food target_nutrition _ Ht
             (rows_of_category_Forall _ _ _ Hrows) []).
  reflexivity.
Qed.

Lemma scored_candidates_spec (food : string) (target_nutrition : FoodNutrient)
    (rs : list row) (p : cell * float) :
  p ∈ scored_candidates food target_nutrition rs ->
  exists r, r ∈ rs /\ p = (row_get_default r "food_name",
                           distance target_nutrition r) /\
            p.1 <> Str food.
Proof.
  unfold scored_candidates. intros Hp.
  apply list_elem_of_fmap in Hp as (r & -> & Hr).
  apply list_elem_of_In, filter_In in Hr as [Hr Hne].
  exists r. split; [by apply list_elem_of_In|]. split; [reflexivity|].
  simpl. intros Heq. rewrite Heq in Hne. simpl in Hne.
  rewrite bool_decide_eq_true_2 in Hne; [discriminate | reflexivity].
Qed.

Lemma rows_of_category_subset (df : DataFrame) (category : option string)
    (r : row) :
  r ∈ rows_of_category df category -> r ∈ rows df.
Proof.
  unfold rows_of_category. destruct category as [c|]; [|done].
  case_bool_decide; [done|].
  intros Hin. apply list_elem_of_In, filter_In in Hin as [Hin _].
  by apply list_elem_of_In.
Qed.

(** What holds of the ranking: for a food of the catalog, on a table whose
    rows are comparable (a name and finite numbers for the five key
    nutrients) and for a result count that is not negative,
    [find_similar_foods] returns the names of a list [ranked] of (name,
    distance) pairs such that: no name is the query [food] as it is
    written; there are at most [max_results] pairs; the distances never
    decrease along the list; and every pair is the name of a row of the
    table together with the sum of the absolute differences between the
    target and that row over calories, protein, fat, carbs and fiber. *)
Lemma similar_foods_are_ranked_by_distance (db : FoodDatabase)
    (food : string) (category : option string) (max_results : Z)
    (target_nutrition : FoodNutrient) :
  get_food_nutrition db food = Ok (Some target_nutrition) ->
  Forall (fun n => finite_cell (getattr target_nutrition n) = true)
         similarity_nutrients ->
  Forall (fun r => comparable_row r = true) (rows (food_data db)) ->
  (is_Some category -> "category" ∈ columns (food_data db)) ->
  0 <= max_results ->
  exists ranked : list (cell * float),
    find_similar_foods db food category max_results = Ok (map fst ranked) /\
    (Str food ∉ map fst ranked) /\
    Z.of_nat (length ranked) <= max_results /\
    ascending snd ranked /\
    Forall (fun p => exists r, r ∈ rows (food_data db) /\
                       r !! "food_name" = Some p.1 /\
                       p.2 = distance target_nutrition r) ranked.
Proof.
  intros Hget Ht Hrows Hcat Hmax.
  set (cands := scored_candidates food target_nutrition
                  (rows_of_category (food_data db) category)).
  exists (slice_to max_results (py_sort snd cands)).
  assert (Hsub : forall p, p ∈ slice_to max_results (py_sort snd cands) ->
                           p ∈ cands).
  { intros p Hp. destruct (slice_to_sublist max_results (py_sort snd cands))
      as [n Hn]. rewrite Hn in Hp. apply subseteq_take in Hp.
    by rewrite (py_sort_perm snd cands) in Hp. }
  split; [|split; [|split; [|split]]].
  - apply find_similar_foods_ok; assumption.
  - intros Hin. apply list_elem_of_fmap in Hin as (p & Hp1 & Hp).
    apply Hsub, scored_candidates_spec in Hp as (r & _ & _ & Hne).
    congruence.
  - by apply slice_to_length.
  - destruct (slice_to_sublist max_results (py_sort snd cands)) as [n ->].
    apply StronglySorted_take. apply py_sort_ascending.
    apply Forall_forall. intros p Hp.
    apply scored_candidates_spec in Hp as (r & Hr & -> & _). cbn [snd].
    apply F64Facts.nonneg_not_nan, distance_nonneg; [exact Ht|].
    rewrite Forall_forall in Hrows. apply Hrows.
    by apply rows_of_category_subset in Hr.
  - apply Forall_forall. intros p Hp.
    apply Hsub, scored_candidates_spec in Hp as (r & Hr & -> & _).
    apply rows_of_category_subset in Hr.
    exists r. split; [exact Hr|]. split; [|reflexivity]. cbn [fst].
    rewrite Forall_forall in Hrows.
    destruct (comparable_row_spec r (Hrows r Hr)) as [[c Hc] _].
    unfold row_get_default. rewrite Hc. reflexivity.
Qed.

Lemma similar_foods_are_ranked_by_distance_around_the_apple :
  exists ranked : list (cell * float),
    find_similar_foods demo_db "Apple" None 2 = Ok (map fst ranked) /\
    (Str "Apple" ∉ map fst ranked) /\
    Z.of_nat (length ranked) <= 2 /\
    ascending snd ranked /\
    Forall (fun p => exists r, r ∈ rows (food_data demo_db) /\
                       r !! "food_name" = Some p.1 /\
                       p.2 = distance (record_of apple) r) ranked.
Proof.
  apply (similar_foods_are_ranked_by_distance demo_db "Apple" None 2
           (record_of apple)).
  - vm_compute. reflexivity.
  - repeat constructor.
  - repeat constructor.
  - intros [c Hc]. discriminate Hc.
  - lia.
Defined.

(** The ranking of the demo catalog around the apple. *)
Example similar_to_apple :
  find_similar_foods demo_db "Apple" None 5 = Ok [Str "Banana"; Str "Lentils"].
Proof. vm_compute. reflexivity. Qed.

(** A count that covers the table cuts nothing off. *)
Lemma slice_to_all {A} (k : Z) (l : list A) :
  Z.of_nat (length l) <= k -> slice_to k l = l.
Proof.
  intros Hk. unfold slice_to.
  destruct (0 <=? k) eqn:E; [|apply Z.leb_gt in E; lia].
  apply firstn_all2. lia.
Qed.

(** C7: the target is excluded by comparing the query, as written, with the
    column [food_name], while the lookup lowers the query and reads the
    column [food].  So a food that is asked for in another spelling than the
    stored one is found by the lookup, is not excluded, and is returned
    among its own neighbours: on comparable rows, a row [r] that the lookup
    matches and whose stored name differs from the query is in the result
    as soon as the count covers the table. *)
Theorem C7_target_is_returned_under_another_spelling (db : FoodDatabase)
    (food name : string) (r : row) (max_results : Z)
    (target_nutrition : FoodNutrient) :
  get_food_nutrition db food = Ok (Some target_nutrition) ->
  Forall (fun n => finite_cell (getattr target_nutrition n) = true)
         similarity_nutrients ->
  Forall (fun r => comparable_row r = true) (rows (food_data db)) ->
  r ∈ rows (food_data db) ->
  name_matches (lower food) r = true ->
  r !! "food_name" = Some (Str name) ->
  name <> food ->
  Z.of_nat (length (rows (food_data db))) <= max_results ->
  exists names,
    find_similar_foods db food None max_results = Ok names /\
    Str name ∈ names.
Proof.
  intros Hget Ht Hrows Hr _ Hname Hne Hmax.
  eexists. split.
  - apply (find_similar_foods_ok db food None max_results target_nutrition
             Hget Ht Hrows).
    intros [c Hc]. discriminate Hc.
  - cbn [rows_of_category].
    rewrite slice_to_all.
    + apply list_elem_of_fmap.
      exists (Str name, distance target_nutrition r). split; [reflexivity|].
      rewrite (py_sort_perm snd). unfold scored_candidates.
      apply list_elem_of_fmap. exists r. split.
      * unfold row_get_default. by rewrite Hname.
      * apply list_elem_of_In, filter_In. split; [by apply list_elem_of_In|].
        unfold row_get_default. rewrite Hname. simpl.
        by case_bool_decide.
    + rewrite (Permutation_length (py_sort_perm snd _)).
      unfold scored_candidates. rewrite length_map.
      etransitivity; [|exact Hmax]. apply Nat2Z.inj_le, filter_length_le.
Qed.

Lemma C7_target_is_returned_under_another_spelling_witness :
  exists names,
    find_similar_foods demo_db "apple" None 5 = Ok names /\
    Str "Apple" ∈ names.
Proof.
  apply (C7_target_is_returned_under_another_spelling demo_db "apple" "Apple"
           apple 5 (record_of apple)).
  - reflexivity.
  - repeat constructor.
  - repeat constructor.
  - left.
  - reflexivity.
  - reflexivity.
  - discriminate.
  - simpl. lia.
Defined.

(** The apple, asked for in lower case, is the first of its own
    neighbours, also when a single neighbour is requested. *)
Example apple_is_its_own_neighbour :
  find_similar_foods demo_db "apple" None 5 =
    Ok [Str "Apple"; Str "Banana"; Str "Lentils"] /\
  find_similar_foods demo_db "apple" None 1 = Ok [Str "Apple"] /\
  find_similar_foods demo_db "Apple" None 5 = Ok [Str "Banana"; Str "Lentils"].
Proof. repeat split; vm_compute; reflexivity. Qed.

(** ** The recommender *)

Lemma nonneg_cell_numeric (c : cell) : nonneg_cell c = true -> numeric c = true.
Proof. unfold nonneg_cell. intros H. by apply andb_prop in H as [H _]. Qed.

Lemma py_div_pos (x gap : float) :
  ltb zero gap = true -> py_div x gap = Ok (div x gap).
Proof.
  intros H. unfold py_div. by rewrite (F64Facts.pos_nonzero gap H).
Qed.

Lemma gap_ratios_ok (r : row) (gaps : list (string * float)) :
  Forall (fun item => numeric (row_get_default r item.1) = true) gaps ->
  gap_ratios r gaps = Ok (open_ratios r gaps).
Proof.
  intros H. unfold gap_ratios, open_ratios. apply foldM_pure.
  eapply Forall_impl; [exact H|]. intros [n gap] Hn acc. simpl in *.
  destruct (ltb zero gap) eqn:Hgap; [|reflexivity].
  rewrite (num_value _ Hn). simpl.
  destruct (ltb zero (value (row_get_default r n))); [|reflexivity].
  by rewrite (py_div_pos _ _ Hgap).
Qed.

Lemma addresses_ok (r : row) (gaps : list (string * float)) :
  Forall (fun item => numeric (row_get_default r item.1) = true) gaps ->
  _addresses_nutritional_gaps r gaps = Ok (addresses r gaps).
Proof.
  intros H. unfold _addresses_nutritional_gaps, addresses.
  rewrite (gap_ratios_ok r gaps H). simpl.
  destruct (open_ratios r gaps); reflexivity.
Qed.

Lemma gap_score_ok (r : row) (gaps : list (string * float)) :
  Forall (fun item => numeric (row_get_default r item.1) = true) gaps ->
  _nutritional_gap_score r gaps = Ok (gap_score gaps r).
Proof.
  intros H. unfold _nutritional_gap_score, gap_score. apply foldM_pure.
  eapply Forall_impl; [exact H|]. intros [n gap] Hn acc. simpl in *.
  destruct (ltb zero gap) eqn:Hgap; [|reflexivity].
  rewrite (num_value _ Hn). simpl.
  by rewrite (py_div_pos _ _ Hgap).
Qed.

Lemma recommendable_row_numeric (r : row) (gaps : list (string * float)) :
  gaps.*1 = gap_nutrients ->
  recommendable_row r = true ->
  Forall (fun item => numeric (row_get_default r item.1) = true) gaps.
Proof.
  intros Hg Hr. unfold recommendable_row in Hr.
  apply andb_prop in Hr as [Hr _]. rewrite forallb_forall in Hr.
  apply Forall_forall. intros [n gap] Hin. simpl.
  apply nonneg_cell_numeric, Hr. rewrite <- Hg.
  apply list_elem_of_In. by apply (list_elem_of_fmap_2 fst) in Hin.
Qed.

Lemma summarize_ok (r : row) :
  recommendable_row r = true -> summarize r = Ok (summary_of r).
Proof.
  intros Hr. unfold recommendable_row in Hr.
  apply andb_prop in Hr as [_ Hr]. simpl in Hr.
  repeat match type of Hr with
         | _ && _ = true => apply andb_prop in Hr as [?%bool_decide_eq_true_1 Hr]
         end.
  unfold summarize, summary_of, row_get, row_get_default.
  repeat match goal with
         | H : is_Some (r !! _) |- _ => destruct H as [? ->]
         end.
  reflexivity.
Qed.

Lemma mapM_result_pure {A B} (f : A -> result B) (g : A -> B) (l : list A) :
  Forall (fun x => f x = Ok (g x)) l -> mapM_result f l = Ok (map g l).
Proof.
  induction 1 as [|x l Hx _ IH]; simpl; [reflexivity|].
  rewrite Hx, IH. reflexivity.
Qed.

(** The candidate loop on rows that raise nothing: it keeps the surviving
    rows in table order until twice the requested number has been kept (and
    at least one). *)
Lemma collect_candidates_ok (db : FoodDatabase) (gaps : list (string * float))
    (current_intake : list IntakeItem) (num_recommendations : Z)
    (candidates : list row) :
  Forall (fun r =>
            Forall (fun item => numeric (row_get_default r item.1) = true) gaps /\
            is_ok (_is_similar_to_current_intake db r current_intake) = true)
         candidates ->
  forall recommended_foods,
    collect_candidates db gaps current_intake num_recommendations candidates
                       recommended_foods =
    Ok (recommended_foods ++
        take (Z.to_nat (Z.max 1 (2 * num_recommendations -
                                 Z.of_nat (length recommended_foods))))
             (List.filter (survives db gaps current_intake) candidates)).
Proof.
  induction 1 as [|r rest [Hnum Hsim] _ IH]; intros acc.
  - simpl. by rewrite take_nil, app_nil_r.
  - cbn [collect_candidates List.filter]. unfold survives at 1, similar.
    rewrite (addresses_ok r gaps Hnum). cbn [mbind result_bind].
    destruct (addresses r gaps); cbn [negb andb]; [|apply IH].
    destruct (_is_similar_to_current_intake db r current_intake) as [b|e];
      [|discriminate]. cbn [mbind result_bind].
    destruct b; cbn [negb]; [apply IH|].
    rewrite length_app. cbn [length].
    destruct (num_recommendations * 2 <=? Z.of_nat (length acc + 1)) eqn:E.
    + apply Z.leb_le in E.
      replace (Z.to_nat (Z.max 1 (2 * num_recommendations -
                                  Z.of_nat (length acc)))) with 1%nat by lia.
      cbn [take]. by rewrite take_0.
    + apply Z.leb_gt in E. rewrite IH, length_app. cbn [length].
      destruct (Z.to_nat (Z.max 1 (2 * num_recommendations -
                                   Z.of_nat (length acc)))) as [|n] eqn:En;
        [lia|].
      replace (Z.to_nat (Z.max 1 (2 * num_recommendations -
                                  Z.of_nat (length acc + 1)))) with n by lia.
      cbn [take]. by rewrite <- app_assoc.
Qed.

(** The gaps of a profile that provides its five entries. *)
Lemma calculate_gaps_ok (current_nutrition : gmap string float)
    (user_profile : gmap string cell) (age weight height : float)
    (gender activity_level : string) :
  user_profile !! "age" = Some (Num age) ->
  user_profile !! "weight" = Some (Num weight) ->
  user_profile !! "height" = Some (Num height) ->
  user_profile !! "gender" = Some (Str gender) ->
  user_profile !! "activity_level" = Some (Str activity_level) ->
  _calculate_nutritional_gaps current_nutrition user_profile =
  Ok [("calories", sub (mul (mifflin_st_jeor age weight height gender)
                            (activity_multiplier activity_level))
                       (dict_get_default current_nutrition "calories"));
      ("protein", sub (mul weight c1)
                      (dict_get_default current_nutrition "protein"));
      ("fiber", sub c25 (dict_get_default current_nutrition "fiber"))].
Proof.
  intros Ha Hw Hh Hg Hl.
  unfold _calculate_nutritional_gaps, profile_get.
  rewrite Ha, Hw, Hh, Hg, Hl. cbn [mbind result_bind].
  unfold _calculate_calorie_needs, _calculate_protein_needs, str_lower, num.
  cbn [mbind result_bind].
  unfold mifflin_st_jeor, activity_multiplier, bmr_base.
  destruct (bool_decide (lower gender = "male")); reflexivity.
Qed.

(** Whatever the profile, the gaps are those of calories, protein and
    fiber, in this order. *)
Lemma calculate_gaps_keys (current_nutrition : gmap string float)
    (user_profile : gmap string cell) (gaps : list (string * float)) :
  _calculate_nutritional_gaps current_nutrition user_profile = Ok gaps ->
  gaps.*1 = gap_nutrients.
Proof.
  unfold _calculate_nutritional_gaps. intros H.
  repeat (apply bind_Ok in H as (? & _ & H)).
  injection H as <-. reflexivity.
Qed.

Lemma sort_by_gap_score_ok (gaps : list (string * float)) (picked : list row) :
  Forall (fun r => Forall (fun item => numeric (row_get_default r item.1) = true)
                          gaps) picked ->
  sort_by_gap_score gaps picked =
  Ok (map snd (py_sort_reverse fst
                 (combine (map (gap_score gaps) picked) picked))).
Proof.
  intros H. unfold sort_by_gap_score.
  rewrite (mapM_result_pure _ (gap_score gaps)); [reflexivity|].
  eapply Forall_impl; [exact H|]. intros r Hr. by apply gap_score_ok.
Qed.

Lemma combine_map_snd {A B} (f : A -> B) (l : list A) :
  map snd (combine (map f l) l) = l.
Proof. induction l as [|x l IH]; simpl; [reflexivity | by rewrite IH]. Qed.

(** The rows ranked by the recommender: the kept rows, sorted on their gap
    score in reverse. *)
Lemma ranked_perm (gaps : list (string * float)) (picked : list row) :
  Permutation (map snd (py_sort_reverse fst
                          (combine (map (gap_score gaps) picked) picked)))
              picked.
Proof.
  rewrite (py_sort_reverse_perm fst). by rewrite combine_map_snd.
Qed.

Lemma gap_score_nonneg (gaps : list (string * float)) (r : row) :
  Forall (fun item => nonneg_cell (row_get_default r item.1) = true) gaps ->
  nonneg (gap_score gaps r) = true.
Proof.
  intros H. unfold gap_score.
  apply (fold_left_inv (fun x => nonneg x = true)); [|reflexivity].
  eapply Forall_impl; [exact H|]. intros [n gap] Hn acc Hacc. simpl in *.
  destruct (ltb zero gap) eqn:Hgap; [|exact Hacc].
  apply F64Facts.add_nonneg; [exact Hacc|].
  apply F64Facts.div_nonneg; [|exact Hgap].
  unfold nonneg_cell in Hn. by apply andb_prop in Hn as [_ Hn].
Qed.

Lemma recommendable_row_nonneg (r : row) (gaps : list (string * float)) :
  gaps.*1 = gap_nutrients ->
  recommendable_row r = true ->
  Forall (fun item => nonneg_cell (row_get_default r item.1) = true) gaps.
Proof.
  intros Hg Hr. unfold recommendable_row in Hr.
  apply andb_prop in Hr as [Hr _]. rewrite forallb_forall in Hr.
  apply Forall_forall. intros [n gap] Hin. simpl.
  apply Hr. rewrite <- Hg.
  apply list_elem_of_In. by apply (list_elem_of_fmap_2 fst) in Hin.
Qed.

Lemma descending_map_snd {A} (f : A -> float) (l : list (float * A)) :
  Forall (fun p => p.1 = f p.2) l ->
  descending fst l -> descending f (map snd l).
Proof.
  unfold descending. intros Hl Hs. induction Hs as [|p l Hs IH Hp]; simpl.
  - constructor.
  - apply Forall_cons in Hl as [Hp1 Hl]. constructor; [by apply IH|].
    apply Forall_map. rewrite Forall_forall in Hp, Hl |- *.
    intros q Hq. specialize (Hp q Hq). rewrite (Hl q Hq), Hp1 in Hp.
    exact Hp.
Qed.

Lemma ranked_descending (gaps : list (string * float)) (picked : list row) :
  Forall (fun r => nonneg (gap_score gaps r) = true) picked ->
  descending (gap_score gaps)
    (map snd (py_sort_reverse fst
                (combine (map (gap_score gaps) picked) picked))).
Proof.
  intros H.
  assert (Hpairs : Forall (fun p : float * row => p.1 = gap_score gaps p.2)
                          (combine (map (gap_score gaps) picked) picked)).
  { clear H. induction picked as [|r l IH]; simpl; constructor; auto. }
  apply descending_map_snd.
  - rewrite (py_sort_reverse_perm fst). exact Hpairs.
  - apply py_sort_reverse_descending.
    apply Forall_forall. intros p Hp.
    rewrite (proj1 (Forall_forall _ _) Hpairs p Hp).
    apply F64Facts.nonneg_not_nan, (proj1 (Forall_forall _ _) H).
    apply (list_elem_of_fmap_2 snd) in Hp.
    by rewrite combine_map_snd in Hp.
Qed.

(** What the recommender returns when no step raises. *)
Lemma recommendations_ok (db : FoodDatabase) (user_profile : gmap string cell)
    (current_intake : list IntakeItem) (num_recommendations : Z)
    (totals : gmap string float) (gaps : list (string * float)) :
  analyze_daily_intake db (map food current_intake)
                       (map quantity current_intake) = Ok totals ->
  _calculate_nutritional_gaps totals user_profile = Ok gaps ->
  Forall (fun r => recommendable_row r = true /\
                   is_ok (_is_similar_to_current_intake db r current_intake)
                   = true) (rows (food_data db)) ->
  get_personalized_recommendations db user_profile current_intake None
                                   num_recommendations =
  Ok (map summary_of
        (slice_to num_recommendations
           (map snd (py_sort_reverse fst
              (combine
                 (map (gap_score gaps)
                    (take (Z.to_nat (Z.max 1 (2 * num_recommendations)))
                          (List.filter (survives db gaps current_intake)
                                       (rows (food_data db)))))
                 (take (Z.to_nat (Z.max 1 (2 * num_recommendations)))
                       (List.filter (survives db gaps current_intake)
                                    (rows (food_data db))))))))).
Proof.
  intros Htot Hgaps Hrows.
  pose proof (calculate_gaps_keys _ _ _ Hgaps) as Hkeys.
  set (picked := take (Z.to_nat (Z.max 1 (2 * num_recommendations)))
                      (List.filter (survives db gaps current_intake)
                                   (rows (food_data db)))).
  assert (Hpicked : Forall (fun r => recommendable_row r = true) picked).
  { apply Forall_take, filter_Forall.
    eapply Forall_impl; [exact Hrows|]. by intros r [Hr _]. }
  unfold get_personalized_recommendations.
  rewrite Htot. cbn [mbind result_bind]. rewrite Hgaps.
  cbn [mbind result_bind default foldM].
  rewrite (collect_candidates_ok db gaps current_intake num_recommendations).
  2:{ eapply Forall_impl; [exact Hrows|]. intros r [Hr Hs]. split; [|exact Hs].
      by apply recommendable_row_numeric. }
  cbn [mbind result_bind app length].
  replace (2 * num_recommendations - Z.of_nat 0) with (2 * num_recommendations)
    by lia.
  fold picked.
  rewrite (sort_by_gap_score_ok gaps picked).
  2:{ eapply Forall_impl; [exact Hpicked|]. intros r Hr.
      by apply recommendable_row_numeric. }
  cbn [mbind result_bind].
  apply mapM_result_pure.
  destruct (slice_to_sublist num_recommendations
              (map snd (py_sort_reverse fst
                          (combine (map (gap_score gaps) picked) picked))))
    as [n ->].
  apply Forall_take. rewrite (ranked_perm gaps picked).
  eapply Forall_impl; [exact Hpicked|]. intros r Hr. by apply summarize_ok.
Qed.

(** C8, as the code does it: the candidate loop stops as soon as it has kept
    twice the requested number of surviving rows (and at least one), so the
    rows that are scored are the first [2 * count] survivors in table order;
    those are sorted descending on the sum over the open gaps of
    [value / gap], and the first [count] of them are returned, each with its
    name, calories, protein, carbs, fat, fiber and category. *)
Theorem C8_top_of_the_first_survivors (db : FoodDatabase)
    (user_profile : gmap string cell) (current_intake : list IntakeItem)
    (num_recommendations : Z) (totals : gmap string float)
    (gaps : list (string * float)) :
  analyze_daily_intake db (map food current_intake)
                       (map quantity current_intake) = Ok totals ->
  _calculate_nutritional_gaps totals user_profile = Ok gaps ->
  Forall (fun r => recommendable_row r = true /\
                   is_ok (_is_similar_to_current_intake db r current_intake)
                   = true) (rows (food_data db)) ->
  exists ranked : list row,
    Permutation ranked
      (take (Z.to_nat (Z.max 1 (2 * num_recommendations)))
            (List.filter (survives db gaps current_intake)
                         (rows (food_data db)))) /\
    descending (gap_score gaps) ranked /\
    get_personalized_recommendations db user_profile current_intake None
                                     num_recommendations =
    Ok (map summary_of (slice_to num_recommendations ranked)).
Proof.
  intros Htot Hgaps Hrows.
  pose proof (calculate_gaps_keys _ _ _ Hgaps) as Hkeys.
  eexists. split; [apply (ranked_perm gaps)|]. split.
  - apply ranked_descending. apply Forall_take, filter_Forall.
    eapply Forall_impl; [exact Hrows|]. intros r [Hr _].
    apply gap_score_nonneg. by apply recommendable_row_nonneg.
  - by apply recommendations_ok with (totals := totals).
Qed.

Lemma C8_top_of_the_first_survivors_witness :
  exists ranked : list row,
    Permutation ranked
      (take (Z.to_nat (Z.max 1 (2 * 1)))
            (List.filter (survives pantry_db apple_gaps apple_intake)
                         (rows (food_data pantry_db)))) /\
    descending (gap_score apple_gaps) ranked /\
    get_personalized_recommendations pantry_db demo_profile apple_intake None 1 =
    Ok (map summary_of (slice_to 1 ranked)).
Proof.
  apply (C8_top_of_the_first_survivors pantry_db demo_profile apple_intake 1
           apple_totals apple_gaps).
  - vm_compute. reflexivity.
  - vm_compute. reflexivity.
  - repeat constructor.
Defined.

(** C8 as stated fails: with one recommendation requested the loop stops
    after the second surviving row (banana, lentils) and returns lentils,
    although almonds, further down the table, survives both filters and has
    a higher gap score. *)
Lemma C8_best_survivor_is_not_returned :
  _calculate_nutritional_gaps empty_totals demo_profile = Ok demo_gaps /\
  get_personalized_recommendations pantry_db demo_profile [] None 1 =
    Ok [summary_of lentils] /\
  almonds ∈ rows (food_data pantry_db) /\
  _addresses_nutritional_gaps almonds demo_gaps = Ok true /\
  _is_similar_to_current_intake pantry_db almonds [] = Ok false /\
  (_nutritional_gap_score lentils demo_gaps ≫= fun a =>
   _nutritional_gap_score almonds demo_gaps ≫= fun b => Ok (ltb a b))
  = Ok true.
Proof.
  split; [vm_compute; reflexivity|].
  split; [vm_compute; reflexivity|].
  split; [repeat constructor|].
  split; [vm_compute; reflexivity|].
  split; vm_compute; reflexivity.
Qed.

(** What holds of an empty intake: for a profile that provides age, weight,
    height, gender and activity level, and a table whose rows the
    recommender can process, the call returns; the totals are all zero, so
    the three gaps are the full needs: the Mifflin-St Jeor calorie need
    times the activity multiplier, [weight * 1.0] and 25; and the
    recommendations are the top of the first survivors of those gaps. *)
Lemma empty_intake_leaves_the_full_needs_open (db : FoodDatabase)
    (user_profile : gmap string cell) (num_recommendations : Z)
    (age weight height : float) (gender activity_level : string)
    (gaps : list (string * float)) :
  user_profile !! "age" = Some (Num age) ->
  user_profile !! "weight" = Some (Num weight) ->
  user_profile !! "height" = Some (Num height) ->
  user_profile !! "gender" = Some (Str gender) ->
  user_profile !! "activity_level" = Some (Str activity_level) ->
  Forall (fun r => recommendable_row r = true) (rows (food_data db)) ->
  gaps = [("calories", mul (mifflin_st_jeor age weight height gender)
                           (activity_multiplier activity_level));
          ("protein", mul weight c1);
          ("fiber", c25)] ->
  analyze_daily_intake db [] [] = Ok empty_totals /\
  _calculate_nutritional_gaps empty_totals user_profile = Ok gaps /\
  exists ranked : list row,
    Permutation ranked
      (take (Z.to_nat (Z.max 1 (2 * num_recommendations)))
            (List.filter (survives db gaps []) (rows (food_data db)))) /\
    descending (gap_score gaps) ranked /\
    get_personalized_recommendations db user_profile [] None
                                     num_recommendations =
    Ok (map summary_of (slice_to num_recommendations ranked)).
Proof.
  intros Ha Hw Hh Hg Hl Hrows Heq.
  assert (Hgaps : _calculate_nutritional_gaps empty_totals user_profile =
                  Ok gaps).
  { subst gaps.
    rewrite (calculate_gaps_ok empty_totals user_profile age weight height
               gender activity_level Ha Hw Hh Hg Hl).
    change (dict_get_default empty_totals "calories") with zero.
    change (dict_get_default empty_totals "protein") with zero.
    change (dict_get_default empty_totals "fiber") with zero.
    by rewrite !F64Facts.sub_zero. }
  clear Heq. split; [reflexivity|]. split; [exact Hgaps|].
  pose proof (calculate_gaps_keys _ _ _ Hgaps) as Hkeys.
  eexists. split; [apply (ranked_perm gaps)|]. split.
  - apply ranked_descending. apply Forall_take, filter_Forall.
    eapply Forall_impl; [exact Hrows|]. intros r Hr.
    apply gap_score_nonneg. by apply recommendable_row_nonneg.
  - apply recommendations_ok with (totals := empty_totals);
      [reflexivity | exact Hgaps |].
    eapply Forall_impl; [exact Hrows|]. intros r Hr. by split.
Qed.

Lemma empty_intake_leaves_the_full_needs_open_on_the_demo_catalog :
  analyze_daily_intake demo_db [] [] = Ok empty_totals /\
  _calculate_nutritional_gaps empty_totals demo_profile = Ok demo_gaps /\
  exists ranked : list row,
    Permutation ranked
      (take (Z.to_nat (Z.max 1 (2 * 5)))
            (List.filter (survives demo_db demo_gaps [])
                         (rows (food_data demo_db)))) /\
    descending (gap_score demo_gaps) ranked /\
    get_personalized_recommendations demo_db demo_profile [] None 5 =
    Ok (map summary_of (slice_to 5 ranked)).
Proof.
  apply (empty_intake_leaves_the_full_needs_open demo_db demo_profile 5
           (of_Z 30) (of_Z 70) (of_Z 170) "Male" "moderate").
  - vm_compute. reflexivity.
  - vm_compute. reflexivity.
  - vm_compute. reflexivity.
  - vm_compute. reflexivity.
  - vm_compute. reflexivity.
  - repeat constructor.
  - vm_compute. reflexivity.
Qed.

(** The gaps need the five entries of the profile, in their order. *)
Lemma calculate_gaps_first_missing (current_nutrition : gmap string float)
    (user_profile : gmap string cell) (present rest : list string)
    (key : string) :
  profile_keys = present ++ key :: rest ->
  Forall (fun k => is_Some (user_profile !! k)) present ->
  user_profile !! key = None ->
  _calculate_nutritional_gaps current_nutrition user_profile =
  Raise (KeyError key).
Proof.
  intros Heq Hpresent Hkey.
  unfold _calculate_nutritional_gaps, profile_get.
  unfold profile_keys in Heq.
  repeat (destruct present as [|? present];
          [cbn [app] in Heq; inversion Heq; subst; clear Heq;
           repeat match goal with
                  | H : Forall _ (_ :: _) |- _ =>
                      apply Forall_cons in H as [[? ->] H]
                  end;
           by rewrite Hkey
          |cbn [app] in Heq;
           first [ injection Heq as <- Heq | discriminate Heq ]]).
  all: try (destruct present; discriminate Heq).
Qed.

(** C9: the recommender reads the profile with defaults, then indexes it:
    with an empty intake, whatever the table, the restrictions and the
    requested number, the call raises [KeyError] for the first of [age],
    [weight], [height], [gender] and [activity_level] that the profile
    lacks. *)
Theorem C9_empty_intake_fails_on_an_incomplete_profile (db : FoodDatabase)
    (user_profile : gmap string cell)
    (dietary_restrictions : option (list string)) (num_recommendations : Z)
    (present rest : list string) (key : string) :
  profile_keys = present ++ key :: rest ->
  Forall (fun k => is_Some (user_profile !! k)) present ->
  user_profile !! key = None ->
  get_personalized_recommendations db user_profile [] dietary_restrictions
                                   num_recommendations = Raise (KeyError key).
Proof.
  intros Heq Hpresent Hkey. unfold get_personalized_recommendations.
  change (analyze_daily_intake db (map food []) (map quantity []))
    with (Ok (A := gmap string float) empty_totals).
  cbn [mbind result_bind].
  by rewrite (calculate_gaps_first_missing empty_totals user_profile present
                rest key Heq Hpresent Hkey).
Qed.

Lemma C9_empty_intake_fails_on_an_incomplete_profile_witness :
  get_personalized_recommendations demo_db app_profile [] None 5 =
    Raise (KeyError "activity_level") /\
  get_personalized_recommendations demo_db ∅ [] None 5 =
    Raise (KeyError "age").
Proof.
  split.
  - apply (C9_empty_intake_fails_on_an_incomplete_profile demo_db app_profile
             None 5 ["age"; "weight"; "height"; "gender"] []
             "activity_level").
    + reflexivity.
    + repeat constructor; by eexists.
    + reflexivity.
  - apply (C9_empty_intake_fails_on_an_incomplete_profile demo_db ∅ None 5
             [] ["weight"; "height"; "gender"; "activity_level"] "age").
    + reflexivity.
    + constructor.
    + reflexivity.
Defined.

(** The recommendations of the demo catalog for an empty intake. *)
Example recommendations_for_an_empty_intake :
  get_personalized_recommendations demo_db demo_profile [] None 5 =
  Ok [summary_of lentils; summary_of banana].
Proof. vm_compute. reflexivity. Qed.

(** ** Strings *)

Lemma lower_ascii_idemp (a : ascii) : lower_ascii (lower_ascii a) = lower_ascii a.
Proof. destruct a as [[] [] [] [] [] [] [] []]; reflexivity. Qed.

Lemma lower_idemp (s : string) : lower (lower s) = lower s.
Proof.
  induction s as [|a s IH]; simpl; [reflexivity|].
  by rewrite lower_ascii_idemp, IH.
Qed.

Lemma append_String (c : ascii) (a post : string) :
  (String c a +:+ post) = String c (a +:+ post).
Proof. reflexivity. Qed.

Lemma prefix_spec (a s : string) :
  String.prefix a s = true <-> exists post, s = a +:+ post.
Proof.
  revert s; induction a as [|c a IH]; intros s.
  - split; [intros _; by exists s | intros _; by destruct s].
  - destruct s as [|d s].
    + split; [discriminate | intros [post ?]; discriminate].
    + change (String.prefix (String c a) (String d s))
        with (if Ascii.ascii_dec c d then String.prefix a s else false).
      destruct (Ascii.ascii_dec c d) as [->|Hne].
      * rewrite IH. split; intros [post Hp]; exists post.
        -- rewrite append_String. congruence.
        -- rewrite append_String in Hp. congruence.
      * split; [discriminate | intros [post Hp]].
        rewrite append_String in Hp. congruence.
Qed.

Lemma str_in_String (a : string) (d : ascii) (s : string) :
  str_in a (String d s) = String.prefix a (String d s) || str_in a s.
Proof. reflexivity. Qed.

(** [str_in] is the substring test. *)
Lemma str_in_spec (a s : string) :
  str_in a s = true <-> exists pre post, s = pre +:+ a +:+ post.
Proof.
  induction s as [|d s IH].
  - change (str_in a "") with (String.prefix a "" || false).
    rewrite orb_false_r, prefix_spec. split.
    + intros [post Hp]. by exists ""%string, post.
    + intros [pre [post Hp]]. destruct pre; [by exists post|discriminate].
  - rewrite str_in_String, orb_true_iff, IH, prefix_spec. split.
    + intros [[post Hp] | [pre [post Hp]]].
      * by exists ""%string, post.
      * exists (String d pre), post. rewrite append_String. by rewrite Hp.
    + intros [pre [post Hp]]. destruct pre as [|c pre].
      * left. by exists post.
      * right. exists pre, post. rewrite append_String in Hp. congruence.
Qed.

Lemma str_in_empty (s : string) : str_in "" s = true.
Proof. by destruct s. Qed.

(** ** Loops *)

(** A property that every successful step preserves holds at the end of a
    successful loop. *)
Lemma foldM_inv {A B} (P : B -> Prop) (body : B -> A -> result B)
    (xs : list A) :
  (forall acc x acc', x ∈ xs -> P acc -> body acc x = Ok acc' -> P acc') ->
  forall acc out, P acc -> foldM body xs acc = Ok out -> P out.
Proof.
  induction xs as [|x xs IH]; intros Hstep acc out Hacc Hrun.
  - simpl in Hrun. congruence.
  - cbn [foldM] in Hrun. apply bind_Ok in Hrun as [acc' [Hx Hrest]].
    apply (IH (fun acc x acc' Hin => Hstep acc x acc' (list_elem_of_further _ _ _ Hin))
              acc' out); [|exact Hrest].
    apply (Hstep acc x acc'); [left | exact Hacc | exact Hx].
Qed.

(** A loop can only raise what one of its steps raises. *)
Lemma foldM_raises {A B} (P : exn -> Prop) (body : B -> A -> result B)
    (xs : list A) :
  (forall acc x e, x ∈ xs -> body acc x = Raise e -> P e) ->
  forall acc e, foldM body xs acc = Raise e -> P e.
Proof.
  induction xs as [|x xs IH]; intros Hstep acc e Hrun.
  - discriminate.
  - cbn [foldM] in Hrun. destruct (body acc x) as [acc'|e'] eqn:Hx.
    + apply (IH (fun acc x e Hin => Hstep acc x e (list_elem_of_further _ _ _ Hin))
                acc' e Hrun).
    + simpl in Hrun. inversion Hrun; subst e'.
      apply (Hstep acc x e); [left | exact Hx].
Qed.

(** ** Searching the catalog *)

(** The exceptions of the record constructor are the missing columns. *)
Lemma food_of_row_raises (r : row) (e : exn) :
  food_of_row r = Raise e -> exists col, e = KeyError col.
Proof.
  unfold food_of_row, row_get.
  repeat match goal with
         | |- (match r !! ?c with _ => _ end ≫= _) = _ -> _ =>
             destruct (r !! c);
             [cbn [mbind result_bind]
             |cbn [mbind result_bind]; intros H; inversion H; subst; by eexists]
         end.
  discriminate.
Qed.

Lemma row_name_matches (r : row) (s : string) :
  r !! "food" = Some (Str s) -> name_matches (lower (lower s)) r = true.
Proof.
  intros H. unfold name_matches. rewrite H, lower_idemp.
  by apply bool_decide_eq_true_2.
Qed.

(** The lowered name of a row of the table is found by the lookup, in the
    first row that carries the name. *)
Lemma lowered_name_is_found (db : FoodDatabase) (r : row) (s : string) :
  "food" ∈ columns (food_data db) ->
  r ∈ rows (food_data db) -> r !! "food" = Some (Str s) ->
  exists r', r' ∈ rows (food_data db) /\
             name_matches (lower s) r' = true /\
             get_food_nutrition db (lower s) = (food_of_row r' ≫= fun f => Ok (Some f)).
Proof.
  intros Hcol Hin Hs.
  destruct (List.filter (name_matches (lower (lower s))) (rows (food_data db)))
    as [|r' others] eqn:Hfil.
  - exfalso. assert (Hm : In r (List.filter (name_matches (lower (lower s)))
                                            (rows (food_data db)))).
    { apply filter_In. split; [by apply list_elem_of_In|].
      by apply row_name_matches. }
    rewrite Hfil in Hm. destruct Hm.
  - exists r'.
    assert (Hm : In r' (List.filter (name_matches (lower (lower s)))
                                    (rows (food_data db)))).
    { rewrite Hfil. by left. }
    apply filter_In in Hm as [Hr' Hm]. rewrite lower_idemp in Hm.
    split; [by apply list_elem_of_In|]. split; [exact Hm|].
    by apply (get_food_nutrition_present db (lower s) r' others Hcol).
Qed.

Lemma frame_col_inv (df : DataFrame) (col : string) (u : unit) :
  frame_col df col = Ok u -> col ∈ columns df.
Proof. unfold frame_col. case_bool_decide; [done | discriminate]. Qed.

Lemma search_food_inv (db : FoodDatabase) (query : string)
    (found : list string) :
  search_food db query = Ok found ->
  "food" ∈ columns (food_data db) /\
  forall name, name ∈ found ->
    exists r s, r ∈ rows (food_data db) /\ r !! "food" = Some (Str s) /\
                name = lower s /\ str_in (lower query) name = true.
Proof.
  unfold search_food. intros Hrun.
  apply bind_Ok in Hrun as [u [Hcol Hrun]].
  split; [exact (frame_col_inv _ _ _ Hcol)|].
  revert Hrun.
  apply (foldM_inv
           (fun found => forall name, name ∈ found ->
              exists r s, r ∈ rows (food_data db) /\ r !! "food" = Some (Str s) /\
                          name = lower s /\ str_in (lower query) name = true)).
  - intros acc r acc' Hin Hacc Hstep name Hname. unfold search_row in Hstep.
    destruct (r !! "food") as [[s| |]|] eqn:Hs; try discriminate.
    destruct (str_in (lower query) (lower s)) eqn:Hq;
      inversion Hstep; subst acc'; [|by apply Hacc].
    apply elem_of_app in Hname as [Hname|Hname]; [by apply Hacc|].
    apply list_elem_of_singleton in Hname. subst name.
    by exists r, s.
  - intros name Hname. by apply elem_of_nil in Hname.
Qed.

(** A name that a search has returned is found by the lookup. *)
Lemma found_names_resolve (db : FoodDatabase) (query : string)
    (found : list string) (name : string) :
  search_food db query = Ok found -> name ∈ found ->
  str_in (lower query) name = true /\
  (exists r, r ∈ rows (food_data db) /\ name_matches name r = true /\
             get_food_nutrition db name = (food_of_row r ≫= fun f => Ok (Some f))) /\
  get_food_nutrition db name <> Raise IndexError.
Proof.
  intros Hrun Hname.
  destruct (search_food_inv db query found Hrun) as [Hcol Hall].
  destruct (Hall name Hname) as [r [s [Hin [Hs [-> Hq]]]]].
  destruct (lowered_name_is_found db r s Hcol Hin Hs) as [r' [Hin' [Hm Hget]]].
  split; [exact Hq|]. split; [by exists r'|].
  rewrite Hget. destruct (food_of_row r') as [f|e] eqn:Hf; [discriminate|].
  apply food_of_row_raises in Hf as [col ->]. discriminate.
Qed.

(** X1.  Every name that [search_food] returns contains the lowered query
    and is found by [get_food_nutrition]: the lookup answers from a row of
    the table that carries that name, so it raises no [IndexError] (a
    [KeyError] for a missing nutrient column remains possible). *)
Theorem search_results_are_found_by_the_lookup (db : FoodDatabase)
    (query : string) (found : list string) (name : string) :
  search_food db query = Ok found -> name ∈ found ->
  str_in (lower query) name = true /\
  (exists r, r ∈ rows (food_data db) /\ name_matches name r = true /\
             get_food_nutrition db name = (food_of_row r ≫= fun f => Ok (Some f))) /\
  get_food_nutrition db name <> Raise IndexError.
Proof. exact (found_names_resolve db query found name). Qed.

Lemma search_results_are_found_by_the_lookup_witness :
  str_in (lower "AN") "banana" = true /\
  (exists r, r ∈ rows (food_data demo_db) /\ name_matches "banana" r = true /\
             get_food_nutrition demo_db "banana" =
             (food_of_row r ≫= fun f => Ok (Some f))) /\
  get_food_nutrition demo_db "banana" <> Raise IndexError.
Proof.
  apply (search_results_are_found_by_the_lookup demo_db "AN" ["banana"]).
  - vm_compute. reflexivity.
  - left.
Defined.

Lemma search_row_string (query : string) (found : list string) (r : row)
    (s : string) :
  r !! "food" = Some (Str s) ->
  search_row query found r =
  Ok (if str_in query (lower s) then found ++ [lower s] else found).
Proof. intros H. unfold search_row. by rewrite H. Qed.

Lemma foldM_search_row (query : string) (rs : list row) (names : list string) :
  Forall2 (fun (r : row) s => r !! "food" = Some (Str s)) rs names ->
  forall found,
    foldM (search_row query) rs found =
    Ok (found ++ List.filter (str_in query) (map lower names)).
Proof.
  induction 1 as [|r s rs names Hs _ IH]; intros found.
  - simpl. by rewrite app_nil_r.
  - cbn [foldM]. rewrite (search_row_string query found r s Hs).
    cbn [mbind result_bind map List.filter]. rewrite IH.
    destruct (str_in query (lower s)); [|reflexivity].
    by rewrite <- app_assoc.
Qed.

(** X2.  On a table whose names are all strings, [search_food] returns, in
    table order and with repetitions, the lowered names that contain the
    lowered query as a substring; the empty query returns every name. *)
Theorem search_food_lists_the_names_containing_the_query (db : FoodDatabase)
    (names : list string) (query : string) :
  "food" ∈ columns (food_data db) ->
  Forall2 (fun (r : row) s => r !! "food" = Some (Str s))
          (rows (food_data db)) names ->
  search_food db query =
    Ok (List.filter (str_in (lower query)) (map lower names)) /\
  (forall name, name ∈ List.filter (str_in (lower query)) (map lower names) <->
     name ∈ map lower names /\
     exists pre post, name = pre +:+ lower query +:+ post) /\
  search_food db "" = Ok (map lower names).
Proof.
  intros Hcol Hnames. split; [|split].
  - unfold search_food. rewrite (frame_col_ok _ _ Hcol).
    cbn [mbind result_bind]. by rewrite (foldM_search_row _ _ names Hnames).
  - intros name. rewrite !list_elem_of_In, filter_In, str_in_spec. tauto.
  - unfold search_food. rewrite (frame_col_ok _ _ Hcol).
    cbn [mbind result_bind]. rewrite (foldM_search_row _ _ names Hnames).
    f_equal. simpl. induction (map lower names) as [|n l IH]; [reflexivity|].
    cbn [List.filter]. by rewrite str_in_empty, IH.
Qed.

Lemma search_food_lists_the_names_containing_the_query_witness :
  search_food demo_db "AN" =
    Ok (List.filter (str_in (lower "AN")) (map lower ["Apple"; "Banana"; "Lentils"])) /\
  (forall name, name ∈ List.filter (str_in (lower "AN"))
                         (map lower ["Apple"; "Banana"; "Lentils"]) <->
     name ∈ map lower ["Apple"; "Banana"; "Lentils"] /\
     exists pre post, name = pre +:+ lower "AN" +:+ post) /\
  search_food demo_db "" = Ok (map lower ["Apple"; "Banana"; "Lentils"]).
Proof.
  apply (search_food_lists_the_names_containing_the_query demo_db).
  - vm_compute. repeat constructor.
  - repeat constructor.
Defined.



(** ** The categories of the catalog *)

Lemma empty_categories_lookup (category : FoodCategory) :
  empty_categories !! category = Some [].
Proof. destruct category; reflexivity. Qed.

Lemma names_in_category_cons (category : FoodCategory) (r : row)
    (rs : list row) :
  names_in_category category (r :: rs) =
  (if bool_decide (category_of (lower (row_name r)) = Some category)
   then [lower (row_name r)] else []) ++ names_in_category category rs.
Proof.
  unfold names_in_category. cbn [map List.filter].
  by destruct (bool_decide _).
Qed.

(** The loop of [_categorize_food] appends to every list the names that the
    chain of tests puts under its category, in table order; it succeeds only
    on rows whose names are strings. *)
Lemma foldM_categorize_row (rs : list row)
    (categories categories' : gmap FoodCategory (list string)) :
  foldM categorize_row rs categories = Ok categories' ->
  Forall (fun r : row => exists s, r !! "food" = Some (Str s)) rs /\
  forall category,
    categories' !! category =
    (fun foods => foods ++ names_in_category category rs) <$>
    (categories !! category).
Proof.
  revert categories. induction rs as [|r rs IH]; intros categories Hrun.
  - simpl in Hrun. inversion Hrun; subst. split; [constructor|].
    intros category. destruct (categories' !! category); simpl; [|done].
    by rewrite app_nil_r.
  - cbn [foldM] in Hrun. apply bind_Ok in Hrun as [mid [Hstep Hrest]].
    destruct (IH mid Hrest) as [Hall Hlook].
    unfold categorize_row, row_get in Hstep.
    destruct (r !! "food") as [[s| |]|] eqn:Hs; try discriminate.
    cbn [mbind result_bind] in Hstep.
    assert (Hname : row_name r = s) by (unfold row_name; by rewrite Hs).
    split; [constructor; [by exists s | exact Hall]|].
    intros category. rewrite Hlook, names_in_category_cons, Hname.
    destruct (category_of (lower s)) as [k|] eqn:Hk.
    + destruct (categories !! k) as [foods|] eqn:Hfoods; [|discriminate].
      inversion Hstep; subst mid.
      destruct (decide (k = category)) as [->|Hne].
      * rewrite lookup_insert_eq, Hfoods, bool_decide_eq_true_2 by done.
        simpl. by rewrite <- app_assoc.
      * rewrite lookup_insert_ne by done.
        rewrite bool_decide_eq_false_2 by congruence.
        destruct (categories !! category); simpl; done.
    + inversion Hstep; subst mid.
      rewrite bool_decide_eq_false_2 by congruence.
      destruct (categories !! category); simpl; done.
Qed.

(** What the constructor stores under each category. *)
Lemma FoodDatabase_init_spec (table : DataFrame) (catalog : Catalog) :
  FoodDatabase_init table = Ok catalog ->
  database catalog = {| food_data := table |} /\
  Forall (fun r : row => exists s, r !! "food" = Some (Str s)) (rows table) /\
  forall category,
    food_by_category catalog !! category =
    Some (names_in_category category (rows table)).
Proof.
  unfold FoodDatabase_init, _categorize_food. intros Hrun.
  apply bind_Ok in Hrun as [categories [Hcats Hrun]].
  inversion Hrun; subst catalog. cbn [database food_by_category food_data].
  destruct (foldM_categorize_row _ _ _ Hcats) as [Hall Hlook].
  split; [reflexivity|]. split; [exact Hall|].
  intros category. by rewrite Hlook, empty_categories_lookup.
Qed.

Lemma get_food_by_category_spec (table : DataFrame) (catalog : Catalog)
    (category : FoodCategory) :
  FoodDatabase_init table = Ok catalog ->
  get_food_by_category catalog category =
  names_in_category category (rows table).
Proof.
  intros Hinit. destruct (FoodDatabase_init_spec _ _ Hinit) as [_ [_ Hlook]].
  unfold get_food_by_category. by rewrite Hlook.
Qed.

Lemma names_in_category_elem (category : FoodCategory) (rs : list row)
    (name : string) :
  name ∈ names_in_category category rs <->
  category_of name = Some category /\
  exists r, r ∈ rs /\ name = lower (row_name r).
Proof.
  unfold names_in_category.
  rewrite list_elem_of_In, filter_In, bool_decide_eq_true, in_map_iff.
  split.
  - intros [[r [Hn Hr]] Hc]. split; [exact Hc|].
    exists r. by rewrite list_elem_of_In.
  - intros [Hc [r [Hr Hn]]]. split; [|exact Hc].
    exists r. by rewrite <- list_elem_of_In.
Qed.

(** X4.  The constructor files every name under one category at most: the
    lists of two different categories share no name, and every list holds
    lowered names of the table. *)
Theorem categories_are_disjoint (table : DataFrame) (catalog : Catalog)
    (category1 category2 : FoodCategory) (name : string) :
  FoodDatabase_init table = Ok catalog ->
  name ∈ get_food_by_category catalog category1 ->
  (exists r s, r ∈ rows table /\ r !! "food" = Some (Str s) /\ name = lower s) /\
  (category1 <> category2 ->
   name ∉ get_food_by_category catalog category2).
Proof.
  intros Hinit H1.
  rewrite (get_food_by_category_spec _ _ _ Hinit) in H1.
  apply names_in_category_elem in H1 as [Hc1 [r [Hr Hname]]].
  destruct (FoodDatabase_init_spec _ _ Hinit) as [_ [Hall _]].
  split.
  - rewrite Forall_forall in Hall. destruct (Hall r Hr) as [s Hs].
    exists r, s. split; [done|]. split; [done|].
    unfold row_name in Hname. by rewrite Hs in Hname.
  - intros Hne H2. rewrite (get_food_by_category_spec _ _ _ Hinit) in H2.
    apply names_in_category_elem in H2 as [Hc2 _]. congruence.
Qed.

Lemma categories_are_disjoint_witness :
  (exists r s, r ∈ rows dairy_table /\ r !! "food" = Some (Str s) /\
               "cheddar cheese" = lower s) /\
  (DAIRY <> BEVERAGES ->
   "cheddar cheese" ∉ get_food_by_category dairy_catalog BEVERAGES).
Proof.
  apply (categories_are_disjoint dairy_table dairy_catalog DAIRY BEVERAGES
                                 "cheddar cheese").
  - reflexivity.
  - left.
Defined.

(** X5.  A name is filed under dairy only for the word cheese: every name
    that contains milk is a beverage, so the second test of the dairy branch
    never decides. *)
Theorem dairy_is_cheese_only (table : DataFrame) (catalog : Catalog) :
  FoodDatabase_init table = Ok catalog ->
  (forall name, name ∈ get_food_by_category catalog DAIRY ->
     str_in "cheese" name = true /\ str_in "milk" name = false) /\
  (forall name, name ∈ map (fun r => lower (row_name r)) (rows table) ->
     str_in "milk" name = true ->
     name ∈ get_food_by_category catalog BEVERAGES).
Proof.
  intros Hinit. rewrite !(get_food_by_category_spec _ _ _ Hinit). split.
  - intros name H. apply names_in_category_elem in H as [Hc _].
    unfold category_of in Hc.
    destruct (any_in beverage_keywords name) eqn:Hbev; [discriminate|].
    assert (Hmilk : str_in "milk" name = false).
    { unfold any_in, beverage_keywords in Hbev. cbn [existsb] in Hbev.
      by apply orb_false_iff in Hbev as [? _]. }
    split; [|exact Hmilk]. rewrite Hmilk, orb_false_r in Hc.
    destruct (str_in "cheese" name); [reflexivity|].
    repeat match type of Hc with
           | (if ?b then _ else _) = _ => destruct b; [discriminate|]
           end.
    discriminate.
  - intros name Hin Hmilk. apply names_in_category_elem. split.
    + unfold category_of.
      assert (Hbev : any_in beverage_keywords name = true).
      { unfold any_in, beverage_keywords. cbn [existsb]. by rewrite Hmilk. }
      by rewrite Hbev.
    + apply list_elem_of_In, in_map_iff in Hin as [r [Hn Hr]].
      exists r. by rewrite list_elem_of_In.
Qed.

Lemma dairy_is_cheese_only_witness :
  (forall name, name ∈ get_food_by_category dairy_catalog DAIRY ->
     str_in "cheese" name = true /\ str_in "milk" name = false) /\
  (forall name, name ∈ map (fun r => lower (row_name r)) (rows dairy_table) ->
     str_in "milk" name = true ->
     name ∈ get_food_by_category dairy_catalog BEVERAGES).
Proof.
  apply (dairy_is_cheese_only dairy_table dairy_catalog). reflexivity.
Defined.

(** X6.  Every name filed under a category is found by the lookup: the
    lookup answers from a row of the table that carries the name, and raises
    no [IndexError]. *)
Theorem categorized_names_are_found_by_the_lookup (table : DataFrame)
    (catalog : Catalog) (category : FoodCategory) (name : string) :
  FoodDatabase_init table = Ok catalog ->
  "food" ∈ columns table ->
  name ∈ get_food_by_category catalog category ->
  (exists r, r ∈ rows table /\ name_matches name r = true /\
             get_food_nutrition (database catalog) name =
             (food_of_row r ≫= fun f => Ok (Some f))) /\
  get_food_nutrition (database catalog) name <> Raise IndexError.
Proof.
  intros Hinit Hcol Hname.
  destruct (FoodDatabase_init_spec _ _ Hinit) as [Hdb [Hall _]].
  rewrite (get_food_by_category_spec _ _ _ Hinit) in Hname.
  apply names_in_category_elem in Hname as [_ [r [Hr ->]]].
  rewrite Forall_forall in Hall. destruct (Hall r Hr) as [s Hs].
  assert (Hn : row_name r = s) by (unfold row_name; by rewrite Hs).
  rewrite Hn, Hdb.
  destruct (lowered_name_is_found {| food_data := table |} r s Hcol Hr Hs)
    as [r' [Hin' [Hm Hget]]].
  split; [by exists r'|].
  rewrite Hget. destruct (food_of_row r') as [f|e] eqn:Hf; [discriminate|].
  apply food_of_row_raises in Hf as [col ->]. discriminate.
Qed.

Lemma categorized_names_are_found_by_the_lookup_witness :
  (exists r, r ∈ rows dairy_table /\ name_matches "grilled chicken" r = true /\
             get_food_nutrition (database dairy_catalog) "grilled chicken" =
             (food_of_row r ≫= fun f => Ok (Some f))) /\
  get_food_nutrition (database dairy_catalog) "grilled chicken" <>
  Raise IndexError.
Proof.
  apply (categorized_names_are_found_by_the_lookup dairy_table dairy_catalog
           MEAT "grilled chicken").
  - reflexivity.
  - vm_compute. repeat constructor.
  - left.
Defined.

(** *** Building the database *)

Lemma categorize_row_ok (categories : gmap FoodCategory (list string))
    (r : row) (s : string) :
  (forall category, is_Some (categories !! category)) ->
  r !! "food" = Some (Str s) ->
  exists categories',
    categorize_row categories r = Ok categories' /\
    forall category, is_Some (categories' !! category).
Proof.
  intros Hall Hs. unfold categorize_row, row_get. rewrite Hs.
  cbn [mbind result_bind].
  destruct (category_of (lower s)) as [k|]; [|by eauto].
  destruct (Hall k) as [foods Hfoods]. rewrite Hfoods.
  eexists. split; [reflexivity|]. intros category.
  destruct (decide (k = category)) as [->|Hne].
  - rewrite lookup_insert_eq. by eauto.
  - rewrite lookup_insert_ne by done. apply Hall.
Qed.

Lemma foldM_categorize_row_ok (rs : list row) :
  Forall (fun r : row => exists s, r !! "food" = Some (Str s)) rs ->
  forall categories,
    (forall category, is_Some (categories !! category)) ->
    exists categories', foldM categorize_row rs categories = Ok categories'.
Proof.
  induction 1 as [|r rs [s Hs] _ IH]; intros categories Hall.
  - by exists categories.
  - cbn [foldM].
    destruct (categorize_row_ok categories r s Hall Hs) as (mid & -> & Hmid).
    cbn [mbind result_bind]. by apply IH.
Qed.

(** The first row without a string in the column [food] stops the
    constructor. *)
Lemma foldM_categorize_row_fails (rs : list row) :
  Exists (fun r : row => forall s, r !! "food" <> Some (Str s)) rs ->
  forall categories,
    (forall category, is_Some (categories !! category)) ->
    exists e, foldM categorize_row rs categories = Raise e /\
              (e = AttributeError \/ e = KeyError "food").
Proof.
  induction rs as [|r rs IH]; intros Hex categories Hall.
  - by apply Exists_nil in Hex.
  - cbn [foldM].
    destruct (r !! "food") as [[s| |]|] eqn:Hs.
    + destruct (categorize_row_ok categories r s Hall Hs) as (mid & -> & Hmid).
      cbn [mbind result_bind]. apply IH; [|exact Hmid].
      apply Exists_cons in Hex as [Hr|Hrest]; [|exact Hrest].
      by destruct (Hr s).
    + exists AttributeError. unfold categorize_row, row_get. rewrite Hs.
      split; [reflexivity | by left].
    + exists AttributeError. unfold categorize_row, row_get. rewrite Hs.
      split; [reflexivity | by left].
    + exists (KeyError "food"). unfold categorize_row, row_get. rewrite Hs.
      split; [reflexivity | by right].
Qed.

(** X29.  The constructor succeeds exactly on the tables in which every
    row has a string in the column [food]; a single other row makes it raise
    [AttributeError] (or [KeyError] when the row has no such cell), so that
    no database is built. *)
Theorem the_constructor_needs_string_names (table : DataFrame) :
  ((exists catalog, FoodDatabase_init table = Ok catalog) <->
   Forall (fun r : row => exists s, r !! "food" = Some (Str s)) (rows table)) /\
  (Exists (fun r : row => forall s, r !! "food" <> Some (Str s)) (rows table) ->
   FoodDatabase_init table = Raise AttributeError \/
   FoodDatabase_init table = Raise (KeyError "food")).
Proof.
  split; [split|].
  - intros [catalog Hinit].
    by destruct (FoodDatabase_init_spec _ _ Hinit) as [_ [Hall _]].
  - intros Hall. unfold FoodDatabase_init, _categorize_food.
    cbn [food_data].
    destruct (foldM_categorize_row_ok _ Hall empty_categories) as [cats ->].
    + intros category. rewrite empty_categories_lookup. by eauto.
    + cbn [mbind result_bind]. by eauto.
  - intros Hex. unfold FoodDatabase_init, _categorize_food. cbn [food_data].
    destruct (foldM_categorize_row_fails _ Hex empty_categories)
      as (e & -> & [->| ->]).
    + intros category. rewrite empty_categories_lookup. by eauto.
    + by left.
    + by right.
Qed.

Lemma the_constructor_needs_string_names_witness :
  FoodDatabase_init (food_data nameless_db) = Raise AttributeError \/
  FoodDatabase_init (food_data nameless_db) = Raise (KeyError "food").
Proof.
  apply (the_constructor_needs_string_names (food_data nameless_db)).
  apply Exists_cons_tl, Exists_cons_hd. intros s. discriminate.
Defined.

(** ** More on doubles *)

Lemma digits_mul_pow2 (m : positive) (k : Z) :
  0 <= k -> forall p, Z.pos p = Z.pos m * 2 ^ k ->
  Z.pos (digits2_pos p) = Z.pos (digits2_pos m) + k.
Proof.
  intros Hk p Hp. rewrite !F64Facts.digits_log2, Hp.
  rewrite Z.log2_mul_pow2 by lia. lia.
Qed.

Lemma bounded_canonical (m : positive) (e : Z) :
  bounded prec emax m e = true ->
  fexp prec emax (Z.pos (digits2_pos m) + e) = e /\ (e <=? emax - prec) = true.
Proof.
  unfold bounded, canonical_mantissa. intros H.
  apply andb_true_iff in H as [H1 H2]. split; [lia | exact H2].
Qed.

(** Multiplying a double by 1.0 returns it. *)
Lemma mul_one_finite (s : bool) (m : positive) (e : Z) :
  bounded prec emax m e = true ->
  mul (S754_finite s m e) c1 = S754_finite s m e.
Proof.
  intros Hb. destruct (bounded_canonical m e Hb) as [Hcanon He].
  unfold mul, c1, SFmul. rewrite xorb_false_r.
  assert (Hd : Z.pos (digits2_pos (m * 4503599627370496)) =
               Z.pos (digits2_pos m) + 52).
  { apply digits_mul_pow2; [lia|]. rewrite Pos2Z.inj_mul. reflexivity. }
  assert (H1 : shr_fexp prec emax (Z.pos (m * 4503599627370496)) (e + -52)
                        loc_Exact =
               ({| shr_m := Z.pos m; shr_r := false; shr_s := false |}, e)).
  { unfold shr_fexp. cbn [Zdigits2]. rewrite Hd.
    replace (Z.pos (digits2_pos m) + 52 + (e + -52))
      with (Z.pos (digits2_pos m) + e) by lia.
    rewrite Hcanon. replace (e - (e + -52)) with 52 by lia.
    unfold shr. rewrite Pos.mul_comm. cbn. f_equal. lia. }
  assert (H2 : shr_fexp prec emax (Z.pos m) e loc_Exact =
               ({| shr_m := Z.pos m; shr_r := false; shr_s := false |}, e)).
  { unfold shr_fexp. cbn [Zdigits2]. rewrite Hcanon, Z.sub_diag. reflexivity. }
  unfold binary_round_aux. rewrite H1.
  cbn [shr_m loc_of_shr_record round_nearest_even]. rewrite H2.
  cbn [shr_m]. by rewrite He.
Qed.

Lemma mul_one (x : float) : valid_binary prec emax x = true -> mul x c1 = x.
Proof.
  destruct x as [[]|[]| |s m e]; try reflexivity.
  apply mul_one_finite.
Qed.

(** A finite value differs from itself by 0 percent, which is below 20. *)
Lemma pct_same (v : float) : finite v = true -> ltb (pct v v) c20 = true.
Proof.
  destruct v as [s|s| |s m e]; try discriminate; intros _.
  - by destruct s.
  - unfold pct.
    replace (eqb (S754_finite s m e) zero) with false by (by destruct s).
    cbn [andb negb]. unfold sub, SFsub. rewrite Z.sub_diag.
    by destruct s.
Qed.

(** ** The nutrient profile *)

(** Case distinction on the key of a lookup in a dictionary written as a
    sequence of insertions. *)
Ltac lookup_cases key tac :=
  repeat match goal with
         | |- context [(<[?k := _]> _) !! key] =>
             destruct (decide (key = k)) as [->|?];
             [ rewrite !lookup_insert_eq; tac
             | rewrite !lookup_insert_ne by done ]
         end.

(** The lookup raises [IndexError] for an unknown name and [KeyError] for a
    missing column, nothing else. *)
Lemma get_food_nutrition_raises (db : FoodDatabase) (name : string) (e : exn) :
  get_food_nutrition db name = Raise e ->
  e = IndexError \/ exists col, e = KeyError col.
Proof.
  unfold get_food_nutrition, frame_col.
  case_bool_decide as Hcol; cbn [mbind result_bind];
    [|intros Hr; inversion Hr; right; by eexists].
  destruct (List.filter _ _) as [|r rs]; [intros Hr; inversion Hr; by left|].
  case_bool_decide as Hempty; [discriminate|].
  destruct (food_of_row r) as [f|e'] eqn:Hf; [discriminate|].
  cbn [mbind result_bind]. intros Hr; inversion Hr; subst e'.
  right. by apply (food_of_row_raises r).
Qed.

Lemma get_nutrient_profile_inv (db : FoodDatabase) (food_name : string)
    (profile : gmap string cell) :
  get_nutrient_profile db food_name = Ok profile ->
  exists food,
    get_food_nutrition db food_name = Ok (Some food) /\
    profile =
    <["calories" := calories food]> (<["protein" := protein food]>
    (<["carbs" := carbs food]> (<["fat" := fat food]>
    (<["fiber" := fiber food]> (<["vitamin_c" := vitamin_c food]>
    (<["iron" := iron food]> (<["calcium" := calcium food]> ∅))))))).
Proof.
  unfold get_nutrient_profile. intros Hrun.
  apply bind_Ok in Hrun as [[food|] [Hget Hrun]].
  - exists food. split; [exact Hget | congruence].
  - by destruct (get_food_nutrition_not_None db food_name).
Qed.

(** X7.  [get_nutrient_profile] never returns the empty dictionary: when it
    returns, the profile holds the eight tracked nutrients of the record
    that the lookup finds, and for a name that matches no row it raises
    [IndexError]. *)
Theorem nutrient_profile_is_never_empty (db : FoodDatabase)
    (food_name : string) :
  (forall profile, get_nutrient_profile db food_name = Ok profile ->
     profile <> ∅ /\
     exists food,
       get_food_nutrition db food_name = Ok (Some food) /\
       forall key, profile !! key =
                   if bool_decide (key ∈ tracked.*1) then attr food key
                   else None) /\
  ("food" ∈ columns (food_data db) ->
   text_column (food_data db) "food" ->
   Forall (fun r => name_matches (lower food_name) r = false)
          (rows (food_data db)) ->
   get_nutrient_profile db food_name = Raise IndexError).
Proof.
  split.
  - intros profile Hrun.
    destruct (get_nutrient_profile_inv db food_name profile Hrun)
      as [food [Hget ->]].
    split; [apply insert_non_empty|].
    exists food. split; [exact Hget|]. intros key.
    lookup_cases key ltac:(reflexivity).
    rewrite lookup_empty, bool_decide_eq_false_2; [reflexivity|].
    unfold tracked. cbn [fmap list_fmap fst].
    rewrite !elem_of_cons, elem_of_nil. tauto.
  - intros Hcol _ Hno. unfold get_nutrient_profile.
    by rewrite (get_food_nutrition_absent db food_name Hcol Hno).
Qed.

Lemma nutrient_profile_is_never_empty_witness :
  (forall profile, get_nutrient_profile demo_db "Unicorn" = Ok profile ->
     profile <> ∅ /\
     exists food,
       get_food_nutrition demo_db "Unicorn" = Ok (Some food) /\
       forall key, profile !! key =
                   if bool_decide (key ∈ tracked.*1) then attr food key
                   else None) /\
  get_nutrient_profile demo_db "Unicorn" = Raise IndexError.
Proof.
  destruct (nutrient_profile_is_never_empty demo_db "Unicorn") as [H1 H2].
  split; [exact H1|]. apply H2.
  - vm_compute. repeat constructor.
  - right. apply Exists_cons_hd. by exists "Apple"%string.
  - repeat constructor.
Defined.

(** ** More on the aggregation *)

Lemma eqb_add_zero (x : float) : is_nan x = false -> eqb x (add zero x) = true.
Proof.
  destruct x as [[]|[]| |s m e]; try reflexivity; try discriminate.
  intros _. apply (F64Facts.eqb_refl (S754_finite s m e)). reflexivity.
Qed.

Lemma finite_valid (x : float) : finite x = true -> valid_binary prec emax x = true.
Proof. by destruct x. Qed.

Lemma finite_is_not_nan (x : float) : finite x = true -> is_nan x = false.
Proof. by destruct x. Qed.

(** The total of one 100 g portion compares equal to the value. *)
Lemma portion_of_100_g (c : cell) :
  finite_cell c = true ->
  cell_eq_num c (add zero (mul (value c) (div (of_Z 100) c100))) = true.
Proof.
  intros Hc. apply andb_prop in Hc as [Hnum Hfin].
  rewrite (cell_eq_num_value _ _ Hnum).
  change (div (of_Z 100) c100) with c1.
  rewrite (mul_one _ (finite_valid _ Hfin)).
  apply eqb_add_zero, finite_is_not_nan, Hfin.
Qed.

(** X8.  Aggregating a single portion of 100 g of a food yields its nutrient
    profile: for each of the eight nutrients the total compares equal
    ([==]) to the value of the profile, when the values are finite
    numbers. *)
Theorem a_portion_of_100_g_totals_to_the_profile (db : FoodDatabase)
    (name : string) (food : FoodNutrient) :
  get_food_nutrition db name = Ok (Some food) ->
  Forall (fun kf : string * (FoodNutrient -> cell) =>
            finite_cell (kf.2 food) = true) tracked ->
  exists profile totals,
    get_nutrient_profile db name = Ok profile /\
    analyze_daily_intake db [name] [of_Z 100] = Ok totals /\
    Forall (fun kf : string * (FoodNutrient -> cell) =>
              exists c x, profile !! kf.1 = Some c /\
                          totals !! kf.1 = Some x /\
                          cell_eq_num c x = true) tracked.
Proof.
  intros Hget Hfin.
  assert (Hknown : Forall2 (known db) [(name, of_Z 100)] [food]).
  { constructor; [|constructor]. split; [exact Hget|].
    eapply Forall_impl; [exact Hfin|]. intros kf. apply finite_cell_numeric. }
  pose proof (analyze_known db [(name, of_Z 100)] [food] Hknown) as Hrun.
  change ([(name, of_Z 100)].*1) with [name] in Hrun.
  change ([(name, of_Z 100)].*2) with [of_Z 100] in Hrun.
  eexists _, _. split; [|split; [exact Hrun|]].
  { unfold get_nutrient_profile. rewrite Hget. reflexivity. }
  unfold tracked in Hfin |- *.
  repeat match goal with
         | H : Forall _ (_ :: _) |- _ => apply Forall_cons in H as [? H]
         end.
  repeat (constructor;
          [eexists _, _; split; [reflexivity|]; split; [reflexivity|];
           by apply portion_of_100_g|]).
  constructor.
Qed.

Lemma a_portion_of_100_g_totals_to_the_profile_witness :
  exists profile totals,
    get_nutrient_profile demo_db "Apple" = Ok profile /\
    analyze_daily_intake demo_db ["Apple"] [of_Z 100] = Ok totals /\
    Forall (fun kf : string * (FoodNutrient -> cell) =>
              exists c x, profile !! kf.1 = Some c /\
                          totals !! kf.1 = Some x /\
                          cell_eq_num c x = true) tracked.
Proof.
  apply (a_portion_of_100_g_totals_to_the_profile demo_db "Apple"
           (record_of apple)).
  - reflexivity.
  - repeat constructor.
Defined.

Lemma combine_app_l {A B} (l extra : list A) (l' : list B) :
  length l = length l' -> combine (l ++ extra) l' = combine l l'.
Proof.
  revert l'. induction l as [|a l IH]; intros [|b l'] Hlen;
    try discriminate; simpl.
  - by destruct extra.
  - f_equal. apply IH. by inversion Hlen.
Qed.

Lemma combine_app_r {A B} (l : list A) (l' extra : list B) :
  length l = length l' -> combine l (l' ++ extra) = combine l l'.
Proof.
  revert l'. induction l as [|a l IH]; intros [|b l'] Hlen;
    try discriminate; simpl; [reflexivity|].
  f_equal. apply IH. by inversion Hlen.
Qed.

(** X9.  The aggregation pairs foods with quantities as [zip] does: what
    one list has in surplus is ignored, without being looked up. *)
Theorem surplus_entries_are_ignored (db : FoodDatabase)
    (consumed_foods : list string) (quantities : list float)
    (more_foods : list string) (more_quantities : list float) :
  length consumed_foods = length quantities ->
  analyze_daily_intake db (consumed_foods ++ more_foods) quantities =
  analyze_daily_intake db consumed_foods quantities /\
  analyze_daily_intake db consumed_foods (quantities ++ more_quantities) =
  analyze_daily_intake db consumed_foods quantities.
Proof.
  intros Hlen. unfold analyze_daily_intake.
  by rewrite (combine_app_l _ _ _ Hlen), (combine_app_r _ _ _ Hlen).
Qed.

Lemma surplus_entries_are_ignored_witness :
  analyze_daily_intake demo_db (["Apple"] ++ ["Unicorn"]) [of_Z 200] =
  analyze_daily_intake demo_db ["Apple"] [of_Z 200] /\
  analyze_daily_intake demo_db ["Apple"] ([of_Z 200] ++ [of_Z 50]) =
  analyze_daily_intake demo_db ["Apple"] [of_Z 200].
Proof.
  apply (surplus_entries_are_ignored demo_db ["Apple"] [of_Z 200]).
  reflexivity.
Defined.

Lemma accumulate_keys (key : string) (c : cell) (s : float)
    (t t' : gmap string float) :
  accumulate key c s t = Ok t' ->
  forall k, is_Some (t' !! k) <-> is_Some (t !! k).
Proof.
  unfold accumulate, dict_get. intros Hrun k.
  destruct (t !! key) as [cur|] eqn:Hcur; [|discriminate].
  cbn [mbind result_bind] in Hrun.
  destruct (num c) as [v|]; [|discriminate].
  inversion Hrun; subst t'.
  destruct (decide (k = key)) as [->|Hne].
  - rewrite lookup_insert_eq, Hcur. split; eauto.
  - by rewrite lookup_insert_ne.
Qed.

Lemma add_entry_keys (db : FoodDatabase) (t t' : gmap string float)
    (entry : string * float) :
  add_entry db t entry = Ok t' ->
  forall k, is_Some (t' !! k) <-> is_Some (t !! k).
Proof.
  destruct entry as [name q]. unfold add_entry. intros Hrun.
  apply bind_Ok in Hrun as [[n|] [_ Hrun]]; [|by inversion Hrun].
  cbn beta iota zeta in Hrun.
  do 7 (let Hacc := fresh "Hacc" in
        apply bind_Ok in Hrun as [? [Hacc Hrun]];
        pose proof (accumulate_keys _ _ _ _ _ Hacc); clear Hacc).
  pose proof (accumulate_keys _ _ _ _ _ Hrun) as Hlast.
  intros k. rewrite Hlast.
  repeat match goal with
         | H : forall k, is_Some (?a !! k) <-> _ |- is_Some (?a !! _) <-> _ =>
             rewrite H
         end.
  reflexivity.
Qed.

(** X10.  Whatever is eaten, a successful aggregation returns the eight
    tracked nutrients and no other key. *)
Theorem totals_have_the_tracked_nutrients (db : FoodDatabase)
    (consumed_foods : list string) (quantities : list float)
    (totals : gmap string float) :
  analyze_daily_intake db consumed_foods quantities = Ok totals ->
  forall key, is_Some (totals !! key) <-> key ∈ tracked.*1.
Proof.
  unfold analyze_daily_intake.
  apply (foldM_inv (fun t => forall key, is_Some (t !! key) <-> key ∈ tracked.*1)).
  - intros t entry t' _ Ht Hstep key.
    by rewrite (add_entry_keys db t t' entry Hstep key).
  - intros key. unfold empty_totals, tracked. cbn [fmap list_fmap fst].
    lookup_cases key
      ltac:(split; [intros _|by eauto]; rewrite !elem_of_cons; tauto).
    rewrite lookup_empty, !elem_of_cons, elem_of_nil.
    split; [by intros [? ?] | tauto].
Qed.

Lemma totals_have_the_tracked_nutrients_witness :
  analyze_daily_intake pantry_db ["Apple"] [of_Z 100] = Ok apple_totals /\
  forall key, is_Some (apple_totals !! key) <-> key ∈ tracked.*1.
Proof.
  split; [reflexivity|].
  apply (totals_have_the_tracked_nutrients pantry_db ["Apple"] [of_Z 100]).
  reflexivity.
Defined.

(** ** More on the comparison *)

Lemma num_raises (c : cell) (e : exn) : num c = Raise e -> e = TypeError.
Proof. destruct c as [s|x|b]; simpl; congruence. Qed.

Lemma num_ok_numeric (c : cell) (x : float) : num c = Ok x -> numeric c = true.
Proof. destruct c as [s|x'|b]; simpl; congruence. Qed.

(** The percentage raises for a string only: the division is guarded. *)
Lemma diff_percent_raises (value1 value2 : cell) (e : exn) :
  diff_percent value1 value2 = Raise e -> e = TypeError.
Proof.
  unfold diff_percent, py_div.
  destruct (cell_eq_num value1 zero && cell_eq_num value2 zero); [discriminate|].
  destruct (cell_eq_num value2 zero) eqn:Hz; [discriminate|].
  cbn [negb].
  destruct (num value1) as [a|e1] eqn:H1; cbn [mbind result_bind];
    [|intros H; inversion H; subst; by apply (num_raises value1)].
  destruct (num value2) as [b|e2] eqn:H2; cbn [mbind result_bind];
    [|intros H; inversion H; subst; by apply (num_raises value2)].
  assert (Hb : eqb b zero = false).
  { rewrite <- Hz. symmetry. rewrite cell_eq_num_value by
      exact (num_ok_numeric _ _ H2).
    f_equal. destruct value2; simpl in *; congruence. }
  rewrite Hb. discriminate.
Qed.

Lemma compare_nutrient_raises (food1 food2 : string) (n1 n2 : FoodNutrient)
    (acc : gmap string NutrientComparison) (nutrient : string) (e : exn) :
  compare_nutrient food1 food2 n1 n2 acc nutrient = Raise e -> e = TypeError.
Proof.
  unfold compare_nutrient.
  destruct (diff_percent _ _) as [p|e0] eqn:Hp; cbn [mbind result_bind];
    [|intros H; inversion H; subst; by apply (diff_percent_raises _ _ _ Hp)].
  destruct (num (getattr n1 nutrient)) as [a|e1] eqn:H1;
    cbn [mbind result_bind];
    [|intros H; inversion H; subst; by apply (num_raises _ _ H1)].
  destruct (num (getattr n2 nutrient)) as [b|e2] eqn:H2;
    cbn [mbind result_bind];
    [|intros H; inversion H; subst; by apply (num_raises _ _ H2)].
  discriminate.
Qed.

Lemma compare_nutrient_ok (food1 food2 : string) (n1 n2 : FoodNutrient)
    (acc acc' : gmap string NutrientComparison) (nutrient : string) :
  compare_nutrient food1 food2 n1 n2 acc nutrient = Ok acc' ->
  numeric (getattr n1 nutrient) = true /\ numeric (getattr n2 nutrient) = true.
Proof.
  unfold compare_nutrient. intros Hrun.
  apply bind_Ok in Hrun as [p [_ Hrun]].
  apply bind_Ok in Hrun as [a [Ha Hrun]].
  apply bind_Ok in Hrun as [b [Hb _]].
  split; [exact (num_ok_numeric _ _ Ha) | exact (num_ok_numeric _ _ Hb)].
Qed.

Lemma foldM_compare_nutrient_ok (food1 food2 : string) (n1 n2 : FoodNutrient)
    (nutrients : list string) :
  forall acc c,
    foldM (compare_nutrient food1 food2 n1 n2) nutrients acc = Ok c ->
    Forall (fun n => numeric (getattr n1 n) = true /\
                     numeric (getattr n2 n) = true) nutrients.
Proof.
  induction nutrients as [|n ns IH]; intros acc c Hrun; [constructor|].
  cbn [foldM] in Hrun. apply bind_Ok in Hrun as [acc' [Hstep Hrest]].
  constructor; [exact (compare_nutrient_ok _ _ _ _ _ _ _ Hstep)|].
  exact (IH acc' c Hrest).
Qed.

(** X11.  On a table whose names are text, [compare_foods] raises
    [IndexError] for an unknown food, [KeyError] for a missing column and
    [TypeError] for a value that is not a number: its own [ValueError] is
    never raised, and it never divides by zero. *)
Theorem compare_foods_never_raises_ValueError (db : FoodDatabase)
    (food1 food2 : string) (nutrients : option (list string)) (e : exn) :
  text_column (food_data db) "food" ->
  compare_foods db food1 food2 nutrients = Raise e ->
  e = IndexError \/ (exists col, e = KeyError col) \/ e = TypeError.
Proof.
  intros _. unfold compare_foods.
  destruct (get_food_nutrition db food1) as [[n1|]|e1] eqn:H1;
    cbn [mbind result_bind].
  - destruct (get_food_nutrition db food2) as [[n2|]|e2] eqn:H2;
      cbn [mbind result_bind].
    + destruct (foldM _ _ _) as [c|e0] eqn:Hc; cbn [mbind result_bind];
        [discriminate|].
      intros H; inversion H; subst e0. right. right.
      revert Hc. apply (foldM_raises (fun e => e = TypeError)).
      intros acc n e' _. apply compare_nutrient_raises.
    + by destruct (get_food_nutrition_not_None db food2).
    + intros H; inversion H; subst e2.
      destruct (get_food_nutrition_raises db food2 e H2); tauto.
  - by destruct (get_food_nutrition_not_None db food1).
  - intros H; inversion H; subst e1.
    destruct (get_food_nutrition_raises db food1 e H1); tauto.
Qed.

Lemma compare_foods_never_raises_ValueError_witness :
  compare_foods demo_db "Apple" "Unicorn" None = Raise IndexError /\
  (IndexError = IndexError \/ (exists col, IndexError = KeyError col) \/
   IndexError = TypeError).
Proof.
  split; [reflexivity|].
  apply (compare_foods_never_raises_ValueError demo_db "Apple" "Unicorn" None).
  - right. apply Exists_cons_hd. by exists "Apple"%string.
  - reflexivity.
Defined.

(** The attribute names are those of the record, whatever its fields hold. *)
Lemma attr_None (f f' : FoodNutrient) (a : string) :
  attr f a = None -> attr f' a = None.
Proof.
  unfold attr.
  repeat (case_bool_decide; [discriminate|]). reflexivity.
Qed.

(** What [compare_foods] has done when it returns. *)
Lemma compare_foods_inv (db : FoodDatabase) (first second : string)
    (nutrients : option (list string)) (c : Comparison) :
  compare_foods db first second nutrients = Ok c ->
  exists n1 n2,
    get_food_nutrition db first = Ok (Some n1) /\
    get_food_nutrition db second = Ok (Some n2) /\
    food1 c = first /\ food2 c = second /\
    forall n, comparison c !! n =
              if bool_decide (n ∈ default default_nutrients nutrients)
              then Some (comparison_entry first second n1 n2 n)
              else None.
Proof.
  unfold compare_foods. intros Hrun.
  apply bind_Ok in Hrun as [[n1|] [H1 Hrun]];
    [|by destruct (get_food_nutrition_not_None db first)].
  apply bind_Ok in Hrun as [[n2|] [H2 Hrun]];
    [|by destruct (get_food_nutrition_not_None db second)].
  apply bind_Ok in Hrun as [entries [He Hrun]].
  inversion Hrun; subst c. cbn [food1 food2 comparison].
  pose proof (foldM_compare_nutrient_ok _ _ _ _ _ _ _ He) as Hnum.
  destruct (foldM_compare_nutrient first second n1 n2 _ Hnum ∅)
    as (entries' & He' & Hlook).
  rewrite He in He'. inversion He'; subst entries'.
  exists n1, n2. repeat split; try done.
Qed.

(** X12.  Whenever [compare_foods] returns, the comparison names the two
    foods as they were given and has an entry for exactly the requested
    nutrients; a requested name that is no attribute of the record is
    compared as 0 against 0 and names the second food. *)
Theorem comparison_has_the_requested_nutrients (db : FoodDatabase)
    (first second : string) (nutrients : option (list string))
    (c : Comparison) :
  compare_foods db first second nutrients = Ok c ->
  food1 c = first /\ food2 c = second /\
  (forall n, is_Some (comparison c !! n) <->
             n ∈ default default_nutrients nutrients) /\
  (forall n, n ∈ default default_nutrients nutrients ->
     attr blank_food n = None ->
     comparison c !! n =
     Some {| food1_value := Num zero; food2_value := Num zero;
             difference := zero; percentage_diff := zero;
             better_food := second |}).
Proof.
  intros Hrun.
  destruct (compare_foods_inv _ _ _ _ _ Hrun)
    as (n1 & n2 & _ & _ & Hf1 & Hf2 & Hlook).
  split; [exact Hf1|]. split; [exact Hf2|]. split.
  - intros n. rewrite Hlook. case_bool_decide as Hin.
    + split; [done | by eauto].
    + split; [by intros [? ?] | done].
  - intros n Hin Hattr. rewrite Hlook, bool_decide_eq_true_2 by done.
    unfold comparison_entry, getattr.
    rewrite (attr_None blank_food n1 n Hattr),
            (attr_None blank_food n2 n Hattr).
    reflexivity.
Qed.

Lemma comparison_has_the_requested_nutrients_witness :
  let c := result_default {| food1 := ""; food2 := ""; comparison := ∅ |}
             (compare_foods demo_db "apple" "BANANA" (Some ["sugar"; "fat"])) in
  food1 c = "apple" /\ food2 c = "BANANA" /\
  (forall n, is_Some (comparison c !! n) <->
             n ∈ default default_nutrients (Some ["sugar"; "fat"])) /\
  (forall n, n ∈ default default_nutrients (Some ["sugar"; "fat"]) ->
     attr blank_food n = None ->
     comparison c !! n =
     Some {| food1_value := Num zero; food2_value := Num zero;
             difference := zero; percentage_diff := zero;
             better_food := "BANANA" |}).
Proof.
  apply (comparison_has_the_requested_nutrients demo_db "apple" "BANANA"
           (Some ["sugar"; "fat"])).
  reflexivity.
Defined.

(** ** More on similar foods *)

(** X13.  The ranking reads the name of a row from the column [food_name],
    the lookup from the column [food]: on a table whose rows have no
    [food_name], looking for the neighbours of any food that the lookup finds
    raises [KeyError]. *)
Theorem similar_foods_need_the_column_food_name (db : FoodDatabase)
    (name : string) (target_nutrition : FoodNutrient) (max_results : Z) :
  get_food_nutrition db name = Ok (Some target_nutrition) ->
  Forall (fun r : row => r !! "food_name" = None) (rows (food_data db)) ->
  find_similar_foods db name None max_results = Raise (KeyError "food_name").
Proof.
  intros Hget Hno. unfold find_similar_foods. rewrite Hget.
  cbn [mbind result_bind].
  destruct (rows (food_data db)) as [|r rs] eqn:Hrows.
  - exfalso. unfold get_food_nutrition in Hget. rewrite Hrows in Hget.
    destruct (frame_col (food_data db) "food"); discriminate.
  - apply Forall_cons in Hno as [Hr _].
    cbn [foldM].
    assert (Hstep : similarity_step name target_nutrition [] r =
                    Raise (KeyError "food_name")).
    { unfold similarity_step, row_get. by rewrite Hr. }
    by rewrite Hstep.
Qed.

Lemma similar_foods_need_the_column_food_name_witness :
  find_similar_foods
    {| food_data := {| columns := ["food"];
                       rows := [delete "food_name" apple] |} |}
    "Apple" None 5 = Raise (KeyError "food_name").
Proof.
  apply (similar_foods_need_the_column_food_name _ "Apple" (record_of apple)).
  - reflexivity.
  - repeat constructor.
Defined.

(** ** More on the recommender *)

(** X14.  The recommender needs the five entries of the profile: although
    it reads them with defaults first, a profile that lacks one of them
    makes it raise [KeyError] for a missing entry. *)
Theorem incomplete_profile_raises_KeyError (db : FoodDatabase)
    (user_profile : gmap string cell) (current_intake : list IntakeItem)
    (dietary_restrictions : option (list string)) (num_recommendations : Z)
    (totals : gmap string float) :
  analyze_daily_intake db (map food current_intake)
                       (map quantity current_intake) = Ok totals ->
  Exists (fun key => user_profile !! key = None) profile_keys ->
  exists key,
    key ∈ profile_keys /\ user_profile !! key = None /\
    get_personalized_recommendations db user_profile current_intake
      dietary_restrictions num_recommendations = Raise (KeyError key).
Proof.
  intros Htot Hex. unfold get_personalized_recommendations.
  rewrite Htot. cbn [mbind result_bind].
  unfold _calculate_nutritional_gaps, profile_get, profile_keys in *.
  destruct (user_profile !! "age") eqn:H1; cbn [mbind result_bind];
    [|exists "age"; rewrite !elem_of_cons; tauto].
  destruct (user_profile !! "weight") eqn:H2; cbn [mbind result_bind];
    [|exists "weight"; rewrite !elem_of_cons; tauto].
  destruct (user_profile !! "height") eqn:H3; cbn [mbind result_bind];
    [|exists "height"; rewrite !elem_of_cons; tauto].
  destruct (user_profile !! "gender") eqn:H4; cbn [mbind result_bind];
    [|exists "gender"; rewrite !elem_of_cons; tauto].
  destruct (user_profile !! "activity_level") eqn:H5; cbn [mbind result_bind];
    [|exists "activity_level"; rewrite !elem_of_cons; tauto].
  exfalso. rewrite !Exists_cons, Exists_nil in Hex.
  destruct Hex as [?|[?|[?|[?|[?|[]]]]]]; congruence.
Qed.

Lemma incomplete_profile_raises_KeyError_witness :
  exists key,
    key ∈ profile_keys /\ app_profile !! key = None /\
    get_personalized_recommendations pantry_db app_profile apple_intake None 5 =
    Raise (KeyError key).
Proof.
  apply (incomplete_profile_raises_KeyError pantry_db app_profile apple_intake
           None 5 apple_totals).
  - reflexivity.
  - repeat first [apply Exists_cons_hd; reflexivity | apply Exists_cons_tl].
Defined.

(** When no gap is open no ratio is collected. *)
Lemma gap_ratios_closed (r : row) (gaps : list (string * float)) :
  Forall (fun gap : string * float => ltb zero gap.2 = false) gaps ->
  forall scores, foldM (fun scores '(nutrient, gap) =>
                          if ltb zero gap then
                            value ← num (row_get_default r nutrient);
                            if ltb zero value then
                              q ← py_div value gap; Ok (scores ++ [q])
                            else Ok scores
                          else Ok scores) gaps scores = Ok scores.
Proof.
  induction 1 as [|[nutrient gap] gaps Hgap _ IH]; intros scores;
    [reflexivity|].
  cbn [foldM]. simpl in Hgap. rewrite Hgap. cbn [mbind result_bind].
  apply IH.
Qed.

Lemma addresses_closed (r : row) (gaps : list (string * float)) :
  Forall (fun gap : string * float => ltb zero gap.2 = false) gaps ->
  _addresses_nutritional_gaps r gaps = Ok false.
Proof.
  intros H. unfold _addresses_nutritional_gaps, gap_ratios.
  by rewrite (gap_ratios_closed r gaps H []).
Qed.

Lemma collect_candidates_closed (db : FoodDatabase)
    (gaps : list (string * float)) (current_intake : list IntakeItem)
    (num_recommendations : Z) (candidates recommended_foods : list row) :
  Forall (fun gap : string * float => ltb zero gap.2 = false) gaps ->
  collect_candidates db gaps current_intake num_recommendations candidates
                     recommended_foods = Ok recommended_foods.
Proof.
  intros H. induction candidates as [|r rest IH]; [reflexivity|].
  cbn [collect_candidates]. rewrite (addresses_closed r gaps H).
  cbn [mbind result_bind negb]. exact IH.
Qed.

Lemma slice_to_nil {A} (k : Z) : slice_to k (@nil A) = [].
Proof. unfold slice_to. destruct (0 <=? k); by rewrite firstn_nil. Qed.

(** A restriction keeps the columns of the frame. *)
Lemma apply_restriction_columns (all_foods filtered : DataFrame)
    (restriction : string) :
  apply_restriction all_foods restriction = Ok filtered ->
  columns filtered = columns all_foods.
Proof.
  unfold apply_restriction. repeat case_bool_decide.
  all: try (intros Hrun; apply bind_Ok in Hrun as [? [_ Hrun]];
            inversion Hrun; reflexivity).
  intros Hrun; by inversion Hrun.
Qed.

(** The filters run on a table that has the columns they read. *)
Lemma foldM_apply_restriction_ok (restrictions : list string) :
  forall all_foods,
    ("gluten-free" ∈ restrictions -> "gluten_free" ∈ columns all_foods) ->
    ("vegan" ∈ restrictions \/ "dairy-free" ∈ restrictions ->
     "category" ∈ columns all_foods) ->
    exists filtered, foldM apply_restriction restrictions all_foods = Ok filtered.
Proof.
  induction restrictions as [|x xs IH]; intros all_foods Hg Hc.
  - by eexists.
  - cbn [foldM].
    assert (Hstep : exists mid, apply_restriction all_foods x = Ok mid).
    { unfold apply_restriction. case_bool_decide as Hx1.
      { subst x. rewrite frame_col_ok; [by eexists|]. apply Hg. left. }
      case_bool_decide as Hx2.
      { subst x. rewrite frame_col_ok; [by eexists|]. apply Hc. left. left. }
      case_bool_decide as Hx3.
      { subst x. rewrite frame_col_ok; [by eexists|]. apply Hc. right. left. }
      by eexists. }
    destruct Hstep as [mid Hmid]. rewrite Hmid. cbn [mbind result_bind].
    apply IH; rewrite (apply_restriction_columns _ _ _ Hmid).
    + intros Hin. apply Hg. by right.
    + intros [Hin|Hin]; apply Hc; [left|right]; by right.
Qed.

(** A filter raises only for a column that it reads and the table lacks. *)
Lemma foldM_apply_restriction_raises (restrictions : list string) :
  forall all_foods e,
    foldM apply_restriction restrictions all_foods = Raise e ->
    (e = KeyError "gluten_free" /\ "gluten-free" ∈ restrictions /\
     "gluten_free" ∉ columns all_foods) \/
    (e = KeyError "category" /\
     ("vegan" ∈ restrictions \/ "dairy-free" ∈ restrictions) /\
     "category" ∉ columns all_foods).
Proof.
  induction restrictions as [|x xs IH]; intros all_foods e Hrun;
    [discriminate|].
  cbn [foldM] in Hrun.
  destruct (apply_restriction all_foods x) as [mid|e'] eqn:Hstep.
  - cbn [mbind result_bind] in Hrun.
    rewrite <- (apply_restriction_columns _ _ _ Hstep).
    destruct (IH mid e Hrun) as [(-> & Hin & Hcol)|(-> & Hin & Hcol)].
    + left. repeat split; [by right | exact Hcol].
    + right. repeat split; [|exact Hcol].
      destruct Hin; [left|right]; by right.
  - cbn [mbind result_bind] in Hrun. inversion Hrun; subst e'. clear Hrun.
    unfold apply_restriction, frame_col in Hstep.
    case_bool_decide as Hx1.
    { subst x. case_bool_decide as Hcol; [discriminate|].
      inversion Hstep. left. repeat split; [left | exact Hcol]. }
    case_bool_decide as Hx2.
    { subst x. case_bool_decide as Hcol; [discriminate|].
      inversion Hstep. right. repeat split; [left; left | exact Hcol]. }
    case_bool_decide as Hx3; [|discriminate].
    subst x. case_bool_decide as Hcol; [discriminate|].
    inversion Hstep. right. repeat split; [right; left | exact Hcol].
Qed.

(** With every gap closed the candidate loop keeps nothing: what remains of
    the recommender is the run of the filters. *)
Lemma closed_gaps_leave_the_filters (db : FoodDatabase)
    (user_profile : gmap string cell) (current_intake : list IntakeItem)
    (dietary_restrictions : option (list string)) (num_recommendations : Z)
    (totals : gmap string float) (gaps : list (string * float)) :
  analyze_daily_intake db (map food current_intake)
                       (map quantity current_intake) = Ok totals ->
  _calculate_nutritional_gaps totals user_profile = Ok gaps ->
  Forall (fun gap : string * float => ltb zero gap.2 = false) gaps ->
  get_personalized_recommendations db user_profile current_intake
    dietary_restrictions num_recommendations =
  (foldM apply_restriction (default [] dietary_restrictions) (food_data db)
     ≫= fun _ => Ok []).
Proof.
  intros Htot Hgaps Hclosed. unfold get_personalized_recommendations.
  rewrite Htot. cbn [mbind result_bind]. rewrite Hgaps.
  cbn [mbind result_bind].
  destruct (foldM apply_restriction (default [] dietary_restrictions)
                  (food_data db)) as [all_foods|e]; [|reflexivity].
  cbn [mbind result_bind].
  rewrite (collect_candidates_closed _ _ _ _ _ _ Hclosed).
  cbn [mbind result_bind]. unfold sort_by_gap_score.
  cbn [mapM_result mbind result_bind combine].
  change (py_sort_reverse fst (@nil (float * row))) with (@nil (float * row)).
  cbn [map]. by rewrite slice_to_nil.
Qed.

(** X15.  When the intake leaves no gap open (none of the three gaps is
    above zero), the recommender never returns a food, whatever the rows of
    the table and the requested number.  It returns the empty list when the
    table has the columns that the requested restrictions filter on
    ([gluten_free] for [gluten-free], [category] for [vegan] and
    [dairy-free]), so always when no restriction is given; otherwise it
    raises the [KeyError] of the missing column. *)
Theorem nothing_is_recommended_when_no_gap_is_open (db : FoodDatabase)
    (user_profile : gmap string cell) (current_intake : list IntakeItem)
    (dietary_restrictions : option (list string)) (num_recommendations : Z)
    (totals : gmap string float) (gaps : list (string * float)) :
  analyze_daily_intake db (map food current_intake)
                       (map quantity current_intake) = Ok totals ->
  _calculate_nutritional_gaps totals user_profile = Ok gaps ->
  Forall (fun gap : string * float => ltb zero gap.2 = false) gaps ->
  (forall recommendations,
     get_personalized_recommendations db user_profile current_intake
       dietary_restrictions num_recommendations = Ok recommendations ->
     recommendations = []) /\
  (("gluten-free" ∈ default [] dietary_restrictions ->
    "gluten_free" ∈ columns (food_data db)) ->
   ("vegan" ∈ default [] dietary_restrictions \/
    "dairy-free" ∈ default [] dietary_restrictions ->
    "category" ∈ columns (food_data db)) ->
   get_personalized_recommendations db user_profile current_intake
     dietary_restrictions num_recommendations = Ok []) /\
  (forall e,
     get_personalized_recommendations db user_profile current_intake
       dietary_restrictions num_recommendations = Raise e ->
     (e = KeyError "gluten_free" /\
      "gluten-free" ∈ default [] dietary_restrictions /\
      "gluten_free" ∉ columns (food_data db)) \/
     (e = KeyError "category" /\
      ("vegan" ∈ default [] dietary_restrictions \/
       "dairy-free" ∈ default [] dietary_restrictions) /\
      "category" ∉ columns (food_data db))).
Proof.
  intros Htot Hgaps Hclosed.
  rewrite (closed_gaps_leave_the_filters db user_profile current_intake
             dietary_restrictions num_recommendations totals gaps
             Htot Hgaps Hclosed).
  split; [|split].
  - intros recommendations Hrun. apply bind_Ok in Hrun as [? [_ Hrun]].
    by inversion Hrun.
  - intros Hg Hc.
    destruct (foldM_apply_restriction_ok _ (food_data db) Hg Hc) as [f ->].
    reflexivity.
  - intros e Hrun.
    destruct (foldM apply_restriction (default [] dietary_restrictions)
                    (food_data db)) as [f|e'] eqn:Hf; [discriminate|].
    cbn [mbind result_bind] in Hrun. inversion Hrun; subst e'.
    by apply foldM_apply_restriction_raises.
Qed.

Lemma nothing_is_recommended_when_no_gap_is_open_witness :
  get_personalized_recommendations pantry_db demo_profile lentil_feast
    (Some ["vegan"]) 5 = Ok [] /\
  get_personalized_recommendations pantry_db demo_profile lentil_feast
    (Some ["gluten-free"]) 5 = Raise (KeyError "gluten_free") /\
  ((KeyError "gluten_free" = KeyError "gluten_free" /\
    "gluten-free" ∈ default [] (Some ["gluten-free"]) /\
    "gluten_free" ∉ columns (food_data pantry_db)) \/
   (KeyError "gluten_free" = KeyError "category" /\
    ("vegan" ∈ default [] (Some ["gluten-free"]) \/
     "dairy-free" ∈ default [] (Some ["gluten-free"])) /\
    "category" ∉ columns (food_data pantry_db))).
Proof.
  pose proof (fun restrictions =>
    nothing_is_recommended_when_no_gap_is_open pantry_db demo_profile
      lentil_feast restrictions 5
      (result_default ∅ (analyze_daily_intake pantry_db ["Lentils"]
                                              [of_Z 3000]))
      (result_default [] (_calculate_nutritional_gaps
         (result_default ∅ (analyze_daily_intake pantry_db ["Lentils"]
                                                 [of_Z 3000]))
         demo_profile))
      eq_refl eq_refl ltac:(repeat constructor)) as H.
  split; [|split].
  - apply (H (Some ["vegan"])).
    + intros Hin. apply list_elem_of_singleton in Hin. discriminate Hin.
    + intros _.
      apply (bool_decide_eq_true_1
               ("category" ∈ columns (food_data pantry_db))).
      reflexivity.
  - reflexivity.
  - apply (H (Some ["gluten-free"])). reflexivity.
Defined.

(** *** What a returned recommendation went through *)

Lemma apply_restriction_rows (all_foods filtered : DataFrame)
    (restriction : string) :
  apply_restriction all_foods restriction = Ok filtered ->
  rows filtered = List.filter (passes restriction) (rows all_foods).
Proof.
  unfold apply_restriction, passes.
  repeat case_bool_decide.
  all: try (intros Hrun; apply bind_Ok in Hrun as [? [_ Hrun]];
            inversion Hrun; reflexivity).
  intros Hrun; inversion Hrun; subst.
  induction (rows filtered) as [|r l IH]; [reflexivity|].
  cbn [List.filter]. by rewrite <- IH.
Qed.

Lemma foldM_apply_restriction (restrictions : list string) :
  forall all_foods filtered,
    foldM apply_restriction restrictions all_foods = Ok filtered ->
    forall r, r ∈ rows filtered ->
      r ∈ rows all_foods /\
      forall restriction, restriction ∈ restrictions ->
                          passes restriction r = true.
Proof.
  induction restrictions as [|x xs IH]; intros all_foods filtered Hrun r Hr.
  - inversion Hrun; subst. split; [exact Hr|].
    intros restriction Hin. by apply elem_of_nil in Hin.
  - cbn [foldM] in Hrun. apply bind_Ok in Hrun as [mid [Hstep Hrest]].
    destruct (IH mid filtered Hrest r Hr) as [Hmid Hpass].
    rewrite (apply_restriction_rows _ _ _ Hstep) in Hmid.
    apply list_elem_of_In, filter_In in Hmid as [Hin Hx].
    split; [by apply list_elem_of_In|].
    intros restriction Hres. apply elem_of_cons in Hres as [->|Hres];
      [exact Hx | by apply Hpass].
Qed.

Lemma collect_candidates_inv (db : FoodDatabase) (gaps : list (string * float))
    (current_intake : list IntakeItem) (num_recommendations : Z)
    (candidates : list row) :
  forall recommended_foods kept,
    collect_candidates db gaps current_intake num_recommendations candidates
                       recommended_foods = Ok kept ->
    forall r, r ∈ kept ->
      r ∈ recommended_foods \/
      (r ∈ candidates /\
       _addresses_nutritional_gaps r gaps = Ok true /\
       _is_similar_to_current_intake db r current_intake = Ok false).
Proof.
  induction candidates as [|c rest IH]; intros acc kept Hrun r Hr.
  - inversion Hrun; subst. by left.
  - cbn [collect_candidates] in Hrun.
    apply bind_Ok in Hrun as [a [Ha Hrun]].
    destruct a; cbn [negb] in Hrun.
    2:{ destruct (IH acc kept Hrun r Hr) as [?|[? ?]]; [by left|].
        right. split; [by apply list_elem_of_further | done]. }
    apply bind_Ok in Hrun as [s [Hs Hrun]].
    destruct s.
    { destruct (IH acc kept Hrun r Hr) as [?|[? ?]]; [by left|].
      right. split; [by apply list_elem_of_further | done]. }
    assert (Hnew : r ∈ acc ++ [c] ->
                   r ∈ acc \/ r ∈ c :: rest /\
                   _addresses_nutritional_gaps r gaps = Ok true /\
                   _is_similar_to_current_intake db r current_intake = Ok false).
    { intros Hin. apply elem_of_app in Hin as [?|Hin]; [by left|].
      apply list_elem_of_singleton in Hin. subst r.
      right. split; [left | done]. }
    destruct (num_recommendations * 2 <=? Z.of_nat (length (acc ++ [c]))).
    + inversion Hrun; subst kept. by apply Hnew.
    + destruct (IH (acc ++ [c]) kept Hrun r Hr) as [?|[? ?]];
        [by apply Hnew|].
      right. split; [by apply list_elem_of_further | done].
Qed.

Lemma mapM_result_inv {A B} (f : A -> result B) (l : list A) :
  forall ys, mapM_result f l = Ok ys -> Forall2 (fun x y => f x = Ok y) l ys.
Proof.
  induction l as [|x l IH]; intros ys Hrun.
  - inversion Hrun. constructor.
  - cbn [mapM_result] in Hrun.
    apply bind_Ok in Hrun as [y [Hy Hrun]].
    apply bind_Ok in Hrun as [ys' [Hys Hrun]].
    inversion Hrun; subst ys. constructor; [exact Hy | by apply IH].
Qed.

Lemma Forall2_elem_of_r {A B} (P : A -> B -> Prop) (l : list A)
    (ys : list B) (y : B) :
  Forall2 P l ys -> y ∈ ys -> exists x, x ∈ l /\ P x y.
Proof.
  induction 1 as [|x y' l ys Hxy _ IH]; intros Hy.
  - by apply elem_of_nil in Hy.
  - apply elem_of_cons in Hy as [->|Hy].
    + exists x. split; [left | exact Hxy].
    + destruct (IH Hy) as [x' [? ?]]. exists x'.
      split; [by apply list_elem_of_further | done].
Qed.

Lemma combine_snd {A B} (l : list A) (l' : list B) :
  length l = length l' -> map snd (combine l l') = l'.
Proof.
  revert l'. induction l as [|a l IH]; intros [|b l'] Hlen;
    try discriminate; simpl; [reflexivity|].
  f_equal. apply IH. by inversion Hlen.
Qed.

(** Sorting on the gap score rearranges the kept rows. *)
Lemma sort_by_gap_score_perm (gaps : list (string * float))
    (recommended_foods ranked : list row) :
  sort_by_gap_score gaps recommended_foods = Ok ranked ->
  Permutation ranked recommended_foods.
Proof.
  unfold sort_by_gap_score. intros Hrun.
  apply bind_Ok in Hrun as [keys [Hkeys Hrun]]. inversion Hrun; subst ranked.
  apply mapM_result_inv, Forall2_length in Hkeys.
  rewrite (py_sort_reverse_perm fst). by rewrite combine_snd.
Qed.

Lemma summarize_inv (r : row) (recommendation : Recommendation) :
  summarize r = Ok recommendation ->
  r !! "food_name" = Some (rec_food_name recommendation) /\
  r !! "category" = Some (rec_category recommendation).
Proof.
  unfold summarize, row_get. intros Hrun.
  repeat match type of Hrun with
         | (match r !! ?c with _ => _ end ≫= _) = _ =>
             destruct (r !! c); [cbn [mbind result_bind] in Hrun
                                |discriminate]
         end.
  inversion Hrun; subst. split; reflexivity.
Qed.

(** Every returned recommendation is the summary of a row of the table
    that passed the restrictions and both filters of the candidate loop. *)
Lemma recommendations_inv (db : FoodDatabase)
    (user_profile : gmap string cell) (current_intake : list IntakeItem)
    (dietary_restrictions : option (list string)) (num_recommendations : Z)
    (recommendations : list Recommendation) :
  get_personalized_recommendations db user_profile current_intake
    dietary_restrictions num_recommendations = Ok recommendations ->
  forall recommendation, recommendation ∈ recommendations ->
    exists r gaps,
      r ∈ rows (food_data db) /\
      summarize r = Ok recommendation /\
      (forall restriction,
         restriction ∈ default [] dietary_restrictions ->
         passes restriction r = true) /\
      _addresses_nutritional_gaps r gaps = Ok true /\
      _is_similar_to_current_intake db r current_intake = Ok false.
Proof.
  unfold get_personalized_recommendations. intros Hrun rec Hrec.
  apply bind_Ok in Hrun as [totals [_ Hrun]].
  apply bind_Ok in Hrun as [gaps [_ Hrun]].
  apply bind_Ok in Hrun as [all_foods [Hfoods Hrun]].
  apply bind_Ok in Hrun as [kept [Hkept Hrun]].
  apply bind_Ok in Hrun as [ranked [Hranked Hrun]].
  apply mapM_result_inv in Hrun.
  destruct (Forall2_elem_of_r _ _ _ _ Hrun Hrec) as [r [Hr Hsum]].
  destruct (slice_to_sublist num_recommendations ranked) as [n Hn].
  rewrite Hn in Hr.
  apply elem_of_take in Hr as [i [Hr _]]. apply list_elem_of_lookup_2 in Hr.
  rewrite (sort_by_gap_score_perm _ _ _ Hranked) in Hr.
  destruct (collect_candidates_inv _ _ _ _ _ _ _ Hkept r Hr)
    as [Hnil|[Hin [Ha Hs]]]; [by apply elem_of_nil in Hnil|].
  destruct (foldM_apply_restriction _ _ _ Hfoods r Hin) as [Hrow Hpass].
  exists r, gaps. repeat split; assumption.
Qed.

(** X16.  Every returned recommendation is the summary of a row of the
    table that passes every requested restriction: with [vegan] its category
    is vegetables, fruits or legumes, with [dairy-free] it is not dairy. *)
Theorem recommendations_respect_the_restrictions (db : FoodDatabase)
    (user_profile : gmap string cell) (current_intake : list IntakeItem)
    (restrictions : list string) (num_recommendations : Z)
    (recommendations : list Recommendation) :
  get_personalized_recommendations db user_profile current_intake
    (Some restrictions) num_recommendations = Ok recommendations ->
  forall recommendation, recommendation ∈ recommendations ->
    (exists r, r ∈ rows (food_data db) /\
               summarize r = Ok recommendation /\
               forall restriction, restriction ∈ restrictions ->
                                   passes restriction r = true) /\
    ("vegan" ∈ restrictions ->
     exists s, rec_category recommendation = Str s /\
               s ∈ ["vegetables"; "fruits"; "legumes"]) /\
    ("dairy-free" ∈ restrictions ->
     rec_category recommendation <> Str "dairy").
Proof.
  intros Hrun rec Hrec.
  destruct (recommendations_inv _ _ _ _ _ _ Hrun rec Hrec)
    as (r & gaps & Hr & Hsum & Hpass & _ & _).
  cbn [default] in Hpass.
  destruct (summarize_inv r rec Hsum) as [_ Hcat].
  split; [by exists r|]. split.
  - intros Hv. specialize (Hpass "vegan" Hv).
    unfold passes in Hpass. cbn in Hpass. rewrite Hcat in Hpass.
    destruct (rec_category rec) as [s| |]; try discriminate.
    exists s. split; [reflexivity|]. by apply bool_decide_eq_true_1 in Hpass.
  - intros Hd. specialize (Hpass "dairy-free" Hd).
    unfold passes in Hpass. cbn in Hpass. rewrite Hcat in Hpass.
    intros Heq. rewrite Heq in Hpass. discriminate.
Qed.

Lemma recommendations_respect_the_restrictions_witness :
  get_personalized_recommendations pantry_db demo_profile []
    (Some ["vegan"; "dairy-free"]) 2 =
  Ok (result_default []
        (get_personalized_recommendations pantry_db demo_profile []
           (Some ["vegan"; "dairy-free"]) 2)) /\
  forall recommendation,
    recommendation ∈
      result_default []
        (get_personalized_recommendations pantry_db demo_profile []
           (Some ["vegan"; "dairy-free"]) 2) ->
    (exists r, r ∈ rows (food_data pantry_db) /\
               summarize r = Ok recommendation /\
               forall restriction, restriction ∈ ["vegan"; "dairy-free"] ->
                                   passes restriction r = true) /\
    ("vegan" ∈ ["vegan"; "dairy-free"] ->
     exists s, rec_category recommendation = Str s /\
               s ∈ ["vegetables"; "fruits"; "legumes"]) /\
    ("dairy-free" ∈ ["vegan"; "dairy-free"] ->
     rec_category recommendation <> Str "dairy").
Proof.
  split; [reflexivity|].
  apply (recommendations_respect_the_restrictions pantry_db demo_profile []
           ["vegan"; "dairy-free"] 2).
  reflexivity.
Defined.

Lemma get_food_nutrition_lower (db : FoodDatabase) (name name' : string) :
  lower name = lower name' ->
  get_food_nutrition db name = get_food_nutrition db name'.
Proof. intros H. unfold get_food_nutrition. by rewrite H. Qed.

(** What a row that is not similar to the intake has been compared with. *)
Lemma is_similar_false_inv (db : FoodDatabase) (r : row)
    (current_intake : list IntakeItem) :
  _is_similar_to_current_intake db r current_intake = Ok false ->
  forall item, item ∈ current_intake ->
    exists name c entry,
      r !! "food_name" = Some (Str name) /\
      compare_foods db name (food item) (Some similarity_check_nutrients) =
        Ok c /\
      comparison c !! "calories" = Some entry /\
      ltb (percentage_diff entry) c20 = false.
Proof.
  induction current_intake as [|intake rest IH]; intros Hrun item Hitem.
  - by apply elem_of_nil in Hitem.
  - cbn [_is_similar_to_current_intake] in Hrun.
    apply bind_Ok in Hrun as [cell_name [Hname Hrun]].
    apply bind_Ok in Hrun as [name [Hstr Hrun]].
    apply bind_Ok in Hrun as [c [Hc Hrun]].
    destruct (comparison c !! "calories") as [entry|] eqn:Hentry;
      [|discriminate].
    destruct (ltb (percentage_diff entry) c20) eqn:Hlt; [discriminate|].
    unfold row_get in Hname.
    destruct (r !! "food_name") as [cn|] eqn:Hfn; [|discriminate].
    inversion Hname; subst cell_name.
    destruct cn as [s| |]; try discriminate. inversion Hstr; subst name.
    apply elem_of_cons in Hitem as [->|Hitem].
    + by exists s, c, entry.
    + by apply IH.
Qed.

(** X17.  A returned recommendation has been compared with every item of
    the intake, and its calories are not less than 20 percent above the
    item's; in particular a food of the intake whose calories are a finite
    number is not recommended, however its name is capitalised. *)
Theorem recommended_foods_differ_from_the_intake (db : FoodDatabase)
    (user_profile : gmap string cell) (current_intake : list IntakeItem)
    (dietary_restrictions : option (list string)) (num_recommendations : Z)
    (recommendations : list Recommendation) :
  get_personalized_recommendations db user_profile current_intake
    dietary_restrictions num_recommendations = Ok recommendations ->
  forall recommendation item,
    recommendation ∈ recommendations -> item ∈ current_intake ->
    exists name c entry,
      rec_food_name recommendation = Str name /\
      compare_foods db name (food item) (Some similarity_check_nutrients) =
        Ok c /\
      comparison c !! "calories" = Some entry /\
      ltb (percentage_diff entry) c20 = false /\
      (forall eaten,
         get_food_nutrition db (food item) = Ok (Some eaten) ->
         finite_cell (calories eaten) = true ->
         lower name <> lower (food item)).
Proof.
  intros Hrun rec item Hrec Hitem.
  destruct (recommendations_inv _ _ _ _ _ _ Hrun rec Hrec)
    as (r & gaps & _ & Hsum & _ & _ & Hsim).
  destruct (summarize_inv r rec Hsum) as [Hname _].
  destruct (is_similar_false_inv _ _ _ Hsim item Hitem)
    as (name & c & entry & Hfn & Hc & Hentry & Hlt).
  exists name, c, entry.
  split; [congruence|]. split; [exact Hc|]. split; [exact Hentry|].
  split; [exact Hlt|].
  intros eaten Heaten Hfin Hsame.
  destruct (compare_foods_inv _ _ _ _ _ Hc)
    as (n1 & n2 & H1 & H2 & _ & _ & Hlook).
  rewrite (get_food_nutrition_lower db _ _ Hsame), Heaten in H1.
  rewrite Heaten in H2. inversion H1; subst n1. inversion H2; subst n2.
  rewrite Hlook in Hentry. cbn in Hentry. inversion Hentry; subst entry.
  cbn [percentage_diff comparison_entry] in Hlt.
  apply andb_prop in Hfin as [_ Hfin].
  change (getattr eaten "calories") with (calories eaten) in Hlt.
  rewrite (pct_same _ Hfin) in Hlt. discriminate.
Qed.

Lemma recommended_foods_differ_from_the_intake_witness :
  get_personalized_recommendations pantry_db demo_profile apple_intake
    None 2 =
  Ok (result_default []
        (get_personalized_recommendations pantry_db demo_profile apple_intake
           None 2)) /\
  forall recommendation item,
    recommendation ∈
      result_default []
        (get_personalized_recommendations pantry_db demo_profile apple_intake
           None 2) ->
    item ∈ apple_intake ->
    exists name c entry,
      rec_food_name recommendation = Str name /\
      compare_foods pantry_db name (food item)
                    (Some similarity_check_nutrients) = Ok c /\
      comparison c !! "calories" = Some entry /\
      ltb (percentage_diff entry) c20 = false /\
      (forall eaten,
         get_food_nutrition pantry_db (food item) = Ok (Some eaten) ->
         finite_cell (calories eaten) = true ->
         lower name <> lower (food item)).
Proof.
  split; [reflexivity|].
  apply (recommended_foods_differ_from_the_intake pantry_db demo_profile
           apple_intake None 2).
  reflexivity.
Defined.

(** ** The meal planner *)

Lemma consider_food_inv (db : FoodDatabase) (target_calories : float)
    (food_hints : list string) (hint : string)
    (suitable_foods suitable_foods' : list MealItem) (name : string) :
  hint ∈ food_hints -> str_in (lower hint) name = true ->
  Forall (suitable db target_calories food_hints) suitable_foods ->
  consider_food db target_calories suitable_foods name = Ok suitable_foods' ->
  Forall (suitable db target_calories food_hints) suitable_foods'.
Proof.
  intros Hhint Hin Hacc. unfold consider_food. intros Hrun.
  apply bind_Ok in Hrun as [[nutrition|] [Hget Hrun]];
    [|by inversion Hrun; subst].
  apply bind_Ok in Hrun as [c [Hc Hrun]].
  destruct (ltb (abs (sub c target_calories)) c100) eqn:Hlt;
    inversion Hrun; subst; [|exact Hacc].
  apply Forall_app. split; [exact Hacc|].
  constructor; [|constructor].
  exists hint, nutrition, c. by repeat split.
Qed.

Lemma consider_hint_inv (db : FoodDatabase) (target_calories : float)
    (food_hints : list string) (hint : string)
    (suitable_foods suitable_foods' : list MealItem) :
  hint ∈ food_hints ->
  Forall (suitable db target_calories food_hints) suitable_foods ->
  consider_hint db target_calories suitable_foods hint = Ok suitable_foods' ->
  Forall (suitable db target_calories food_hints) suitable_foods'.
Proof.
  intros Hhint Hacc. unfold consider_hint. intros Hrun.
  apply bind_Ok in Hrun as [matching [Hsearch Hrun]].
  destruct (search_food_inv db hint matching Hsearch) as [_ Hfound].
  revert Hrun. apply foldM_inv; [|exact Hacc].
  intros acc name acc' Hname Hacc' Hstep.
  destruct (Hfound name Hname) as (r & s & _ & _ & _ & Hq).
  by apply (consider_food_inv db target_calories food_hints hint acc acc' name).
Qed.

Lemma slice_to_3_length {A} (l : list A) : (length (slice_to 3 l) <= 3)%nat.
Proof. unfold slice_to. cbn. rewrite length_take. lia. Qed.

Lemma find_foods_inv (db : FoodDatabase) (target_calories : float)
    (food_hints : list string) (foods : list MealItem) :
  _find_foods_for_calories db target_calories food_hints = Ok foods ->
  (length foods <= 3)%nat /\
  Forall (suitable db target_calories food_hints) foods.
Proof.
  unfold _find_foods_for_calories. intros Hrun.
  apply bind_Ok in Hrun as [suitable_foods [Hloop Hrun]].
  inversion Hrun; subst foods. split; [apply slice_to_3_length|].
  destruct (slice_to_sublist 3 suitable_foods) as [n ->].
  apply Forall_take. revert Hloop.
  apply (foldM_inv (Forall (suitable db target_calories food_hints)));
    [|constructor].
  intros acc hint acc' Hhint Hacc Hstep.
  by apply (consider_hint_inv db target_calories food_hints hint acc acc').
Qed.

(** X18.  [_find_foods_for_calories] returns at most three entries; each
    names a food that [search_food] found for one of the hints, carries the
    values of the record that the lookup finds under that name, and has
    calories within 100 kcal of the target. *)
Theorem foods_for_calories_are_within_100_kcal (db : FoodDatabase)
    (target_calories : float) (food_hints : list string)
    (foods : list MealItem) :
  _find_foods_for_calories db target_calories food_hints = Ok foods ->
  (length foods <= 3)%nat /\
  Forall (suitable db target_calories food_hints) foods.
Proof. exact (find_foods_inv db target_calories food_hints foods). Qed.

Lemma foods_for_calories_are_within_100_kcal_witness :
  (length (result_default []
             (_find_foods_for_calories demo_db (of_Z 100) ["an"; "apple"]))
   <= 3)%nat /\
  Forall (suitable demo_db (of_Z 100) ["an"; "apple"])
         (result_default []
            (_find_foods_for_calories demo_db (of_Z 100) ["an"; "apple"])).
Proof.
  apply (foods_for_calories_are_within_100_kcal demo_db (of_Z 100)
           ["an"; "apple"]).
  reflexivity.
Defined.

Lemma consider_food_raises (db : FoodDatabase) (target_calories : float)
    (suitable_foods : list MealItem) (name : string) (e : exn) :
  get_food_nutrition db name <> Raise IndexError ->
  consider_food db target_calories suitable_foods name = Raise e ->
  e <> IndexError.
Proof.
  intros Hfound. unfold consider_food.
  destruct (get_food_nutrition db name) as [[nutrition|]|e'] eqn:Hget;
    cbn [mbind result_bind]; [|discriminate|].
  - destruct (num (calories nutrition)) as [c|e'] eqn:Hc;
      cbn [mbind result_bind].
    + destruct (ltb _ _); discriminate.
    + intros Hr; inversion Hr; subst e'. by rewrite (num_raises _ _ Hc).
  - intros Hr; inversion Hr; subst e'. congruence.
Qed.

Lemma search_food_raises (db : FoodDatabase) (query : string) (e : exn) :
  search_food db query = Raise e -> e <> IndexError.
Proof.
  unfold search_food, frame_col.
  case_bool_decide as Hcol; cbn [mbind result_bind];
    [|intros Hr; inversion Hr; discriminate].
  apply (foldM_raises (fun e => e <> IndexError)).
  intros acc r e' _. unfold search_row.
  destruct (r !! "food") as [[s| |]|]; intros Hr; inversion Hr; discriminate.
Qed.

(** X19.  The planner looks up only names that a search has returned, so it
    does not fail on an unknown food: whatever it raises, it is not the
    [IndexError] of the lookup. *)
Theorem the_planner_raises_no_IndexError (db : FoodDatabase)
    (target_calories : float) (food_hints : list string) (e : exn) :
  _find_foods_for_calories db target_calories food_hints = Raise e ->
  e <> IndexError.
Proof.
  unfold _find_foods_for_calories.
  destruct (foldM _ _ _) as [foods|e'] eqn:Hloop; [discriminate|].
  cbn [mbind result_bind]. intros Hr; inversion Hr; subst e'.
  revert Hloop. apply (foldM_raises (fun e => e <> IndexError)).
  intros acc hint e' _. unfold consider_hint.
  destruct (search_food db hint) as [matching|e''] eqn:Hsearch;
    cbn [mbind result_bind].
  - apply (foldM_raises (fun e => e <> IndexError)).
    intros acc' name e'' Hname.
    apply consider_food_raises.
    by destruct (found_names_resolve db hint matching name Hsearch Hname)
      as (_ & _ & ?).
  - intros Hr'; inversion Hr'; subst e''.
    exact (search_food_raises db hint e' Hsearch).
Qed.

Lemma the_planner_raises_no_IndexError_witness :
  _find_foods_for_calories nameless_db (of_Z 100) ["apple"] = Raise TypeError /\
  TypeError <> IndexError.
Proof.
  split; [reflexivity|].
  apply (the_planner_raises_no_IndexError nameless_db (of_Z 100) ["apple"]).
  reflexivity.
Defined.

(** X20.  [create_meal_plan] fills breakfast only: lunch, dinner and snacks
    are empty, breakfast has at most three foods within 100 kcal of a
    quarter of the calorie target, and the protein, carbohydrate and fat
    targets have no effect on the plan. *)
Theorem the_meal_plan_fills_breakfast_only (db : FoodDatabase)
    (target_calories target_protein target_carbs target_fat : float)
    (plan : MealPlan) :
  create_meal_plan db target_calories target_protein target_carbs target_fat
    = Ok plan ->
  lunch plan = [] /\ dinner plan = [] /\ snacks plan = [] /\
  (length (breakfast plan) <= 3)%nat /\
  Forall (suitable db (mul target_calories c0_25)
                   ["eggs"; "oatmeal"; "yogurt"; "banana"]) (breakfast plan) /\
  forall protein' carbs' fat',
    create_meal_plan db target_calories protein' carbs' fat' = Ok plan.
Proof.
  unfold create_meal_plan. intros Hrun.
  apply bind_Ok in Hrun as [foods [Hfoods Hrun]].
  inversion Hrun; subst plan. cbn [lunch dinner snacks breakfast].
  destruct (find_foods_inv _ _ _ _ Hfoods) as [Hlen Hall].
  repeat split; try done.
  intros _ _ _. by rewrite Hfoods.
Qed.

Lemma the_meal_plan_fills_breakfast_only_witness :
  let plan := result_default {| breakfast := []; lunch := []; dinner := [];
                                snacks := [] |}
                (create_meal_plan demo_db (of_Z 400) zero zero zero) in
  lunch plan = [] /\ dinner plan = [] /\ snacks plan = [] /\
  (length (breakfast plan) <= 3)%nat /\
  Forall (suitable demo_db (mul (of_Z 400) c0_25)
                   ["eggs"; "oatmeal"; "yogurt"; "banana"]) (breakfast plan) /\
  forall protein' carbs' fat',
    create_meal_plan demo_db (of_Z 400) protein' carbs' fat' = Ok plan.
Proof.
  apply (the_meal_plan_fills_breakfast_only demo_db (of_Z 400) zero zero zero).
  reflexivity.
Defined.

(** ** The nutrition engine *)

Lemma compare_finite_le_lt (s : bool) (m1 m2 m3 : positive) (e1 e2 e3 : Z) :
  SFleb (S754_finite s m1 e1) (S754_finite s m2 e2) = true ->
  SFltb (S754_finite s m2 e2) (S754_finite s m3 e3) = true ->
  SFltb (S754_finite s m1 e1) (S754_finite s m3 e3) = true.
Proof.
  unfold SFleb, SFltb, SFcompare.
  change (Pos.compare_cont Eq m1 m2) with (m1 ?= m2)%positive.
  change (Pos.compare_cont Eq m2 m3) with (m2 ?= m3)%positive.
  change (Pos.compare_cont Eq m1 m3) with (m1 ?= m3)%positive.
  destruct s;
    destruct (Z.compare_spec e1 e2), (Z.compare_spec e2 e3),
             (Z.compare_spec e1 e3); try lia; try congruence;
    destruct (Pos.compare_spec m1 m2), (Pos.compare_spec m2 m3),
             (Pos.compare_spec m1 m3); simpl; try lia; congruence.
Qed.

(** [x <= y] and [y < z] give [x < z]. *)
Lemma leb_ltb_trans (x y z : float) :
  leb x y = true -> ltb y z = true -> ltb x z = true.
Proof.
  destruct x as [sx|sx| |sx mx ex], y as [sy|sy| |sy my ey],
           z as [sz|sz| |sz mz ez];
    try (intros; discriminate);
    try (destruct sx; try (intros; discriminate));
    try (destruct sy; try (intros; discriminate));
    try (destruct sz; try (intros; discriminate));
    try (intros; reflexivity);
    try (intros H1 H2; discriminate H1);
    try (intros H1 H2; discriminate H2);
    try apply compare_finite_le_lt.
Qed.

(** X21.  [classify_bmi] is monotone: of two values of the index the larger
    never falls in a lighter class. *)
Theorem classify_bmi_is_monotone (bmi1 bmi2 : float) :
  leb bmi1 bmi2 = true ->
  (bmi_rank (classify_bmi bmi1) <= bmi_rank (classify_bmi bmi2))%nat.
Proof.
  intros Hle. unfold classify_bmi.
  pose proof (fun t => leb_ltb_trans bmi1 bmi2 t Hle) as Htrans.
  destruct (ltb bmi2 c18_5) eqn:H2a.
  { rewrite (Htrans _ H2a). vm_compute. lia. }
  destruct (ltb bmi2 c25) eqn:H2b.
  { rewrite (Htrans _ H2b). destruct (ltb bmi1 c18_5); vm_compute; lia. }
  destruct (ltb bmi2 c30) eqn:H2c.
  { rewrite (Htrans _ H2c).
    destruct (ltb bmi1 c18_5), (ltb bmi1 c25); vm_compute; lia. }
  destruct (ltb bmi1 c18_5), (ltb bmi1 c25), (ltb bmi1 c30); vm_compute; lia.
Qed.

Lemma classify_bmi_is_monotone_witness :
  (bmi_rank (classify_bmi (of_dec 249 1)) <=
   bmi_rank (classify_bmi (of_Z 25)))%nat.
Proof.
  apply (classify_bmi_is_monotone (of_dec 249 1) (of_Z 25)). reflexivity.
Defined.

(** X22.  The calorie need of the recommender is the engine's total daily
    expenditure, [calculate_tdee] of [calculate_bmr], for the genders and
    the sedentary and moderate activity levels that the engine writes with
    a capital. *)
Theorem calorie_needs_agree_with_the_engine (age weight height : float)
    (gender activity : string) :
  (gender = "Male" \/ lower gender <> "male") ->
  activity ∈ ["Sedentary"; "Moderate"] ->
  _calculate_calorie_needs (Num age) (Num weight) (Num height) (Str gender)
                           (Str activity) =
  Ok (calculate_tdee (calculate_bmr age weight height gender) activity).
Proof.
  intros Hg Ha. unfold _calculate_calorie_needs, calculate_tdee, calculate_bmr.
  cbn [str_lower num mbind result_bind]. unfold bmr_base. f_equal.
  assert (Hm : default c1_55 (activity_multipliers (lower activity)) =
               default c1_55 (tdee_multipliers activity)).
  { rewrite !elem_of_cons, elem_of_nil in Ha.
    destruct Ha as [->|[->|[]]]; reflexivity. }
  rewrite Hm. f_equal.
  destruct Hg as [->|Hg]; [reflexivity|].
  rewrite (bool_decide_eq_false_2 _ Hg).
  rewrite bool_decide_eq_false_2; [reflexivity|].
  intros ->. by apply Hg.
Qed.

Lemma calorie_needs_agree_with_the_engine_witness :
  _calculate_calorie_needs (Num (of_Z 30)) (Num (of_Z 70)) (Num (of_Z 170))
                           (Str "Female") (Str "Sedentary") =
  Ok (calculate_tdee (calculate_bmr (of_Z 30) (of_Z 70) (of_Z 170) "Female")
                     "Sedentary").
Proof.
  apply (calorie_needs_agree_with_the_engine (of_Z 30) (of_Z 70) (of_Z 170)
           "Female" "Sedentary").
  - right. discriminate.
  - left.
Defined.

(** *** Food recommendations by profile *)

(** What each adjustment leaves alone and what it appends. *)
Lemma adjust_for_activity_frame (activity : string) (r : FoodRecommendations) :
  protein_sources (adjust_for_activity activity r) = protein_sources r /\
  carb_sources (adjust_for_activity activity r) = carb_sources r /\
  vegetable_sources (adjust_for_activity activity r) = vegetable_sources r /\
  fruit_sources (adjust_for_activity activity r) = fruit_sources r /\
  avoid_foods (adjust_for_activity activity r) = avoid_foods r.
Proof.
  unfold adjust_for_activity.
  repeat case_bool_decide; repeat split; reflexivity.
Qed.

Lemma adjust_for_diabetes_frame (health_conditions : list string)
    (r : FoodRecommendations) :
  protein_sources (adjust_for_diabetes health_conditions r) =
    protein_sources r /\
  vegetable_sources (adjust_for_diabetes health_conditions r) =
    vegetable_sources r /\
  fruit_sources (adjust_for_diabetes health_conditions r) = fruit_sources r /\
  avoid_foods (adjust_for_diabetes health_conditions r) =
  avoid_foods r ++ (if bool_decide ("Diabetes" ∈ health_conditions)
                    then ["High-sugar fruits"; "White bread"; "Sugary snacks"]
                    else []).
Proof.
  unfold adjust_for_diabetes.
  case_bool_decide; repeat split; rewrite ?app_nil_r; reflexivity.
Qed.

Lemma adjust_for_hypertension_frame (health_conditions : list string)
    (r : FoodRecommendations) :
  protein_sources (adjust_for_hypertension health_conditions r) =
    protein_sources r /\
  carb_sources (adjust_for_hypertension health_conditions r) =
    carb_sources r /\
  vegetable_sources (adjust_for_hypertension health_conditions r) =
    vegetable_sources r /\
  fruit_sources (adjust_for_hypertension health_conditions r) =
    fruit_sources r /\
  avoid_foods (adjust_for_hypertension health_conditions r) =
  avoid_foods r ++ (if bool_decide ("Hypertension" ∈ health_conditions)
                    then ["High-sodium foods"; "Processed meats"; "Canned foods"]
                    else []).
Proof.
  unfold adjust_for_hypertension.
  case_bool_decide; repeat split; rewrite ?app_nil_r; reflexivity.
Qed.

Lemma adjust_for_lactose_intolerance_frame (health_conditions : list string)
    (r : FoodRecommendations) :
  carb_sources (adjust_for_lactose_intolerance health_conditions r) =
    carb_sources r /\
  vegetable_sources (adjust_for_lactose_intolerance health_conditions r) =
    vegetable_sources r /\
  fruit_sources (adjust_for_lactose_intolerance health_conditions r) =
    fruit_sources r /\
  avoid_foods (adjust_for_lactose_intolerance health_conditions r) =
  avoid_foods r ++ (if bool_decide ("Lactose Intolerance" ∈ health_conditions)
                    then ["Regular dairy products"; "Milk-based supplements"]
                    else []) /\
  protein_sources (adjust_for_lactose_intolerance health_conditions r) =
  (if bool_decide ("Lactose Intolerance" ∈ health_conditions)
   then List.filter (fun p => negb (str_in "yogurt" (lower p))) base_proteins ++
        ["Lactose-free dairy"; "Plant-based proteins"]
   else protein_sources r).
Proof.
  unfold adjust_for_lactose_intolerance.
  case_bool_decide; repeat split; rewrite ?app_nil_r; reflexivity.
Qed.

Lemma adjust_for_gluten_sensitivity_frame (genetic_traits : list string)
    (r : FoodRecommendations) :
  protein_sources (adjust_for_gluten_sensitivity genetic_traits r) =
    protein_sources r /\
  vegetable_sources (adjust_for_gluten_sensitivity genetic_traits r) =
    vegetable_sources r /\
  fruit_sources (adjust_for_gluten_sensitivity genetic_traits r) =
    fruit_sources r /\
  avoid_foods (adjust_for_gluten_sensitivity genetic_traits r) =
  avoid_foods r ++ (if bool_decide ("Gluten Sensitivity" ∈ genetic_traits)
                    then ["Wheat products"; "Barley"; "Rye"] else []) /\
  carb_sources (adjust_for_gluten_sensitivity genetic_traits r) =
  (if bool_decide ("Gluten Sensitivity" ∈ genetic_traits)
   then ["Gluten-free grains: Rice, quinoa, buckwheat"]
   else carb_sources r).
Proof.
  unfold adjust_for_gluten_sensitivity.
  case_bool_decide; repeat split; rewrite ?app_nil_r; reflexivity.
Qed.

Lemma adjust_for_obesity_risk_frame (genetic_traits : list string)
    (r : FoodRecommendations) :
  protein_sources (adjust_for_obesity_risk genetic_traits r) =
    protein_sources r /\
  carb_sources (adjust_for_obesity_risk genetic_traits r) = carb_sources r /\
  vegetable_sources (adjust_for_obesity_risk genetic_traits r) =
    vegetable_sources r /\
  fruit_sources (adjust_for_obesity_risk genetic_traits r) = fruit_sources r /\
  avoid_foods (adjust_for_obesity_risk genetic_traits r) =
  avoid_foods r ++ (if bool_decide ("Obesity Risk" ∈ genetic_traits)
                    then ["High-calorie processed foods"; "Sugary beverages"]
                    else []).
Proof.
  unfold adjust_for_obesity_risk.
  case_bool_decide; repeat split; rewrite ?app_nil_r; reflexivity.
Qed.

Lemma adjust_for_high_metabolism_frame (genetic_traits : list string)
    (r : FoodRecommendations) :
  protein_sources (adjust_for_high_metabolism genetic_traits r) =
    protein_sources r /\
  vegetable_sources (adjust_for_high_metabolism genetic_traits r) =
    vegetable_sources r /\
  fruit_sources (adjust_for_high_metabolism genetic_traits r) =
    fruit_sources r /\
  avoid_foods (adjust_for_high_metabolism genetic_traits r) = avoid_foods r /\
  carb_sources (adjust_for_high_metabolism genetic_traits r) =
  carb_sources r ++ (if bool_decide ("High Metabolism" ∈ genetic_traits)
                     then ["Higher calorie carbs: Dates, dried fruits"]
                     else []).
Proof.
  unfold adjust_for_high_metabolism.
  case_bool_decide; repeat split; rewrite ?app_nil_r; reflexivity.
Qed.

(** Rewriting with the frame lemmas, from the last adjustment inwards. *)
Ltac frame_step lemma :=
  let H1 := fresh in let H2 := fresh in let H3 := fresh in
  let H4 := fresh in let H5 := fresh in
  first [ destruct lemma as (H1 & H2 & H3 & H4 & H5);
          rewrite ?H1, ?H2, ?H3, ?H4, ?H5; clear H1 H2 H3 H4 H5
        | destruct lemma as (H1 & H2 & H3 & H4);
          rewrite ?H1, ?H2, ?H3, ?H4; clear H1 H2 H3 H4 ].

Ltac frames :=
  unfold get_food_recommendations; cbv zeta;
  repeat match goal with
         | |- context [adjust_for_high_metabolism ?t ?r] =>
             frame_step (adjust_for_high_metabolism_frame t r)
         | |- context [adjust_for_obesity_risk ?t ?r] =>
             frame_step (adjust_for_obesity_risk_frame t r)
         | |- context [adjust_for_gluten_sensitivity ?t ?r] =>
             frame_step (adjust_for_gluten_sensitivity_frame t r)
         | |- context [adjust_for_lactose_intolerance ?t ?r] =>
             frame_step (adjust_for_lactose_intolerance_frame t r)
         | |- context [adjust_for_hypertension ?t ?r] =>
             frame_step (adjust_for_hypertension_frame t r)
         | |- context [adjust_for_diabetes ?t ?r] =>
             frame_step (adjust_for_diabetes_frame t r)
         | |- context [adjust_for_activity ?t ?r] =>
             frame_step (adjust_for_activity_frame t r)
         end.

(** X23.  The vegetables and the fruits do not depend on the profile: they
    are the base lists for every index, activity, condition and trait (the
    high-fibre line of the overweight branch is overwritten). *)
Theorem vegetables_and_fruits_are_the_base_lists (bmi : float)
    (activity : string) (health_conditions genetic_traits : list string) :
  vegetable_sources (get_food_recommendations bmi activity health_conditions
                                              genetic_traits)
    = base_vegetables /\
  fruit_sources (get_food_recommendations bmi activity health_conditions
                                          genetic_traits)
    = base_fruits.
Proof. frames. split; reflexivity. Qed.

(** Nothing is below 18.5 and above 25. *)
Lemma not_under_and_over (bmi : float) :
  ltb bmi c18_5 = true -> ltb c25 bmi = false.
Proof.
  intros Hu. destruct (ltb c25 bmi) eqn:Ho; [|reflexivity].
  pose proof (leb_ltb_trans c25 bmi c18_5 (F64Facts.ltb_leb _ _ Ho) Hu).
  discriminate.
Qed.

Lemma adjust_for_bmi_avoid (bmi : float) (r : FoodRecommendations) :
  avoid_foods (adjust_for_bmi bmi r) =
  if ltb c25 bmi
  then ["Processed foods"; "Sugary drinks"; "Refined carbs"; "Fried foods"]
  else avoid_foods r.
Proof.
  unfold adjust_for_bmi. destruct (ltb bmi c18_5) eqn:Hu.
  - by rewrite (not_under_and_over bmi Hu).
  - by destruct (ltb c25 bmi).
Qed.

(** X24.  The conditions and traits replace what the index chose: with
    lactose intolerance no protein source mentions yogurt, and with gluten
    sensitivity the carbohydrate sources are the gluten-free line, followed
    by the line for a high metabolism if that trait is given. *)
Theorem conditions_replace_the_choice_of_the_index (bmi : float)
    (activity : string) (health_conditions genetic_traits : list string) :
  ("Lactose Intolerance" ∈ health_conditions ->
   forallb (fun p => negb (str_in "yogurt" (lower p)))
           (protein_sources (get_food_recommendations
                               bmi activity health_conditions genetic_traits))
   = true) /\
  ("Gluten Sensitivity" ∈ genetic_traits ->
   carb_sources (get_food_recommendations bmi activity health_conditions
                                          genetic_traits) =
   "Gluten-free grains: Rice, quinoa, buckwheat" ::
   (if bool_decide ("High Metabolism" ∈ genetic_traits)
    then ["Higher calorie carbs: Dates, dried fruits"] else [])).
Proof.
  split; intros Hflag; frames;
    rewrite (bool_decide_eq_true_2 _ Hflag).
  - vm_compute. reflexivity.
  - reflexivity.
Qed.

Lemma conditions_replace_the_choice_of_the_index_witness :
  ("Lactose Intolerance" ∈ ["Lactose Intolerance"] ->
   forallb (fun p => negb (str_in "yogurt" (lower p)))
           (protein_sources (get_food_recommendations
                               (of_Z 17) "Active" ["Lactose Intolerance"]
                               ["Gluten Sensitivity"]))
   = true) /\
  ("Gluten Sensitivity" ∈ ["Gluten Sensitivity"] ->
   carb_sources (get_food_recommendations (of_Z 17) "Active"
                   ["Lactose Intolerance"] ["Gluten Sensitivity"]) =
   "Gluten-free grains: Rice, quinoa, buckwheat" ::
   (if bool_decide ("High Metabolism" ∈ ["Gluten Sensitivity"])
    then ["Higher calorie carbs: Dates, dried fruits"] else [])).
Proof.
  exact (conditions_replace_the_choice_of_the_index (of_Z 17) "Active"
           ["Lactose Intolerance"] ["Gluten Sensitivity"]).
Defined.

(** X25.  Nothing is to be avoided exactly when the index is not above 25
    and none of diabetes, hypertension, lactose intolerance, gluten
    sensitivity and obesity risk is given. *)
Theorem nothing_to_avoid (bmi : float) (activity : string)
    (health_conditions genetic_traits : list string) :
  avoid_foods (get_food_recommendations bmi activity health_conditions
                                        genetic_traits) = [] <->
  ltb c25 bmi = false /\
  ("Diabetes" ∉ health_conditions) /\ ("Hypertension" ∉ health_conditions) /\
  ("Lactose Intolerance" ∉ health_conditions) /\
  ("Gluten Sensitivity" ∉ genetic_traits) /\
  ("Obesity Risk" ∉ genetic_traits).
Proof.
  frames.
  change (avoid_foods (set_fruit_sources ?a (set_vegetable_sources ?b ?r)))
    with (avoid_foods r).
  rewrite adjust_for_bmi_avoid. cbn [avoid_foods].
  rewrite !app_nil.
  destruct (ltb c25 bmi); repeat case_bool_decide;
    (split; [intros Hnil; decompose [and] Hnil; try discriminate;
             repeat split; done
            |intros Hnot; decompose [and] Hnot; try done; repeat split; done]).
Qed.

(** *** Meal timing *)

(** X26.  [get_meal_timing_recommendations] always gives advice: the two
    general tips exactly when the activity is not [Active] and diabetes is
    not among the conditions, and the tips for those otherwise. *)
Theorem meal_timing_is_never_empty (activity : string)
    (health_conditions : list string) :
  get_meal_timing_recommendations activity health_conditions <> [] /\
  (get_meal_timing_recommendations activity health_conditions =
   general_timing_tips <->
   activity <> "Active" /\ ("Diabetes" ∉ health_conditions)).
Proof.
  unfold get_meal_timing_recommendations, general_timing_tips.
  repeat case_bool_decide; cbn [app];
    (split; [discriminate|]);
    (split; [try discriminate; by intros _ | try done; try tauto]).
Qed.

(** *** Specific foods *)

Lemma num_ok_value (c : cell) (x : float) : num c = Ok x -> value c = x.
Proof. destruct c as [s|y|b]; simpl; congruence. Qed.

Lemma ltb_not_nan_l (x y : float) : ltb x y = true -> is_nan x = false.
Proof. by destruct x. Qed.

Lemma ltb_not_nan_r (x y : float) : ltb x y = true -> is_nan y = false.
Proof. by destruct x, y. Qed.

Lemma slice_to_elem_of {A} (k : Z) (l : list A) (x : A) :
  x ∈ slice_to k l -> x ∈ l.
Proof.
  destruct (slice_to_sublist k l) as [n ->]. intros Hx.
  apply elem_of_take in Hx as [i [Hx _]]. by apply list_elem_of_lookup_2 in Hx.
Qed.

Lemma slice_to_bound {A} (k : nat) (l : list A) :
  (length (slice_to (Z.of_nat k) l) <= k)%nat.
Proof.
  unfold slice_to. rewrite (proj2 (Z.leb_le 0 (Z.of_nat k))) by lia.
  rewrite Nat2Z.id, length_take. lia.
Qed.

(** The foods kept by the loop over the meat names. *)
Lemma consider_protein_inv (db : FoodDatabase) (names : list string) :
  forall protein_rich kept,
    foldM (consider_protein db) names protein_rich = Ok kept ->
    Forall (fun x => ltb c20 (value (pf_protein x)) = true /\
                     pf_food x ∈ names) protein_rich ->
    Forall (fun x => ltb c20 (value (pf_protein x)) = true /\
                     pf_food x ∈ names) kept.
Proof.
  intros acc kept Hrun Hacc. revert Hrun. apply foldM_inv; [|exact Hacc].
  intros acc' name acc'' Hname Hacc' Hstep. unfold consider_protein in Hstep.
  apply bind_Ok in Hstep as [[n|] [_ Hstep]]; [|by inversion Hstep; subst].
  apply bind_Ok in Hstep as [p [Hp Hstep]].
  destruct (ltb c20 p) eqn:Hlt; inversion Hstep; subst; [|exact Hacc'].
  apply Forall_app. split; [exact Hacc'|].
  constructor; [|constructor]. cbn. by rewrite (num_ok_value _ _ Hp).
Qed.

(** The foods kept by the loop over the sampled names. *)
Lemma consider_sodium_inv (db : FoodDatabase) (cells : list (option cell)) :
  forall low kept,
    foldM (consider_sodium db) cells low = Ok kept ->
    Forall (fun x => ltb (value (sf_sodium x)) c100 = true /\
                     Some (Str (sf_food x)) ∈ cells) low ->
    Forall (fun x => ltb (value (sf_sodium x)) c100 = true /\
                     Some (Str (sf_food x)) ∈ cells) kept.
Proof.
  intros acc kept Hrun Hacc. revert Hrun. apply foldM_inv; [|exact Hacc].
  intros acc' c acc'' Hc Hacc' Hstep. unfold consider_sodium in Hstep.
  destruct c as [[name| |]|]; try discriminate.
  apply bind_Ok in Hstep as [[n|] [_ Hstep]]; [|by inversion Hstep; subst].
  apply bind_Ok in Hstep as [s [Hs Hstep]].
  destruct (ltb s c100) eqn:Hlt; inversion Hstep; subst; [|exact Hacc'].
  apply Forall_app. split; [exact Hacc'|].
  constructor; [|constructor]. cbn. by rewrite (num_ok_value _ _ Hs).
Qed.

Lemma descending_take {A} (key : A -> float) (n : nat) (l : list A) :
  descending key l -> descending key (take n l).
Proof. apply StronglySorted_take. Qed.

Lemma ascending_take {A} (key : A -> float) (n : nat) (l : list A) :
  ascending key l -> ascending key (take n l).
Proof. apply StronglySorted_take. Qed.

(** X27.  When the engine returns, the list of protein foods is present
    exactly for the activity [Active] and the list of low-sodium foods
    exactly with hypertension; the first has at most five meats of the
    catalog with more than 20 g of protein, in descending order of protein,
    the second at most ten foods with less than 100 mg of sodium, in
    ascending order of sodium. *)
Theorem specific_foods_are_filtered_and_sorted (catalog : Catalog)
    (bmi : float) (activity : string)
    (health_conditions genetic_traits : list string)
    (recommendations : SpecificRecommendations) :
  get_specific_food_recommendations catalog bmi activity health_conditions
                                    genetic_traits = Ok recommendations ->
  (high_protein recommendations = None <-> activity <> "Active") /\
  (low_sodium recommendations = None <-> ("Hypertension" ∉ health_conditions)) /\
  (forall foods, high_protein recommendations = Some foods ->
     (length foods <= 5)%nat /\
     descending (fun x => value (pf_protein x)) foods /\
     Forall (fun x => ltb c20 (value (pf_protein x)) = true /\
                      pf_food x ∈ get_food_by_category catalog MEAT) foods) /\
  (forall foods, low_sodium recommendations = Some foods ->
     (length foods <= 10)%nat /\
     ascending (fun x => value (sf_sodium x)) foods /\
     Forall (fun x => ltb (value (sf_sodium x)) c100 = true) foods).
Proof.
  unfold get_specific_food_recommendations. intros Hrun.
  apply bind_Ok in Hrun as [hp [Hhp Hrun]].
  apply bind_Ok in Hrun as [ls [Hls Hrun]].
  inversion Hrun; subst recommendations. clear Hrun.
  cbn [high_protein low_sodium].
  assert (Hprotein :
    (hp = None <-> activity <> "Active") /\
    forall foods, hp = Some foods ->
      (length foods <= 5)%nat /\
      descending (fun x => value (pf_protein x)) foods /\
      Forall (fun x => ltb c20 (value (pf_protein x)) = true /\
                       pf_food x ∈ get_food_by_category catalog MEAT) foods).
  { clear Hls. destruct (decide (activity = "Active")) as [Ha|Ha].
    2:{ rewrite (bool_decide_eq_false_2 _ Ha) in Hhp. inversion Hhp; subst hp.
        split; [by split | discriminate]. }
    rewrite (bool_decide_eq_true_2 _ Ha) in Hhp.
    apply bind_Ok in Hhp as [kept [Hkept Hhp]]. inversion Hhp; subst hp.
    split; [split; [discriminate | done]|].
    intros foods Hfoods. inversion Hfoods; subst foods.
    apply consider_protein_inv in Hkept; [|constructor].
    assert (Hsorted : Forall (fun x => ltb c20 (value (pf_protein x)) = true /\
                                       pf_food x ∈ slice_to 10
                                         (get_food_by_category catalog MEAT))
                             (py_sort_reverse (fun x => value (pf_protein x)) kept)).
    { by rewrite (py_sort_reverse_perm (fun x => value (pf_protein x)) kept). }
    split; [apply (slice_to_bound 5)|].
    destruct (slice_to_sublist 5
                (py_sort_reverse (fun x => value (pf_protein x)) kept))
      as [n ->].
    split.
    - apply descending_take, py_sort_reverse_descending.
      eapply Forall_impl; [exact Hkept|]. intros x [Hx _].
      exact (ltb_not_nan_r _ _ Hx).
    - apply Forall_take. eapply Forall_impl; [exact Hsorted|].
      intros x [Hx Hin]. split; [exact Hx|].
      exact (slice_to_elem_of _ _ _ Hin). }
  assert (Hsodium :
    (ls = None <-> ("Hypertension" ∉ health_conditions)) /\
    forall foods, ls = Some foods ->
      (length foods <= 10)%nat /\
      ascending (fun x => value (sf_sodium x)) foods /\
      Forall (fun x => ltb (value (sf_sodium x)) c100 = true) foods).
  { clear Hhp Hprotein.
    destruct (decide ("Hypertension" ∈ health_conditions)) as [Hh|Hh].
    2:{ rewrite (bool_decide_eq_false_2 _ Hh) in Hls. inversion Hls; subst ls.
        split; [by split | discriminate]. }
    rewrite (bool_decide_eq_true_2 _ Hh) in Hls.
    apply bind_Ok in Hls as [cells [_ Hls]].
    apply bind_Ok in Hls as [kept [Hkept Hls]]. inversion Hls; subst ls.
    split; [split; [discriminate | done]|].
    intros foods Hfoods. inversion Hfoods; subst foods.
    apply consider_sodium_inv in Hkept; [|constructor].
    split; [apply (slice_to_bound 10)|].
    destruct (slice_to_sublist 10
                (py_sort (fun x => value (sf_sodium x)) kept)) as [n ->].
    split.
    - apply ascending_take, py_sort_ascending.
      eapply Forall_impl; [exact Hkept|]. intros x [Hx _].
      exact (ltb_not_nan_l _ _ Hx).
    - apply Forall_take.
      rewrite (py_sort_perm (fun x => value (sf_sodium x)) kept).
      eapply Forall_impl; [exact Hkept|]. by intros x [Hx _]. }
  destruct Hprotein as [Hp1 Hp2], Hsodium as [Hs1 Hs2].
  split; [exact Hp1|]. split; [exact Hs1|]. split; [exact Hp2 | exact Hs2].
Qed.

Lemma specific_foods_are_filtered_and_sorted_witness :
  let recommendations :=
    result_default {| high_protein := None; low_sodium := None |}
      (get_specific_food_recommendations meat_catalog (of_Z 22) "Active"
                                         ["Hypertension"] []) in
  (high_protein recommendations = None <-> "Active" <> "Active") /\
  (low_sodium recommendations = None <-> ("Hypertension" ∉ ["Hypertension"])) /\
  (forall foods, high_protein recommendations = Some foods ->
     (length foods <= 5)%nat /\
     descending (fun x => value (pf_protein x)) foods /\
     Forall (fun x => ltb c20 (value (pf_protein x)) = true /\
                      pf_food x ∈ get_food_by_category meat_catalog MEAT)
            foods) /\
  (forall foods, low_sodium recommendations = Some foods ->
     (length foods <= 10)%nat /\
     ascending (fun x => value (sf_sodium x)) foods /\
     Forall (fun x => ltb (value (sf_sodium x)) c100 = true) foods).
Proof.
  apply (specific_foods_are_filtered_and_sorted meat_catalog (of_Z 22)
           "Active" ["Hypertension"] []).
  reflexivity.
Defined.

(** A name of the table is found by the lookup, however it is capitalised. *)
Lemma table_names_resolve (db : FoodDatabase) (r : row) (s name : string) :
  r ∈ rows (food_data db) -> r !! "food" = Some (Str s) ->
  lower name = lower s ->
  get_food_nutrition db name <> Raise IndexError.
Proof.
  intros Hr Hs Hname.
  destruct (decide ("food" ∈ columns (food_data db))) as [Hcol|Hcol].
  - rewrite (get_food_nutrition_lower db name (lower s))
      by (by rewrite lower_idemp).
    destruct (lowered_name_is_found db r s Hcol Hr Hs) as (r' & _ & _ & ->).
    destruct (food_of_row r') as [f|e] eqn:Hf; [discriminate|].
    apply food_of_row_raises in Hf as [col ->]. discriminate.
  - unfold get_food_nutrition, frame_col.
    by rewrite (bool_decide_eq_false_2 _ Hcol).
Qed.

Lemma consider_protein_raises (db : FoodDatabase)
    (protein_rich : list ProteinFood) (name : string) (e : exn) :
  get_food_nutrition db name <> Raise IndexError ->
  consider_protein db protein_rich name = Raise e -> e <> IndexError.
Proof.
  intros Hfound. unfold consider_protein.
  destruct (get_food_nutrition db name) as [[n|]|e'] eqn:Hget;
    cbn [mbind result_bind]; [|discriminate|].
  - destruct (num (protein n)) as [p|e'] eqn:Hp; cbn [mbind result_bind].
    + destruct (ltb c20 p); discriminate.
    + intros Hr; inversion Hr; subst e'. by rewrite (num_raises _ _ Hp).
  - intros Hr; inversion Hr; subst e'. congruence.
Qed.

Lemma consider_sodium_raises (db : FoodDatabase)
    (low : list SodiumFood) (c : option cell) (e : exn) :
  (forall name, c = Some (Str name) ->
                get_food_nutrition db name <> Raise IndexError) ->
  consider_sodium db low c = Raise e -> e <> IndexError.
Proof.
  intros Hfound. unfold consider_sodium.
  destruct c as [[name| |]|]; try (intros Hr; inversion Hr; discriminate).
  specialize (Hfound name eq_refl).
  destruct (get_food_nutrition db name) as [[n|]|e'] eqn:Hget;
    cbn [mbind result_bind]; [|discriminate|].
  - destruct (num (sodium n)) as [s|e'] eqn:Hs; cbn [mbind result_bind].
    + destruct (ltb s c100); discriminate.
    + intros Hr; inversion Hr; subst e'. by rewrite (num_raises _ _ Hs).
  - intros Hr; inversion Hr; subst e'. congruence.
Qed.

(** X28.  On a database that its constructor has built, the engine looks up
    only names of the table, so it does not fail on an unknown food: it
    never raises [IndexError]. *)
Theorem the_engine_raises_no_IndexError (table : DataFrame)
    (catalog : Catalog) (bmi : float) (activity : string)
    (health_conditions genetic_traits : list string) (e : exn) :
  FoodDatabase_init table = Ok catalog ->
  get_specific_food_recommendations catalog bmi activity health_conditions
                                    genetic_traits = Raise e ->
  e <> IndexError.
Proof.
  intros Hinit. destruct (FoodDatabase_init_spec _ _ Hinit) as [Hdb [Hall _]].
  unfold get_specific_food_recommendations. rewrite Hdb.
  match goal with
  | |- (?m ≫= _) = _ -> _ => destruct m as [hp|e1] eqn:Hhp
  end; cbn [mbind result_bind].
  - match goal with
    | |- (?m ≫= _) = _ -> _ => destruct m as [ls|e2] eqn:Hls
    end; cbn [mbind result_bind]; [discriminate|].
    intros Hr; inversion Hr; subst e2. clear Hhp.
    destruct (bool_decide ("Hypertension" ∈ health_conditions));
      [|discriminate].
    unfold column_tolist, frame_col in Hls. cbn [food_data] in Hls.
    destruct (bool_decide ("food" ∈ columns table));
      cbn [mbind result_bind] in Hls; [|inversion Hls; discriminate].
    destruct (foldM _ _ _) as [kept|e2] eqn:Hloop; [discriminate|].
    cbn [mbind result_bind] in Hls. inversion Hls; subst e2.
    revert Hloop. apply (foldM_raises (fun e => e <> IndexError)).
    intros acc c e' Hc. apply consider_sodium_raises. intros name ->.
    apply slice_to_elem_of, list_elem_of_In, in_map_iff in Hc
      as [r [Hs Hr']].
    apply (table_names_resolve _ r name name); [|exact Hs|reflexivity].
    by apply list_elem_of_In.
  - intros Hr; inversion Hr; subst e1.
    destruct (bool_decide (activity = "Active")); [|discriminate].
    destruct (foldM _ _ _) as [kept|e1] eqn:Hloop; [discriminate|].
    cbn [mbind result_bind] in Hhp. inversion Hhp; subst e1.
    revert Hloop. apply (foldM_raises (fun e => e <> IndexError)).
    intros acc name e' Hname. apply consider_protein_raises.
    apply slice_to_elem_of in Hname.
    rewrite (get_food_by_category_spec _ _ _ Hinit) in Hname.
    apply names_in_category_elem in Hname as [_ [r [Hr' ->]]].
    rewrite Forall_forall in Hall. destruct (Hall r Hr') as [s Hs].
    apply (table_names_resolve _ r s); [exact Hr' | exact Hs |].
    unfold row_name. by rewrite Hs, lower_idemp.
Qed.

Lemma the_engine_raises_no_IndexError_witness :
  get_specific_food_recommendations unlabelled_catalog (of_Z 22) "Active"
                                    ["Hypertension"] [] = Raise TypeError /\
  TypeError <> IndexError.
Proof.
  split; [reflexivity|].
  apply (the_engine_raises_no_IndexError unlabelled_table unlabelled_catalog
           (of_Z 22) "Active" ["Hypertension"] []).
  - reflexivity.
  - reflexivity.
Defined.

(** ** The protein need *)

(** X30.  The protein need in grams is the body weight in kilograms: the
    multiplication by 1.0 returns the weight unchanged, for every double. *)
Theorem the_protein_need_is_the_weight (weight : float) :
  valid_binary prec emax weight = true ->
  _calculate_protein_needs (Num weight) = Ok weight.
Proof.
  intros Hw. unfold _calculate_protein_needs. cbn [num mbind result_bind].
  by rewrite (mul_one weight Hw).
Qed.

Lemma the_protein_need_is_the_weight_witness :
  _calculate_protein_needs (Num (of_Z 70)) = Ok (of_Z 70).
Proof. apply (the_protein_need_is_the_weight (of_Z 70)). reflexivity. Defined.

(** The other literals of the source: [0.25], [18.5] and [30]. *)
Lemma more_constants_are_the_literals :
  [c0_25; c18_5; c30] = [of_dec 25 2; of_dec 185 1; of_Z 30] /\
  forallb finite [c0_25; c18_5; c30] = true.
Proof. split; vm_compute; reflexivity. Qed.
